(** * TripSync trip-recording core: a shallow embedding of the Python modules

    The development follows the four modules of [backend/app/modules]:
    [trip_state_machine.py], [route_recorder.py], [sensor_processor.py] and
    [ml_backend.py].  Each Python module becomes a Rocq [Module]; mutable
    objects become records threaded explicitly through the operations, and
    a caught exception becomes the value the [except] clause returns.
    Functions of the standard library and of third-party packages whose
    results the properties do not depend on are parameters of a [Section].

    Number model.  A Python [float] is an IEEE-754 binary64 value and is
    modelled by Rocq's primitive [float] (same format, same correctly
    rounded [+ - * /], same comparisons, NaN included).  A [datetime] is a
    point of the naive time line counted in microseconds ([Z]); the
    difference of two datetimes is a [timedelta], also in microseconds. *)

From Stdlib Require Import Floats ZArith List String Ascii Bool Lia DecimalString.
From stdpp Require Import base option list sorting strings gmap.
Import ListNotations.

Set Warnings "-inexact-float".
Local Open Scope Z_scope.

(** ** Python primitives used by the modules *)

Module Py.

Definition datetime := Z.
Definition timedelta := Z.

(** [a - b] on datetimes. *)
Definition dt_sub (a b : datetime) : timedelta := a - b.

(** [timedelta(seconds=n)] *)
Definition seconds (n : Z) : timedelta := n * 1000000.

(** The integer-to-binary64 conversion (round to nearest even). *)
Definition float_of_Z (z : Z) : float :=
  SF2Prim (binary_normalize prec emax z 0 false).

(** [td.total_seconds()]: the microsecond count divided by [10**6].  The
    quotient is correctly rounded as long as the count is below [2^53]
    microseconds (about 285 years). *)
Definition total_seconds (td : timedelta) : float :=
  (float_of_Z td / float_of_Z 1000000)%float.

(** [td.total_seconds() >= secs] for an integer number of seconds.
    Rounding to binary64 is monotone and leaves the small integer [secs]
    unchanged, and a microsecond count below [secs * 10**6] is at least
    [1e-6] short of [secs], far more than half a unit in the last place of
    any threshold below [2^30]; the float comparison therefore agrees with
    the exact comparison on microseconds, which is what is used here. *)
Definition total_seconds_ge (td : timedelta) (secs : Z) : bool :=
  secs * 1000000 <=? td.

(** [x >= y] and [x < y] on floats (both false when a NaN is involved). *)
Definition ge (x y : float) : bool := PrimFloat.leb y x.
Definition lt (x y : float) : bool := PrimFloat.ltb x y.
Definition gt (x y : float) : bool := PrimFloat.ltb y x.
Definition le (x y : float) : bool := PrimFloat.leb x y.

(** Builtin [min(a, b)] and [max(a, b)]: the first argument is kept unless
    the second is strictly smaller (resp. larger). *)
Definition min (a b : float) : float := if lt b a then b else a.
Definition max (a b : float) : float := if gt b a then b else a.

(** [a / b] on floats where the divisor is not a constant: [None] stands
    for the [ZeroDivisionError] raised when [b] is [0.0] or [-0.0]. *)
Definition py_div (a b : float) : option float :=
  if PrimFloat.eqb b 0 then None else Some (a / b)%float.

(** Truthiness of a float ([0.0] and [-0.0] are falsy, NaN is truthy) and
    [x or d] on an optional float. *)
Definition float_truthy (x : float) : bool := negb (PrimFloat.eqb x 0).
Definition or_default (x : option float) (d : float) : float :=
  match x with
  | Some v => if float_truthy v then v else d
  | None => d
  end.

(** Truthiness of an optional string ([None] and [""] are falsy). *)
Definition str_truthy (s : option string) : bool :=
  match s with
  | Some EmptyString => false
  | Some _ => true
  | None => false
  end.

(** [s[:-n]]. *)
Definition str_drop_last (n : nat) (s : string) : string :=
  substring 0 (String.length s - n) s.

(** [str.upper()] on ASCII text. *)
Definition upper_ascii (c : ascii) : ascii :=
  let n := nat_of_ascii c in
  if ((97 <=? n)%nat && (n <=? 122)%nat)%bool then ascii_of_nat (n - 32) else c.

Fixpoint upper (s : string) : string :=
  match s with
  | EmptyString => EmptyString
  | String c s' => String (upper_ascii c) (upper s')
  end.

(** The strings on which [upper] is [str.upper]: those made of ASCII
    characters. *)
Definition is_ascii (s : string) : bool :=
  forallb (fun c => (nat_of_ascii c <? 128)%nat) (list_ascii_of_string s).

(** A dictionary literal read with [.get(key, default)]. *)
Fixpoint dict_get {V : Type} (d : list (string * V)) (k : string) : option V :=
  match d with
  | [] => None
  | (k', v) :: d' => if String.eqb k k' then Some v else dict_get d' k
  end.

(** [collections.deque(maxlen=n)] and its [append]. *)
Record deque (A : Type) := mkDeque { maxlen : nat; items : list A }.
Arguments mkDeque {A} _ _.
Arguments maxlen {A} _.
Arguments items {A} _.

Definition deque_new {A : Type} (n : nat) : deque A := mkDeque n [].

Definition deque_append {A : Type} (d : deque A) (x : A) : deque A :=
  match maxlen d with
  | O => d
  | S _ =>
      if (List.length (items d) <? maxlen d)%nat
      then mkDeque (maxlen d) (items d ++ [x])
      else mkDeque (maxlen d) (List.tl (items d) ++ [x])
  end.

(** [l[i]] for an int [i]: a negative index counts from the end; [None]
    stands for the [IndexError]. *)
Definition py_index {A : Type} (l : list A) (i : Z) : option A :=
  if 0 <=? i then l !! Z.to_nat i
  else if - Z.of_nat (List.length l) <=? i
       then l !! Z.to_nat (Z.of_nat (List.length l) + i)
       else None.

(** A key of a [Dict[str, Any]]: missing, present with [None], or present
    with a value. *)
Inductive field (A : Type) := Absent | PyNone | Val (a : A).
Arguments Absent {A}.
Arguments PyNone {A}.
Arguments Val {A} _.

(** [d.get(key) is not None] selecting the value. *)
Definition field_get_val {A : Type} (f : field A) : option A :=
  match f with Val a => Some a | _ => None end.

(** [d.get(key, default)]: the default only replaces a missing key; the
    result is [None] when the key is present with [None]. *)
Definition get_default {A : Type} (f : field A) (d : A) : option A :=
  match f with
  | Absent => Some d
  | PyNone => None
  | Val a => Some a
  end.

(** [int(x)] on a float: truncation toward zero; [None] for an infinity or
    a NaN, where Python raises. *)
Definition int_of_float (x : float) : option Z :=
  match Prim2SF x with
  | S754_zero _ => Some 0
  | S754_finite s m e =>
      let mag := if 0 <=? e then Z.pos m * 2 ^ e else Z.shiftr (Z.pos m) (- e) in
      Some (if s then - mag else mag)
  | _ => None
  end.

(** [sorted(xs, key=...)] on float keys: a stable sort driven by [<].  It
    is the order [sorted] returns when no key is a NaN. *)
Fixpoint insert_by {A : Type} (key : A -> float) (x : A) (l : list A) : list A :=
  match l with
  | [] => [x]
  | y :: l' => if lt (key y) (key x) then y :: insert_by key x l' else x :: l
  end.

Definition sorted_by {A : Type} (key : A -> float) (l : list A) : list A :=
  foldr (insert_by key) [] l.

(** Builtin [max] over a non-empty list. *)
Definition max_list (x : float) (xs : list float) : float :=
  fold_left max xs x.

(** [str(n)] on an int: decimal digits, with a leading [-] when negative. *)
Definition str_int (n : Z) : string := NilZero.string_of_int (Z.to_int n).

(** [s.zfill(width)]: zeros are put on the left up to [width]; a leading
    sign stays in front of them. *)
Fixpoint zeros (n : nat) : string :=
  match n with
  | O => EmptyString
  | S n' => String "0" (zeros n')
  end.

Definition zfill (width : nat) (s : string) : string :=
  let n := String.length s in
  if (width <=? n)%nat then s
  else
    match s with
    | String c rest =>
        if (Ascii.eqb c "+" || Ascii.eqb c "-")%bool
        then String c (zeros (width - n) +:+ rest)
        else zeros (width - n) +:+ s
    | EmptyString => zeros width
    end.

(** The reply of an external collaborator: an answer, or an exception. *)
Inductive Reply (A : Type) := Answers (a : A) | Raises.
Arguments Answers {A} _.
Arguments Raises {A}.

End Py.

(** ** trip_state_machine.py *)

Module TripSM.
Import Py.

Inductive TripState := IDLE | ACTIVE.

Definition TripState_value (s : TripState) : string :=
  match s with IDLE => "idle" | ACTIVE => "active" end.

Definition TripState_eqb (a b : TripState) : bool :=
  match a, b with
  | IDLE, IDLE | ACTIVE, ACTIVE => true
  | _, _ => false
  end.

Record TripConfig := mkTripConfig {
  speed_threshold_kmh : float;
  duration_threshold_seconds : Z;
  stop_duration_threshold_seconds : Z;
  gps_collection_interval_seconds : Z
}.

Definition default_TripConfig : TripConfig := mkTripConfig 3 60 60 45.

Record SensorData := mkSensorData {
  speed_kmh : float;
  latitude : float;
  longitude : float;
  accuracy : float;
  timestamp : datetime;
  activity_type : option string
}.

Record TripContext := mkTripContext {
  trip_id : option string;
  current_state : TripState;
  state_start_time : option datetime;
  last_sensor_data : option SensorData;
  speed_above_threshold_start : option datetime;
  speed_below_threshold_start : option datetime
}.

Definition initial_TripContext : TripContext :=
  mkTripContext None IDLE None None None None.

(** The route-recorder callbacks.  A callback either returns or raises;
    the machine catches and logs the exception.  The calls made are kept
    in [hook_calls], a trace that stands for the collaborator's side. *)
Inductive HookOutcome := Returned | Raised.
Definition Hook := string -> HookOutcome.
Inductive HookCall := TripStartCalled (id : string) | TripStopCalled (id : string).

Record TripStateMachine := mkMachine {
  config : TripConfig;
  context : TripContext;
  on_trip_start : option Hook;
  on_trip_stop : option Hook;
  hook_calls : list HookCall
}.

(** [TripStateMachine(config)] *)
Definition new_machine (cfg : option TripConfig) : TripStateMachine :=
  mkMachine (from_option id default_TripConfig cfg) initial_TripContext None None [].

Definition set_route_recorder_callbacks (m : TripStateMachine)
    (on_start on_stop : Hook) : TripStateMachine :=
  mkMachine (config m) (context m) (Some on_start) (Some on_stop) (hook_calls m).

Definition with_context (m : TripStateMachine) (c : TripContext) : TripStateMachine :=
  mkMachine (config m) c (on_trip_start m) (on_trip_stop m) (hook_calls m).

Record HandlerResult := mkHandlerResult {
  state_changed : bool;
  trigger : option string
}.

Record ProcessResult := mkProcessResult {
  r_current_state : string;
  r_trip_id : option string;
  r_state_duration_seconds : float;
  r_speed_kmh : float;
  r_activity_type : option string;
  r_state_changed : bool;
  r_trigger : option string
}.

(** The wall clock as one operation sees it.  An operation calls
    [datetime.now()] up to three times: in [_generate_trip_id], in
    [_transition_to_active] or [_transition_to_idle], and in
    [_get_state_duration_seconds]; the three readings are the fields. *)
Record Clock := mkClock {
  at_generate : datetime;
  at_transition : datetime;
  at_report : datetime
}.

Section Machine.

(** [datetime.strftime("%Y%m%d_%H%M%S_%f")], the standard library's
    formatter. *)
Variable strftime_id : datetime -> string.

Definition _generate_trip_id (now : datetime) (prefix : string) : string :=
  prefix +:+ "_" +:+ str_drop_last 3 (strftime_id now).

Definition _get_state_duration_seconds (m : TripStateMachine) (now : datetime)
    : float :=
  match state_start_time (context m) with
  | Some t => total_seconds (dt_sub now t)
  | None => 0%float
  end.

Definition _transition_to_active (m : TripStateMachine) (now : datetime)
    (tid : string) (trigger : string) : TripStateMachine :=
  let ctx :=
    mkTripContext (Some tid) ACTIVE (Some now)
      (last_sensor_data (context m)) None None in
  let calls :=
    match on_trip_start m with
    | Some h =>
        match h tid with
        | Returned => hook_calls m ++ [TripStartCalled tid]
        | Raised => hook_calls m ++ [TripStartCalled tid]
        end
    | None => hook_calls m
    end in
  mkMachine (config m) ctx (on_trip_start m) (on_trip_stop m) calls.

Definition _transition_to_idle (m : TripStateMachine) (now : datetime)
    (trigger : string) : TripStateMachine :=
  let tid := trip_id (context m) in
  let calls :=
    match on_trip_stop m, tid with
    | Some h, Some t =>
        if str_truthy tid then
          match h t with
          | Returned => hook_calls m ++ [TripStopCalled t]
          | Raised => hook_calls m ++ [TripStopCalled t]
          end
        else hook_calls m
    | _, _ => hook_calls m
    end in
  let ctx :=
    mkTripContext None IDLE (Some now)
      (last_sensor_data (context m)) None None in
  mkMachine (config m) ctx (on_trip_start m) (on_trip_stop m) calls.

Definition set_speed_above (c : TripContext) (t : option datetime) : TripContext :=
  mkTripContext (trip_id c) (current_state c) (state_start_time c)
    (last_sensor_data c) t (speed_below_threshold_start c).

Definition set_speed_below (c : TripContext) (t : option datetime) : TripContext :=
  mkTripContext (trip_id c) (current_state c) (state_start_time c)
    (last_sensor_data c) (speed_above_threshold_start c) t.

Definition set_last_sensor_data (c : TripContext) (sd : SensorData) : TripContext :=
  mkTripContext (trip_id c) (current_state c) (state_start_time c)
    (Some sd) (speed_above_threshold_start c) (speed_below_threshold_start c).

Definition _handle_idle_state (m : TripStateMachine) (clk : Clock)
    (sd : SensorData) : TripStateMachine * HandlerResult :=
  if ge (speed_kmh sd) (speed_threshold_kmh (config m)) then
    match speed_above_threshold_start (context m) with
    | None =>
        (with_context m (set_speed_above (context m) (Some (timestamp sd))),
         mkHandlerResult false None)
    | Some t0 =>
        if total_seconds_ge (dt_sub (timestamp sd) t0)
             (duration_threshold_seconds (config m))
        then
          let tid := _generate_trip_id (at_generate clk) "auto" in
          (_transition_to_active m (at_transition clk) tid "automatic",
           mkHandlerResult true (Some "speed_duration_threshold"))
        else (m, mkHandlerResult false None)
    end
  else
    match speed_above_threshold_start (context m) with
    | Some _ =>
        (with_context m (set_speed_above (context m) None),
         mkHandlerResult false None)
    | None => (m, mkHandlerResult false None)
    end.

Definition _handle_active_state (m : TripStateMachine) (clk : Clock)
    (sd : SensorData) : TripStateMachine * HandlerResult :=
  if lt (speed_kmh sd) (speed_threshold_kmh (config m)) then
    match speed_below_threshold_start (context m) with
    | None =>
        (with_context m (set_speed_below (context m) (Some (timestamp sd))),
         mkHandlerResult false None)
    | Some t0 =>
        if total_seconds_ge (dt_sub (timestamp sd) t0)
             (stop_duration_threshold_seconds (config m))
        then
          (_transition_to_idle m (at_transition clk) "automatic",
           mkHandlerResult true (Some "stop_duration_threshold"))
        else (m, mkHandlerResult false None)
    end
  else
    match speed_below_threshold_start (context m) with
    | Some _ =>
        (with_context m (set_speed_below (context m) None),
         mkHandlerResult false None)
    | None => (m, mkHandlerResult false None)
    end.

(** [self._state_handlers[self.context.current_state]] *)
Definition _state_handlers (s : TripState)
    : TripStateMachine -> Clock -> SensorData -> TripStateMachine * HandlerResult :=
  match s with
  | IDLE => _handle_idle_state
  | ACTIVE => _handle_active_state
  end.

Definition process_sensor_data (m : TripStateMachine) (clk : Clock)
    (sd : SensorData) : TripStateMachine * ProcessResult :=
  let m1 := with_context m (set_last_sensor_data (context m) sd) in
  let '(m2, res) := _state_handlers (current_state (context m1)) m1 clk sd in
  (m2,
   mkProcessResult
     (TripState_value (current_state (context m2)))
     (trip_id (context m2))
     (_get_state_duration_seconds m2 (at_report clk))
     (speed_kmh sd)
     (activity_type sd)
     (state_changed res)
     (trigger res)).

Definition manual_start_trip (m : TripStateMachine) (clk : Clock)
    (user_id : string) : TripStateMachine * option string :=
  match current_state (context m) with
  | ACTIVE => (m, trip_id (context m))
  | IDLE =>
      let tid := _generate_trip_id (at_generate clk) user_id in
      (_transition_to_active m (at_transition clk) tid "manual", Some tid)
  end.

Definition manual_stop_trip (m : TripStateMachine) (clk : Clock)
    : TripStateMachine * bool :=
  match current_state (context m) with
  | ACTIVE => (_transition_to_idle m (at_transition clk) "manual", true)
  | IDLE => (m, false)
  end.

(** The three public operations, each with the clock it sees. *)
Inductive Op :=
| ProcessSensorData (clk : Clock) (sd : SensorData)
| ManualStart (clk : Clock) (user_id : string)
| ManualStop (clk : Clock).

Definition step (m : TripStateMachine) (o : Op) : TripStateMachine :=
  match o with
  | ProcessSensorData clk sd => fst (process_sensor_data m clk sd)
  | ManualStart clk u => fst (manual_start_trip m clk u)
  | ManualStop clk => fst (manual_stop_trip m clk)
  end.

Definition run (m : TripStateMachine) (ops : list Op) : TripStateMachine :=
  fold_left step ops m.

(** The id an operation generates if it starts a trip. *)
Definition new_trip_id (o : Op) : string :=
  match o with
  | ProcessSensorData clk _ => _generate_trip_id (at_generate clk) "auto"
  | ManualStart clk u => _generate_trip_id (at_generate clk) u
  | ManualStop _ => ""
  end.

(** Feeding a stream of samples: the final machine and the result of
    every call, in order. *)
Fixpoint feed (m : TripStateMachine) (xs : list (Clock * SensorData))
    : TripStateMachine * list ProcessResult :=
  match xs with
  | [] => (m, [])
  | (clk, sd) :: xs' =>
      let '(m1, r) := process_sensor_data m clk sd in
      let '(m2, rs) := feed m1 xs' in
      (m2, r :: rs)
  end.

End Machine.

(** *** Situations of a machine named in the properties *)

(** The thresholds of the default configuration: 3.0 km/h and 60 s. *)
Definition default_thresholds (m : TripStateMachine) : Prop :=
  speed_threshold_kmh (config m) = 3%float
  /\ duration_threshold_seconds (config m) = 60.

(** Idle with the start timer running since [t0]. *)
Definition armed_at (m : TripStateMachine) (t0 : datetime) : Prop :=
  current_state (context m) = IDLE
  /\ speed_above_threshold_start (context m) = Some t0.

(** Active with no stop timer running. *)
Definition cruising (m : TripStateMachine) : Prop :=
  current_state (context m) = ACTIVE
  /\ speed_below_threshold_start (context m) = None.

Definition fast (x : Clock * SensorData) : Prop :=
  ge (speed_kmh x.2) 3 = true.

(** The data-model invariant: a trip id exists exactly when Active. *)
Definition trip_id_iff_active (m : TripStateMachine) : Prop :=
  trip_id (context m) <> None <-> current_state (context m) = ACTIVE.

(** Slow samples, Active with the stop timer running since [t0], and the
    stop threshold of the default configuration. *)
Definition slow (x : Clock * SensorData) : Prop :=
  lt (speed_kmh x.2) 3 = true.

Definition stopping_since (m : TripStateMachine) (t0 : datetime) : Prop :=
  current_state (context m) = ACTIVE
  /\ speed_below_threshold_start (context m) = Some t0.

Definition default_stop_thresholds (m : TripStateMachine) : Prop :=
  speed_threshold_kmh (config m) = 3%float
  /\ stop_duration_threshold_seconds (config m) = 60.

(** The callback trace of a machine, with the trip left open at its end:
    start and stop calls alternate and each stop names the trip of the
    start before it. *)
Inductive well_paired : list HookCall -> option string -> Prop :=
| paired_nil : well_paired [] None
| paired_start (l : list HookCall) (id : string) :
    well_paired l None -> well_paired (l ++ [TripStartCalled id]) (Some id)
| paired_stop (l : list HookCall) (id : string) :
    well_paired l (Some id) -> well_paired (l ++ [TripStopCalled id]) None.

(** What the callback trace needs to stay paired. *)
Definition paired_machine (hs he : Hook) (m : TripStateMachine) : Prop :=
  on_trip_start m = Some hs /\ on_trip_stop m = Some he
  /\ well_paired (hook_calls m) (trip_id (context m))
  /\ (trip_id (context m) <> Some ""%string)
  /\ trip_id_iff_active m.

(** *** get_current_state and TripStateMachineManager *)

(** The dictionary returned by [get_current_state]. *)
Record StateInfo := mkStateInfo {
  si_state : string;
  si_trip_id : option string;
  si_state_start_time : option string;
  si_state_duration_seconds : float;
  si_last_sensor_update : option string
}.

Record TripStateMachineManager := mkManager {
  _user_machines : gmap string TripStateMachine;
  _config : TripConfig
}.

Definition new_manager : TripStateMachineManager :=
  mkManager ∅ default_TripConfig.

(** [machine.config = config] *)
Definition with_config (m : TripStateMachine) (cfg : TripConfig) : TripStateMachine :=
  mkMachine cfg (context m) (on_trip_start m) (on_trip_stop m) (hook_calls m).

(** [get_machine].  The machines the manager creates all refer to the
    manager's one [TripConfig] object; they are given its value here, which
    is the same as long as the object is only replaced ([update_config])
    and not written in place. *)
Definition get_machine (g : TripStateMachineManager) (uid : string)
    : TripStateMachineManager * TripStateMachine :=
  match _user_machines g !! uid with
  | Some m => (g, m)
  | None =>
      let m := new_machine (Some (_config g)) in
      (mkManager (<[uid := m]> (_user_machines g)) (_config g), m)
  end.

Definition remove_machine (g : TripStateMachineManager) (uid : string)
    : TripStateMachineManager :=
  mkManager (delete uid (_user_machines g)) (_config g).

Definition update_config (g : TripStateMachineManager) (cfg : TripConfig)
    : TripStateMachineManager :=
  mkManager ((fun m => with_config m cfg) <$> _user_machines g) cfg.

(** Every registered machine runs under the manager's configuration and
    has a trip id exactly when Active. *)
Definition machines_ok (g : TripStateMachineManager) : Prop :=
  forall uid m,
    _user_machines g !! uid = Some m ->
    config m = _config g /\ trip_id_iff_active m.

Section Manager.

Variable strftime_id : datetime -> string.

(** [datetime.isoformat()] *)
Variable isoformat : datetime -> string.

Definition get_current_state (m : TripStateMachine) (now : datetime) : StateInfo :=
  mkStateInfo
    (TripState_value (current_state (context m)))
    (trip_id (context m))
    (isoformat <$> state_start_time (context m))
    (_get_state_duration_seconds m now)
    ((fun sd => isoformat (timestamp sd)) <$> last_sensor_data (context m)).

(** [get_all_active_trips]; [clk] gives the clock reading taken while the
    machine of each user is visited. *)
Definition get_all_active_trips (g : TripStateMachineManager)
    (clk : string -> datetime) : gmap string StateInfo :=
  map_imap
    (fun uid m =>
       match current_state (context m) with
       | ACTIVE => Some (get_current_state m (clk uid))
       | IDLE => None
       end)
    (_user_machines g).

(** What callers do with the manager.  A caller obtains the machine of a
    user with [get_machine] and operates on it; the machine is the object
    the registry holds, so the registry holds the result. *)
Inductive ManagerCall :=
| UserOp (uid : string) (o : Op)
| SetCallbacks (uid : string) (on_start on_stop : Hook)
| RemoveMachine (uid : string)
| UpdateConfig (cfg : TripConfig).

Definition on_machine (g : TripStateMachineManager) (uid : string)
    (f : TripStateMachine -> TripStateMachine) : TripStateMachineManager :=
  let '(g1, m) := get_machine g uid in
  mkManager (<[uid := f m]> (_user_machines g1)) (_config g1).

Definition manager_call (g : TripStateMachineManager) (c : ManagerCall)
    : TripStateMachineManager :=
  match c with
  | UserOp uid o => on_machine g uid (fun m => step strftime_id m o)
  | SetCallbacks uid hs he =>
      on_machine g uid (fun m => set_route_recorder_callbacks m hs he)
  | RemoveMachine uid => remove_machine g uid
  | UpdateConfig cfg => update_config g cfg
  end.

Definition manager_run (calls : list ManagerCall) : TripStateMachineManager :=
  fold_left manager_call calls new_manager.

End Manager.

End TripSM.


(** ** route_recorder.py *)

Module RouteRec.
Import Py.

Record GPSPoint := mkGPSPoint {
  latitude : float;
  longitude : float;
  timestamp : datetime;
  accuracy : float;
  speed_kmh : option float;
  altitude : option float;
  bearing : option float
}.

Record TripRecord := mkTripRecord {
  trip_id : string;
  user_id : string;
  start_time : datetime;
  end_time : option datetime;
  gps_points : list GPSPoint;
  total_distance_km : option float;
  duration_minutes : option Z;
  status : string
}.

(** [self.config] of the recorder. *)
Record RecorderConfig := mkRecorderConfig {
  gps_collection_interval : Z;
  max_accuracy_threshold : float;
  min_distance_filter : float;
  enable_snap_to_roads : bool;
  batch_size : Z
}.

Definition default_RecorderConfig : RecorderConfig :=
  mkRecorderConfig 45 50 10 true 100.

(** The [gps_data] dictionary handed to [add_gps_point]. *)
Record GpsData := mkGpsData {
  gd_latitude : field float;
  gd_longitude : field float;
  gd_timestamp : field float;
  gd_accuracy : field float;
  gd_speed_kmh : field float;
  gd_altitude : field float;
  gd_bearing : field float
}.

(** [d.get(key)] *)
Definition field_get {A : Type} (f : field A) : option A :=
  match f with Val a => Some a | _ => None end.

(** The recorder object: its configuration, the registry of open trips
    and, as a trace, the lists of points [_batch_save_gps_points] has built
    from a trip's buffer, in order.  Each list is built before the method
    [save_gps_points_batch] is looked up on [db_service]; a collaborator
    that has the method receives the list, and with one that has not (the
    repository's [SupabaseService]) the lookup raises, which is caught and
    logged.  The heartbeat tasks only log and are left out. *)
Record RouteRecorder := mkRecorder {
  config : RecorderConfig;
  _active_trips : gmap string TripRecord;
  batch_payloads : list (list GPSPoint)
}.

Definition new_recorder (cfg : option RecorderConfig) : RouteRecorder :=
  mkRecorder (from_option id default_RecorderConfig cfg) ∅ [].

(** [trip_id.split("_")[0] if "_" in trip_id else "unknown"] *)
Fixpoint before_underscore (s : string) : option string :=
  match s with
  | EmptyString => None
  | String c s' =>
      if Ascii.eqb c "_" then Some EmptyString
      else option_map (String c) (before_underscore s')
  end.

Definition user_of_trip_id (tid : string) : string :=
  from_option id "unknown"%string (before_underscore tid).

Definition with_points (t : TripRecord) (pts : list GPSPoint) : TripRecord :=
  mkTripRecord (trip_id t) (user_id t) (start_time t) (end_time t) pts
    (total_distance_km t) (duration_minutes t) (status t).

Definition start_recording (r : RouteRecorder) (now : datetime)
    (tid : string) (uid : option string) : RouteRecorder * bool :=
  match _active_trips r !! tid with
  | Some _ => (r, false)
  | None =>
      let u := if str_truthy uid then from_option id ""%string uid
               else user_of_trip_id tid in
      let rec := mkTripRecord tid u now None [] None None "recording" in
      (mkRecorder (config r) (<[tid := rec]> (_active_trips r)) (batch_payloads r),
       true)
  end.

(** [_validate_gps_data]; [None] stands for the [TypeError] raised when a
    key is present with the value [None] and reaches a comparison. *)
Definition _validate_gps_data (cfg : RecorderConfig) (gd : GpsData) : option bool :=
  match gd_latitude gd, gd_longitude gd with
  | Absent, _ => Some false
  | _, Absent => Some false
  | PyNone, _ => None
  | Val lat, lon =>
      if negb (le (-90) lat && le lat 90) then Some false
      else
        match lon with
        | Val lon' =>
            if negb (le (-180) lon' && le lon' 180) then Some false
            else
              match gd_accuracy gd with
              | PyNone => None
              | Absent => Some (negb (gt 0 (max_accuracy_threshold cfg)))
              | Val a => Some (negb (gt a (max_accuracy_threshold cfg)))
              end
        | _ => None
        end
  end.

Section Recorder.

(** [geopy.distance.geodesic(coord1, coord2).meters] *)
Variable geodesic_meters : float * float -> float * float -> float.

(** [datetime.fromtimestamp]; [None] when it raises. *)
Variable fromtimestamp : float -> option datetime.

Definition coords (p : GPSPoint) : float * float := (latitude p, longitude p).

Definition _calculate_distance_between_points (p1 p2 : GPSPoint) : float :=
  geodesic_meters (coords p1) (coords p2).

Definition _should_add_point (cfg : RecorderConfig) (t : TripRecord)
    (new_point : GPSPoint) : bool :=
  match last (gps_points t) with
  | None => true
  | Some last_point =>
      ge (_calculate_distance_between_points last_point new_point)
         (min_distance_filter cfg)
  end.

(** The [GPSPoint(...)] built from a validated dictionary; [now_ts] is
    [datetime.now().timestamp()].  [None] when the construction raises. *)
Definition make_point (now_ts : float) (gd : GpsData) : option GPSPoint :=
  match gd_latitude gd, gd_longitude gd with
  | Val lat, Val lon =>
      let ts :=
        match gd_timestamp gd with
        | Absent => Some now_ts
        | PyNone => None
        | Val t => Some t
        end in
      match ts ≫= fromtimestamp with
      | None => None
      | Some dt =>
          Some (mkGPSPoint lat lon dt
                  (from_option id 0%float (field_get (gd_accuracy gd)))
                  (field_get (gd_speed_kmh gd))
                  (field_get (gd_altitude gd))
                  (field_get (gd_bearing gd)))
      end
  | _, _ => None
  end.

(** [add_gps_point]: every exception is caught and turned into [False];
    a point appended before the exception stays in the buffer. *)
Definition add_gps_point (r : RouteRecorder) (now_ts : float)
    (tid : string) (gd : GpsData) : RouteRecorder * bool :=
  match _active_trips r !! tid with
  | None => (r, false)
  | Some t =>
      match _validate_gps_data (config r) gd with
      | Some true =>
          match make_point now_ts gd with
          | None => (r, false)
          | Some p =>
              if _should_add_point (config r) t p then
                let t' := with_points t (gps_points t ++ [p]) in
                let trips' := <[tid := t']> (_active_trips r) in
                if batch_size (config r) =? 0 then
                  (mkRecorder (config r) trips' (batch_payloads r), false)
                else if Z.of_nat (List.length (gps_points t')) mod batch_size (config r) =? 0
                then
                  (mkRecorder (config r) trips'
                     (batch_payloads r ++ [gps_points t']), true)
                else (mkRecorder (config r) trips' (batch_payloads r), true)
              else (r, false)
          end
      | _ => (r, false)
      end
  end.

(** The loop of [_calculate_distance]: [total] is the running sum in
    meters, [prev] is [gps_points[i - 1]]. *)
Fixpoint _calculate_distance_loop (total : float) (prev : GPSPoint)
    (rest : list GPSPoint) : float :=
  match rest with
  | [] => total
  | curr :: rest' =>
      let distance_meters := geodesic_meters (coords prev) (coords curr) in
      _calculate_distance_loop
        (if lt distance_meters 1000 then (total + distance_meters)%float else total)
        curr rest'
  end.

(** [_calculate_distance] on a buffer of [GPSPoint] objects (the branch for
    dictionaries is not reached from a trip's buffer). *)
Definition _calculate_distance (pts : list GPSPoint) : float :=
  match pts with
  | [] | [_] => 0%float
  | p :: rest => (_calculate_distance_loop 0 p rest / 1000)%float
  end.

(** [_post_process_trip]: the snap-to-roads step only logs. *)
Definition _post_process_trip (t : TripRecord) : TripRecord :=
  let dist :=
    match gps_points t with
    | [] => total_distance_km t
    | _ :: _ => Some (_calculate_distance (gps_points t))
    end in
  mkTripRecord (trip_id t) (user_id t) (start_time t) (end_time t)
    (gps_points t) dist (duration_minutes t) "completed".

(** A stream of [add_gps_point] calls: clock reading, trip id, data. *)
Definition AddCall : Type := float * string * GpsData.

Definition add_all (r : RouteRecorder) (calls : list AddCall) : RouteRecorder :=
  fold_left (fun r c => fst (add_gps_point r c.1.1 c.1.2 c.2)) calls r.

(** *** The buffer invariant, as the data model states it *)

(** Great-circle lengths of the consecutive segments of a buffer. *)
Fixpoint segment_lengths_from (prev : GPSPoint) (rest : list GPSPoint) : list float :=
  match rest with
  | [] => []
  | curr :: rest' =>
      geodesic_meters (coords prev) (coords curr) :: segment_lengths_from curr rest'
  end.

Definition segment_lengths (pts : list GPSPoint) : list float :=
  match pts with
  | [] => []
  | p :: rest => segment_lengths_from p rest
  end.

(** The sum of all segment lengths, none excluded, in kilometers. *)
Definition unfiltered_sum_km (pts : list GPSPoint) : float :=
  (fold_left PrimFloat.add (segment_lengths pts) 0 / 1000)%float.






End Recorder.

(** *** Finalizing a trip: stop_recording, status and identifiers *)

(** The trip dictionary handed to the persistence collaborator. *)
Record TripData := mkTripData {
  td_user_id : string;
  td_start_time : string;
  td_end_time : option string;
  td_duration_minutes : Z;
  td_total_distance_km : float;
  td_start_latitude : float;
  td_start_longitude : float;
  td_end_latitude : float;
  td_end_longitude : float;
  td_mode : string;
  td_purpose : string;
  td_trip_number : string;
  td_chain_id : string;
  td_gps_points_count : Z;
  td_status : string
}.

(** A buffered point as it is sent to the locations table. *)
Record EnhancedPoint := mkEnhancedPoint {
  ep_latitude : float;
  ep_longitude : float;
  ep_accuracy : float;
  ep_speed_kmh : option float;
  ep_altitude : option float;
  ep_bearing : option float;
  ep_timestamp : string;
  ep_client_timestamp_ms : Z;
  ep_user_id : string
}.

(** The persistence collaborator as [_save_trip_to_database] uses it:
    [save_trip_record], the query for the rows with a trip number (their
    ids), and [save_trip_points]. *)
Record Database := mkDatabase {
  save_trip_record : TripData -> Reply bool;
  select_trip_ids : string -> Reply (list string);
  save_trip_points : string -> list EnhancedPoint -> Reply unit
}.

(** The calls made to the collaborator, in order. *)
Inductive DbCall :=
| SaveTripRecord (d : TripData)
| SelectTripIds (trip_number : string)
| SaveTripPoints (db_trip_id : string) (points : list EnhancedPoint).

(** What [stop_recording] returns: [None], the empty dictionary, or the
    trip dictionary. *)
Inductive StopReturn := StopNone | StopEmpty | StopData (d : TripData).

(** The dictionary of [get_active_trip_status]. *)
Record TripStatus := mkTripStatus {
  st_trip_id : string;
  st_user_id : string;
  st_start_time : string;
  st_status : string;
  st_gps_points_count : Z;
  st_duration_minutes : Z;
  st_estimated_distance_km : float
}.

Section Lifecycle.

Variable geodesic_meters : float * float -> float * float -> float.

(** [datetime.isoformat()], [datetime.timestamp()] and the calendar
    attributes of a datetime. *)
Variable isoformat : datetime -> string.
Variable dt_timestamp : datetime -> float.
Variable dt_year : datetime -> Z.
Variable dt_month : datetime -> Z.
Variable dt_day : datetime -> Z.
Variable dt_hour : datetime -> Z.
Variable dt_minute : datetime -> Z.
Variable dt_second : datetime -> Z.

Definition _generate_trip_number (when : datetime) : string :=
  let y := zfill 4 (str_int (dt_year when)) in
  let m := zfill 2 (str_int (dt_month when)) in
  let d := zfill 2 (str_int (dt_day when)) in
  let hh := zfill 2 (str_int (dt_hour when)) in
  let mm := zfill 2 (str_int (dt_minute when)) in
  let ss := zfill 2 (str_int (dt_second when)) in
  "TRIP-" +:+ y +:+ m +:+ d +:+ "-" +:+ hh +:+ mm +:+ ss.

Definition _generate_chain_id (when : datetime) : string :=
  let y := zfill 4 (str_int (dt_year when)) in
  let m := zfill 2 (str_int (dt_month when)) in
  let d := zfill 2 (str_int (dt_day when)) in
  let hh := zfill 2 (str_int (dt_hour when)) in
  "CHAIN-" +:+ y +:+ m +:+ d +:+ "-" +:+ hh.

(** The dictionary built by [_save_trip_to_database]. *)
Definition trip_data_of (t : TripRecord) : TripData :=
  let '(start_lat, start_lng, end_lat, end_lng) :=
    match gps_points t, last (gps_points t) with
    | first_point :: _, Some last_point =>
        (latitude first_point, longitude first_point,
         latitude last_point, longitude last_point)
    | _, _ => (0, 0, 0, 0)%float
    end in
  let now := start_time t in
  mkTripData (user_id t) (isoformat (start_time t)) (isoformat <$> end_time t)
    (from_option id 0 (duration_minutes t))
    (or_default (total_distance_km t) 0)
    start_lat start_lng end_lat end_lng "unknown" "unknown"
    (_generate_trip_number now) (_generate_chain_id now)
    (Z.of_nat (List.length (gps_points t))) (status t).

(** One buffered point converted for the locations table; [None] when the
    millisecond conversion raises. *)
Definition enhance_point (t : TripRecord) (p : GPSPoint) : option EnhancedPoint :=
  timestamp_ms ← int_of_float (dt_timestamp (timestamp p) * 1000)%float;
  Some (mkEnhancedPoint (latitude p) (longitude p) (accuracy p) (speed_kmh p)
          (altitude p) (bearing p) (isoformat (timestamp p)) timestamp_ms
          (user_id t)).

Fixpoint enhance_points (t : TripRecord) (pts : list GPSPoint)
    : option (list EnhancedPoint) :=
  match pts with
  | [] => Some []
  | p :: pts' =>
      e ← enhance_point t p; es ← enhance_points t pts'; Some (e :: es)
  end.

(** [_save_trip_to_database]: the returned dictionary (empty when saving
    the record raises) and the calls made.  Failures while the points are
    looked up, converted or saved are caught and only logged. *)
Definition _save_trip_to_database (db : Database) (t : TripRecord)
    : option TripData * list DbCall :=
  let trip_data := trip_data_of t in
  match save_trip_record db trip_data with
  | Raises => (None, [SaveTripRecord trip_data])
  | Answers success =>
      let calls :=
        match success, gps_points t with
        | true, _ :: _ =>
            let trip_number := td_trip_number trip_data in
            match select_trip_ids db trip_number with
            | Answers (db_trip_id :: _) =>
                match enhance_points t (gps_points t) with
                | Some enhanced =>
                    [SelectTripIds trip_number; SaveTripPoints db_trip_id enhanced]
                | None => [SelectTripIds trip_number]
                end
            | _ => [SelectTripIds trip_number]
            end
        | _, _ => []
        end in
      (Some trip_data, SaveTripRecord trip_data :: calls)
  end.

(** [stop_recording]: [now] is the clock read for [end_time].  When the
    duration cannot be converted the exception is caught, [None] is
    returned and the trip, already marked, stays in the registry. *)
Definition stop_recording (r : RouteRecorder) (now : datetime) (db : Database)
    (tid : string) : RouteRecorder * StopReturn * list DbCall :=
  match _active_trips r !! tid with
  | None => (r, StopNone, [])
  | Some t =>
      let t1 :=
        mkTripRecord (trip_id t) (user_id t) (start_time t) (Some now)
          (gps_points t) (total_distance_km t) (duration_minutes t) "processing" in
      match int_of_float (total_seconds (dt_sub now (start_time t)) / 60)%float with
      | None =>
          (mkRecorder (config r) (<[tid := t1]> (_active_trips r)) (batch_payloads r),
           StopNone, [])
      | Some minutes =>
          let t2 :=
            mkTripRecord (trip_id t1) (user_id t1) (start_time t1) (end_time t1)
              (gps_points t1) (total_distance_km t1) (Some minutes) (status t1) in
          let t3 := _post_process_trip geodesic_meters t2 in
          let '(saved, calls) := _save_trip_to_database db t3 in
          (mkRecorder (config r) (delete tid (_active_trips r)) (batch_payloads r),
           match saved with Some d => StopData d | None => StopEmpty end,
           calls)
      end
  end.

(** [get_active_trip_status]: [Raises] when the elapsed minutes cannot be
    converted (nothing catches that exception here). *)
Definition get_active_trip_status (r : RouteRecorder) (now : datetime)
    (tid : string) : Reply (option TripStatus) :=
  match _active_trips r !! tid with
  | None => Answers None
  | Some t =>
      match int_of_float (total_seconds (dt_sub now (start_time t)) / 60)%float with
      | None => Raises
      | Some minutes =>
          Answers
            (Some (mkTripStatus tid (user_id t) (isoformat (start_time t))
                     (status t) (Z.of_nat (List.length (gps_points t))) minutes
                     (match gps_points t with
                      | [] => 0%float
                      | _ :: _ => _calculate_distance geodesic_meters (gps_points t)
                      end)))
      end
  end.

End Lifecycle.

(** *** Predicates named in the properties *)

(** The bounds [_validate_gps_data] enforces, read on a buffered point. *)
Definition point_in_bounds (cfg : RecorderConfig) (p : GPSPoint) : bool :=
  le (-90) (latitude p) && le (latitude p) 90
  && le (-180) (longitude p) && le (longitude p) 180
  && negb (gt (accuracy p) (max_accuracy_threshold cfg)).

(** The calendar attributes of a datetime lie in their ranges. *)
Definition calendar_ranges (dt_year dt_month dt_day dt_hour dt_minute dt_second
    : datetime -> Z) (when : datetime) : Prop :=
  (1 <= dt_year when <= 9999) /\ (1 <= dt_month when <= 12)
  /\ (1 <= dt_day when <= 31) /\ (0 <= dt_hour when <= 23)
  /\ (0 <= dt_minute when <= 59) /\ (0 <= dt_second when <= 59).

End RouteRec.


(** ** sensor_processor.py *)

Module SensorProc.
Import Py.

Inductive ActivityType :=
| STILL | WALKING | RUNNING | IN_VEHICLE | ON_BICYCLE | ON_FOOT | TILTING | UNKNOWN.

Definition ActivityType_value (a : ActivityType) : string :=
  match a with
  | STILL => "still"
  | WALKING => "walking"
  | RUNNING => "running"
  | IN_VEHICLE => "in_vehicle"
  | ON_BICYCLE => "on_bicycle"
  | ON_FOOT => "on_foot"
  | TILTING => "tilting"
  | UNKNOWN => "unknown"
  end.

Record RawSensorData := mkRawSensorData {
  user_id : string;
  timestamp : datetime;
  latitude : float;
  longitude : float;
  accuracy : float;
  speed_mps : option float;
  altitude : option float;
  bearing : option float;
  activity_type : option string;
  activity_confidence : option float;
  accelerometer_x : option float;
  accelerometer_y : option float;
  accelerometer_z : option float;
  device_id : option string;
  platform : option string
}.

Record ProcessedSensorData := mkProcessedSensorData {
  p_user_id : string;
  p_timestamp : datetime;
  p_latitude : float;
  p_longitude : float;
  p_accuracy : float;
  p_speed_kmh : float;
  p_activity_type : ActivityType;
  p_activity_confidence : float;
  p_is_moving : bool;
  p_movement_confidence : float;
  p_location_quality : string;
  p_altitude : option float;
  p_bearing : option float;
  p_motion_variance : option float;
  p_is_stationary : option bool
}.

(** *** SensorDataValidator *)

Record ValidatorConfig := mkValidatorConfig {
  max_accuracy_threshold : float;
  max_speed_kmh : float;
  min_confidence_threshold : float;
  lat_min : float;
  lat_max : float;
  lon_min : float;
  lon_max : float
}.

Definition validator_config : ValidatorConfig :=
  mkValidatorConfig 100 200 0.3 (-90) 90 (-180) 180.

(** The message of [validate_gps_data]; the two formatted messages keep
    the number they print. *)
Inductive ValidationMessage :=
| Valid
| InvalidLatitude
| InvalidLongitude
| PoorAccuracy (accuracy_m : float)
| UnrealisticSpeed (speed : float).

Definition validate_gps_data (data : RawSensorData) : bool * ValidationMessage :=
  let cfg := validator_config in
  if negb (le (lat_min cfg) (latitude data) && le (latitude data) (lat_max cfg))
  then (false, InvalidLatitude)
  else if negb (le (lon_min cfg) (longitude data) && le (longitude data) (lon_max cfg))
  then (false, InvalidLongitude)
  else if gt (accuracy data) (max_accuracy_threshold cfg)
  then (false, PoorAccuracy (accuracy data))
  else
    match speed_mps data with
    | Some v =>
        let speed := (v * 3.6)%float in
        if gt speed (max_speed_kmh cfg) then (false, UnrealisticSpeed speed)
        else (true, Valid)
    | None => (true, Valid)
    end.

Definition get_location_quality (accuracy : float) : string :=
  if le accuracy 5 then "excellent"
  else if le accuracy 15 then "good"
  else if le accuracy 50 then "fair"
  else "poor".

(** *** ActivityRecognitionProcessor *)

(** [self.activity_mapping], in the order of the dictionary literal. *)
Definition activity_mapping : list (string * ActivityType) :=
  [ ("IN_VEHICLE", IN_VEHICLE);
    ("ON_BICYCLE", ON_BICYCLE);
    ("ON_FOOT", ON_FOOT);
    ("RUNNING", RUNNING);
    ("STILL", STILL);
    ("TILTING", TILTING);
    ("WALKING", WALKING);
    ("automotive", IN_VEHICLE);
    ("cycling", ON_BICYCLE);
    ("running", RUNNING);
    ("walking", WALKING);
    ("stationary", STILL);
    ("in_vehicle", IN_VEHICLE);
    ("on_bicycle", ON_BICYCLE);
    ("on_foot", ON_FOOT);
    ("still", STILL);
    ("unknown", UNKNOWN) ]%string.

Definition process_activity (activity_type : option string)
    (confidence : option float) : ActivityType * float :=
  let key :=
    match activity_type with
    | Some s => if str_truthy activity_type then upper s else "UNKNOWN"%string
    | None => "UNKNOWN"%string
    end in
  let normalized_activity := from_option id UNKNOWN (dict_get activity_mapping key) in
  let normalized_confidence := max 0 (min 1 (or_default confidence 0.5)) in
  (normalized_activity, normalized_confidence).

(** The table [movement_activities]. *)
Definition movement_activities (a : ActivityType) : float :=
  match a with
  | IN_VEHICLE => 0.9
  | ON_BICYCLE => 0.9
  | RUNNING => 0.95
  | WALKING => 0.8
  | ON_FOOT => 0.7
  | STILL => 0.1
  | TILTING => 0.3
  | UNKNOWN => 0.5
  end.

Definition determine_movement_state (activity : ActivityType)
    (confidence speed_kmh : float) : bool * float :=
  let activity_movement_score := movement_activities activity in
  let speed_movement_score := min 1 (speed_kmh / 5) in
  let combined_score :=
    (activity_movement_score * confidence
     + speed_movement_score * (1 - confidence))%float in
  (gt combined_score 0.5, combined_score).

(** *** MotionAnalyzer *)

Record MotionSample := mkMotionSample {
  ms_timestamp : datetime;
  ms_magnitude : float;
  ms_x : float;
  ms_y : float;
  ms_z : float
}.

(** A [MotionAnalyzer] is its [motion_history] deque. *)
Definition MotionAnalyzer : Type := deque MotionSample.

Definition new_MotionAnalyzer (window_size : nat) : MotionAnalyzer :=
  deque_new window_size.

(** *** SensorDataProcessor *)

Record ProcessorConfig := mkProcessorConfig {
  speed_smoothing_window : nat;
  location_smoothing_window : nat;
  min_time_between_updates : Z
}.

Definition processor_config : ProcessorConfig := mkProcessorConfig 5 3 5.

Record SensorDataProcessor := mkProcessor {
  motion_analyzers : gmap string MotionAnalyzer;
  speed_windows : gmap string (deque float);
  config : ProcessorConfig
}.

Definition new_processor : SensorDataProcessor :=
  mkProcessor ∅ ∅ processor_config.

Section Processor.

(** The builtin [sum] over a list of floats, [statistics.variance] and the
    float power [x ** y] of the interpreter and its library; the power
    returns [None] where Python raises [OverflowError]. *)
Variable py_sum : list float -> float.
Variable statistics_variance : list float -> float.
Variable float_pow : float -> float -> option float.

Definition add_motion_data (a : MotionAnalyzer) (now : datetime)
    (accel_x accel_y accel_z : float) : option MotionAnalyzer :=
  x2 ← float_pow accel_x 2;
  y2 ← float_pow accel_y 2;
  z2 ← float_pow accel_z 2;
  magnitude ← float_pow (x2 + y2 + z2)%float 0.5;
  Some (deque_append a (mkMotionSample now magnitude accel_x accel_y accel_z)).

Definition calculate_motion_variance (a : MotionAnalyzer) : option float :=
  if (List.length (items a) <? 3)%nat then None
  else Some (statistics_variance (map ms_magnitude (items a))).

Definition is_stationary (a : MotionAnalyzer) (threshold : float) : option bool :=
  match calculate_motion_variance a with
  | None => None
  | Some variance => Some (lt variance threshold)
  end.

Definition _process_speed (p : SensorDataProcessor) (raw : RawSensorData)
    : SensorDataProcessor * float :=
  let uid := user_id raw in
  let current_speed_kmh := (or_default (speed_mps raw) 0 * 3.6)%float in
  let window :=
    match speed_windows p !! uid with
    | Some w => w
    | None => deque_new (speed_smoothing_window (config p))
    end in
  let window' := deque_append window current_speed_kmh in
  let speeds := items window' in
  (mkProcessor (motion_analyzers p) (<[uid := window']> (speed_windows p)) (config p),
   match speeds with
   | [] => 0%float
   | _ :: _ => (py_sum speeds / float_of_Z (Z.of_nat (List.length speeds)))%float
   end).

(** [_process_motion_data]; the analyzer of a new user is registered before
    [add_motion_data] runs, so it stays registered when that call raises
    (second component [None]). *)
Definition _process_motion_data (p : SensorDataProcessor) (now : datetime)
    (raw : RawSensorData) (x y z : float)
    : SensorDataProcessor * option (option float * option bool) :=
  let uid := user_id raw in
  let analyzer :=
    match motion_analyzers p !! uid with
    | Some a => a
    | None => new_MotionAnalyzer 10
    end in
  match add_motion_data analyzer now x y z with
  | None =>
      (mkProcessor (<[uid := analyzer]> (motion_analyzers p)) (speed_windows p)
         (config p), None)
  | Some analyzer' =>
      (mkProcessor (<[uid := analyzer']> (motion_analyzers p)) (speed_windows p)
         (config p),
       Some (calculate_motion_variance analyzer', is_stationary analyzer' 0.5))
  end.

(** [process_sensor_data]; [now] is the clock read by [add_motion_data].
    An exception is caught and gives [None]; what was stored before it
    stays stored. *)
Definition process_sensor_data (p : SensorDataProcessor) (now : datetime)
    (raw : RawSensorData) : SensorDataProcessor * option ProcessedSensorData :=
  match validate_gps_data raw with
  | (false, _) => (p, None)
  | (true, _) =>
      let '(p1, speed_kmh) := _process_speed p raw in
      let '(act, act_conf) :=
        process_activity (activity_type raw) (activity_confidence raw) in
      let '(is_moving, movement_confidence) :=
        determine_movement_state act act_conf speed_kmh in
      let '(p2, motion) :=
        match accelerometer_x raw, accelerometer_y raw, accelerometer_z raw with
        | Some x, Some y, Some z => _process_motion_data p1 now raw x y z
        | _, _, _ => (p1, Some (None, None))
        end in
      (p2,
       '(motion_variance, stationary) ← motion;
       Some (mkProcessedSensorData (user_id raw) (timestamp raw) (latitude raw)
               (longitude raw) (accuracy raw) speed_kmh act act_conf is_moving
               movement_confidence (get_location_quality (accuracy raw))
               (altitude raw) (bearing raw) motion_variance stationary))
  end.

Definition cleanup_user_data (p : SensorDataProcessor) (uid : string)
    : SensorDataProcessor :=
  mkProcessor (delete uid (motion_analyzers p)) (delete uid (speed_windows p))
    (config p).

(** The calls a processor receives over its life. *)
Inductive Call :=
| Process (now : datetime) (raw : RawSensorData)
| Cleanup (uid : string).

Definition call (p : SensorDataProcessor) (c : Call) : SensorDataProcessor :=
  match c with
  | Process now raw => fst (process_sensor_data p now raw)
  | Cleanup uid => cleanup_user_data p uid
  end.

Definition run (calls : list Call) : SensorDataProcessor :=
  fold_left call calls new_processor.

(** The arithmetic mean of a window, as [_process_speed] returns it. *)
Definition window_mean (w : list float) : float :=
  (py_sum w / float_of_Z (Z.of_nat (List.length w)))%float.

End Processor.

(** The entries of [activity_mapping] written in upper case (the Android
    vocabulary). *)
Definition upper_case_entries : list (string * ActivityType) :=
  firstn 7 activity_mapping.

(** Every smoothing window was created with the configured length 5. *)
Definition windows_ok (p : SensorDataProcessor) : Prop :=
  config p = processor_config
  /\ forall uid w, speed_windows p !! uid = Some w -> maxlen w = 5%nat.

(** The speed, in km/h, a sample offers to the smoothing window. *)
Definition offered_speed (raw : RawSensorData) : float :=
  (or_default (speed_mps raw) 0 * 3.6)%float.

(** The speeds the samples of user [uid] have offered since the user's
    data was last cleaned up: one per sample that passed validation. *)
Definition speeds_step (uid : string) (acc : list float) (c : Call) : list float :=
  match c with
  | Process _ raw =>
      if (validate_gps_data raw).1 && String.eqb (user_id raw) uid
      then acc ++ [offered_speed raw] else acc
  | Cleanup u => if String.eqb u uid then [] else acc
  end.

Definition speeds_since_cleanup (uid : string) (calls : list Call) : list float :=
  fold_left (speeds_step uid) calls [].

(** The last [n] elements of a list. *)
Definition last_n {A : Type} (n : nat) (l : list A) : list A :=
  drop (List.length l - n) l.

(** A deque never holds more than its [maxlen]. *)
Definition within_maxlen {A : Type} (d : deque A) : Prop :=
  (List.length (items d) <= maxlen d)%nat.

(** The bounds [validate_gps_data] enforces, read on a returned record. *)
Definition processed_in_bounds (out : ProcessedSensorData) : bool :=
  le (-90) (p_latitude out) && le (p_latitude out) 90
  && le (-180) (p_longitude out) && le (p_longitude out) 180
  && negb (gt (p_accuracy out) 100).

(** No per-user history grows beyond its length: 5 speeds, 10 motion
    samples. *)
Definition histories_bounded (p : SensorDataProcessor) : Prop :=
  (forall uid w, speed_windows p !! uid = Some w ->
                 maxlen w = 5%nat /\ within_maxlen w)
  /\ (forall uid a, motion_analyzers p !! uid = Some a ->
                    maxlen a = 10%nat /\ within_maxlen a).

End SensorProc.


(** ** ml_backend.py *)

Module MLBackend.
Import Py.

Inductive TransportMode :=
| WALKING | RUNNING | CYCLING | CAR | BUS | TRAIN | METRO | STATIONARY | UNKNOWN.

(** [TransportMode(value)]; [None] stands for the [ValueError]. *)
Definition TransportMode_of_value (s : string) : option TransportMode :=
  dict_get
    [ ("walking", WALKING); ("running", RUNNING); ("cycling", CYCLING);
      ("car", CAR); ("bus", BUS); ("train", TRAIN); ("metro", METRO);
      ("stationary", STATIONARY); ("unknown", UNKNOWN) ]%string s.

(** The fields annotated [float] are binary64 floats here, as are the
    numbers in the dictionaries the extractor reads.  Python does not
    enforce the annotation: a Python int that reaches such a field (as
    [statistics.mean] of ints all alike can) and is too large for a float
    makes later arithmetic raise [OverflowError]; such values are outside
    this model. *)
Record MLFeatures := mkMLFeatures {
  avg_speed_kmh : float;
  max_speed_kmh : float;
  speed_variance : float;
  speed_percentile_95 : float;
  avg_acceleration : float;
  max_acceleration : float;
  acceleration_variance : float;
  stop_frequency : float;
  direction_changes : Z;
  distance_straight_line : float;
  distance_actual : float;
  duration_minutes : float;
  time_of_day : Z;
  day_of_week : Z;
  activity_confidence : float;
  activity_consistency : float;
  avg_accuracy : float;
  gps_point_count : Z;
  motion_variance : option float;
  stationary_periods : option Z
}.

(** A GPS point and a sensor sample as the dictionaries the extractor
    reads, restricted to the keys it reads. *)
Record PointDict := mkPointDict {
  pt_timestamp : field float;
  pt_speed_kmh : field float;
  pt_latitude : field float;
  pt_longitude : field float;
  pt_accuracy : field float
}.

Record SensorDict := mkSensorDict {
  sd_accel_x : field float;
  sd_accel_y : field float;
  sd_accel_z : field float;
  sd_activity_confidence : field float
}.

(** Values of the keyword dictionaries: a float or an int. *)
Inductive pyval := VFloat (x : float) | VInt (z : Z).

Definition as_float (v : pyval) : float :=
  match v with VFloat x => x | VInt z => float_of_Z z end.

(** The int-annotated fields are only ever bound to ints. *)
Definition as_int (v : pyval) : Z :=
  match v with VInt z => z | VFloat x => from_option id 0 (int_of_float x) end.

Definition kwargs : Type := list (string * pyval).

Definition required_fields : list string :=
  [ "avg_speed_kmh"; "max_speed_kmh"; "speed_variance"; "speed_percentile_95";
    "avg_acceleration"; "max_acceleration"; "acceleration_variance";
    "stop_frequency"; "direction_changes"; "distance_straight_line";
    "distance_actual"; "duration_minutes"; "time_of_day"; "day_of_week";
    "activity_confidence"; "activity_consistency"; "avg_accuracy";
    "gps_point_count" ]%string.

Definition optional_fields : list string :=
  [ "motion_variance"; "stationary_periods" ]%string.

Definition mem_string (k : string) (l : list string) : bool :=
  existsb (String.eqb k) l.

Fixpoint has_duplicate (l : list string) : bool :=
  match l with
  | [] => false
  | k :: l' => mem_string k l' || has_duplicate l'
  end.

(** The [MLFeatures] constructor applied to the unpacked dictionaries, here
    concatenated: a key
    given twice, an unknown key or a missing required field raises
    [TypeError], rendered by [None]. *)
Definition build_MLFeatures (kw : kwargs) : option MLFeatures :=
  let keys := map fst kw in
  if has_duplicate keys then None
  else if negb (forallb (fun k => mem_string k (required_fields ++ optional_fields)) keys)
  then None
  else
    let f k := as_float <$> dict_get kw k in
    let i k := as_int <$> dict_get kw k in
    a1 ← f "avg_speed_kmh"%string;
    a2 ← f "max_speed_kmh"%string;
    a3 ← f "speed_variance"%string;
    a4 ← f "speed_percentile_95"%string;
    a5 ← f "avg_acceleration"%string;
    a6 ← f "max_acceleration"%string;
    a7 ← f "acceleration_variance"%string;
    a8 ← f "stop_frequency"%string;
    a9 ← i "direction_changes"%string;
    a10 ← f "distance_straight_line"%string;
    a11 ← f "distance_actual"%string;
    a12 ← f "duration_minutes"%string;
    a13 ← i "time_of_day"%string;
    a14 ← i "day_of_week"%string;
    a15 ← f "activity_confidence"%string;
    a16 ← f "activity_consistency"%string;
    a17 ← f "avg_accuracy"%string;
    a18 ← i "gps_point_count"%string;
    Some (mkMLFeatures a1 a2 a3 a4 a5 a6 a7 a8 a9 a10 a11 a12 a13 a14 a15 a16
            a17 a18 (f "motion_variance"%string) (i "stationary_periods"%string)).

(** *** FeatureExtractor *)

Record ExtractorConfig := mkExtractorConfig {
  min_points_for_features : nat;
  stop_speed_threshold : float;
  direction_change_threshold : float
}.

Definition extractor_config : ExtractorConfig := mkExtractorConfig 10 2 45.

(** Consecutive pairs [(l[i-1], l[i])] for [i] from 1. *)
Fixpoint pairs_from {A : Type} (prev : A) (rest : list A) : list (A * A) :=
  match rest with
  | [] => []
  | x :: rest' => (prev, x) :: pairs_from x rest'
  end.

Definition consecutive {A : Type} (l : list A) : list (A * A) :=
  match l with
  | [] => []
  | x :: rest => pairs_from x rest
  end.

(** [for x in xs: acc = f(acc, x)] where the body may raise. *)
Fixpoint fold_raise {A B : Type} (f : B -> A -> option B) (xs : list A) (acc : B)
    : option B :=
  match xs with
  | [] => Some acc
  | x :: xs' => acc' ← f acc x; fold_raise f xs' acc'
  end.

(** [[f(x) for x in xs]] where [f] may raise. *)
Fixpoint map_raise {A B : Type} (f : A -> option B) (xs : list A) : option (list B) :=
  match xs with
  | [] => Some []
  | x :: xs' => y ← f x; ys ← map_raise f xs'; Some (y :: ys)
  end.

Section Extractor.

(** The [statistics] and [math] functions and the interpreter's float
    operations the extractor calls.  Those that can raise (a domain or
    range error) return [None] when they do. *)
Variable statistics_mean : list float -> float.
Variable statistics_variance : list float -> option float.
Variable math_radians : float -> float.
Variable math_degrees : float -> float.
Variable math_sin : float -> option float.
Variable math_cos : float -> option float.
Variable math_asin : float -> option float.
Variable math_sqrt : float -> option float.
Variable math_atan2 : float -> float -> float.
Variable float_pow : float -> float -> option float.
Variable float_mod : float -> float -> float.

(** [datetime.fromtimestamp], [.hour] and [.weekday()]. *)
Variable fromtimestamp : float -> option datetime.
Variable dt_hour : datetime -> Z.
Variable dt_weekday : datetime -> Z.

Definition _percentile (data : list float) (percentile : Z) : option float :=
  match data with
  | [] => Some 0%float
  | _ :: _ =>
      let sorted_data := sorted_by id data in
      let n := List.length sorted_data in
      index ← int_of_float
                (float_of_Z percentile / 100 * float_of_Z (Z.of_nat n))%float;
      py_index sorted_data (Z.min index (Z.of_nat n - 1))
  end.

Definition _extract_speed_features (points : list PointDict) : option kwargs :=
  let speeds := omap (fun p => field_get_val (pt_speed_kmh p)) points in
  match speeds with
  | [] =>
      Some [ ("avg_speed_kmh", VFloat 0); ("max_speed_kmh", VFloat 0);
             ("speed_variance", VFloat 0); ("speed_percentile_95", VFloat 0) ]%string
  | s0 :: srest =>
      let accelerations :=
        map (fun pr => (abs (pr.2 - pr.1) / 1)%float) (consecutive speeds) in
      speed_variance ←
        (if (1 <? List.length speeds)%nat then statistics_variance speeds
         else Some 0%float);
      p95 ← _percentile speeds 95;
      acceleration_variance ←
        (if (1 <? List.length accelerations)%nat
         then statistics_variance accelerations else Some 0%float);
      Some [ ("avg_speed_kmh", VFloat (statistics_mean speeds));
             ("max_speed_kmh", VFloat (max_list s0 srest));
             ("speed_variance", VFloat speed_variance);
             ("speed_percentile_95", VFloat p95);
             ("avg_acceleration",
              VFloat (match accelerations with
                      | [] => 0
                      | _ :: _ => statistics_mean accelerations
                      end));
             ("max_acceleration",
              VFloat (match accelerations with
                      | [] => 0
                      | a0 :: arest => max_list a0 arest
                      end));
             ("acceleration_variance", VFloat acceleration_variance) ]%string
  end.

Definition _calculate_duration_hours (points : list PointDict) : option float :=
  match points, last points with
  | p0 :: _ :: _, Some pn =>
      start_time ← get_default (pt_timestamp p0) 0%float;
      end_time ← get_default (pt_timestamp pn) 0%float;
      Some ((end_time - start_time) / 3600)%float
  | _, _ => Some 0%float
  end.

Definition _calculate_bearing (point1 point2 : PointDict) : option float :=
  lat1 ← math_radians <$> get_default (pt_latitude point1) 0%float;
  lat2 ← math_radians <$> get_default (pt_latitude point2) 0%float;
  lon1 ← math_radians <$> get_default (pt_longitude point1) 0%float;
  lon2 ← math_radians <$> get_default (pt_longitude point2) 0%float;
  let dlon := (lon2 - lon1)%float in
  sin_dlon ← math_sin dlon;
  cos_lat2 ← math_cos lat2;
  let y := (sin_dlon * cos_lat2)%float in
  cos_lat1 ← math_cos lat1;
  sin_lat2 ← math_sin lat2;
  sin_lat1 ← math_sin lat1;
  cos_lat2' ← math_cos lat2;
  cos_dlon ← math_cos dlon;
  let x := (cos_lat1 * sin_lat2 - sin_lat1 * cos_lat2' * cos_dlon)%float in
  let bearing := math_degrees (math_atan2 y x) in
  Some (float_mod (bearing + 360) 360).

(** Triples [(l[i-2], l[i-1], l[i])] for [i] from 2. *)
Fixpoint triples {A : Type} (l : list A) : list (A * A * A) :=
  match l with
  | a :: ((b :: c :: _) as l') => (a, b, c) :: triples l'
  | _ => []
  end.

Definition _calculate_direction_changes (cfg : ExtractorConfig)
    (points : list PointDict) : option Z :=
  if (List.length points <? 3)%nat then Some 0
  else
    fold_raise
      (fun direction_changes '(a, b, c) =>
         bearing1 ← _calculate_bearing a b;
         bearing2 ← _calculate_bearing b c;
         let angle_diff := abs (bearing2 - bearing1) in
         let angle_diff' :=
           if gt angle_diff 180 then (360 - angle_diff)%float else angle_diff in
         Some (if gt angle_diff' (direction_change_threshold cfg)
               then direction_changes + 1 else direction_changes))
      (triples points) 0.

Definition _haversine_distance (point1 point2 : PointDict) : option float :=
  lat1 ← math_radians <$> get_default (pt_latitude point1) 0%float;
  lon1 ← math_radians <$> get_default (pt_longitude point1) 0%float;
  lat2 ← math_radians <$> get_default (pt_latitude point2) 0%float;
  lon2 ← math_radians <$> get_default (pt_longitude point2) 0%float;
  let dlat := (lat2 - lat1)%float in
  let dlon := (lon2 - lon1)%float in
  s1 ← math_sin (dlat / 2);
  s1sq ← float_pow s1 2;
  c1 ← math_cos lat1;
  c2 ← math_cos lat2;
  s2 ← math_sin (dlon / 2);
  s2sq ← float_pow s2 2;
  let a := (s1sq + c1 * c2 * s2sq)%float in
  r ← math_sqrt a;
  as_ ← math_asin r;
  let c := (2 * as_)%float in
  Some (c * 6371)%float.

Definition _calculate_actual_distance (points : list PointDict) : option float :=
  if (List.length points <? 2)%nat then Some 0%float
  else
    fold_raise
      (fun total_distance '(a, b) =>
         distance ← _haversine_distance a b;
         Some (total_distance + distance)%float)
      (consecutive points) 0%float.

Definition _calculate_straight_line_distance (points : list PointDict)
    : option float :=
  match points, last points with
  | p0 :: _ :: _, Some pn => _haversine_distance p0 pn
  | _, _ => Some 0%float
  end.

Definition _extract_movement_features (cfg : ExtractorConfig)
    (points : list PointDict) : option kwargs :=
  stop_count ←
    fold_raise
      (fun stop_count point =>
         v ← get_default (pt_speed_kmh point) 0%float;
         Some (if lt v (stop_speed_threshold cfg) then stop_count + 1 else stop_count))
      points 0;
  duration_hours ← _calculate_duration_hours points;
  let stop_frequency :=
    if gt duration_hours 0
    then VFloat (float_of_Z stop_count / (duration_hours * 60))%float
    else VInt 0 in
  direction_changes ← _calculate_direction_changes cfg points;
  distance_actual ← _calculate_actual_distance points;
  distance_straight ← _calculate_straight_line_distance points;
  Some [ ("stop_frequency", stop_frequency);
         ("direction_changes", VInt direction_changes);
         ("distance_actual", VFloat distance_actual);
         ("distance_straight_line", VFloat distance_straight) ]%string.

Definition _extract_time_features (points : list PointDict) : option kwargs :=
  match points, last points with
  | first_point :: _, Some last_point =>
      t0 ← get_default (pt_timestamp first_point) 0%float;
      start_time ← fromtimestamp t0;
      t1 ← get_default (pt_timestamp last_point) 0%float;
      end_time ← fromtimestamp t1;
      let duration := (total_seconds (dt_sub end_time start_time) / 60)%float in
      Some [ ("duration_minutes", VFloat duration);
             ("time_of_day", VInt (dt_hour start_time));
             ("day_of_week", VInt (dt_weekday start_time)) ]%string
  | _, _ =>
      Some [ ("duration_minutes", VFloat 0); ("time_of_day", VInt 0);
             ("day_of_week", VInt 0) ]%string
  end.

Definition _extract_gps_features (points : list PointDict) : option kwargs :=
  let accuracies := omap (fun p => field_get_val (pt_accuracy p)) points in
  Some [ ("avg_accuracy",
          VFloat (match accuracies with
                  | [] => 100
                  | _ :: _ => statistics_mean accuracies
                  end));
         ("gps_point_count", VInt (Z.of_nat (List.length points)));
         ("activity_confidence", VFloat 0.5);
         ("activity_consistency", VFloat 0.5) ]%string.

Definition has_accel_keys (d : SensorDict) : bool :=
  match sd_accel_x d, sd_accel_y d, sd_accel_z d with
  | Absent, _, _ | _, Absent, _ | _, _, Absent => false
  | _, _, _ => true
  end.

(** [data[key]] for a key known to be present. *)
Definition subscript {A : Type} (f : field A) : option A :=
  match f with Val a => Some a | _ => None end.

Definition _extract_sensor_features (sensor_data : list SensorDict)
    : option kwargs :=
  motion_values ←
    fold_raise
      (fun motion_values data =>
         if has_accel_keys data then
           x ← subscript (sd_accel_x data); x2 ← float_pow x 2;
           y ← subscript (sd_accel_y data); y2 ← float_pow y 2;
           z ← subscript (sd_accel_z data); z2 ← float_pow z 2;
           magnitude ← float_pow (x2 + y2 + z2)%float 0.5;
           Some (motion_values ++ [magnitude])
         else Some motion_values)
      sensor_data [];
  features1 ←
    match motion_values with
    | [] => Some []
    | _ :: _ =>
        motion_variance ←
          (if (1 <? List.length motion_values)%nat
           then statistics_variance motion_values else Some 0%float);
        Some [ ("motion_variance"%string, VFloat motion_variance) ]
    end;
  match sensor_data with
  | [] => Some features1
  | _ :: _ =>
      confidences ←
        map_raise (fun d => get_default (sd_activity_confidence d) 0.5%float)
          sensor_data;
      Some (features1 ++
            [ ("activity_confidence"%string, VFloat (statistics_mean confidences)) ])
  end.

(** [extract_features]: [None] both for too few points and for any
    exception raised inside the [try] block. *)
Definition extract_features (gps_points : list PointDict)
    (sensor_data : option (list SensorDict)) : option MLFeatures :=
  let cfg := extractor_config in
  if (List.length gps_points <? min_points_for_features cfg)%nat then None
  else
    keys ← map_raise (fun p => get_default (pt_timestamp p) 0%float) gps_points;
    let sorted_points :=
      sorted_by (fun p => from_option id 0%float (get_default (pt_timestamp p) 0%float))
        gps_points in
    speed_features ← _extract_speed_features sorted_points;
    movement_features ← _extract_movement_features cfg sorted_points;
    time_features ← _extract_time_features sorted_points;
    gps_features ← _extract_gps_features sorted_points;
    sensor_features ←
      match sensor_data with
      | Some ((_ :: _) as sd) => _extract_sensor_features sd
      | _ => Some []
      end;
    build_MLFeatures
      (speed_features ++ movement_features ++ time_features ++ gps_features
       ++ sensor_features).

End Extractor.

(** *** SimpleMLClassifier *)

(** [self.rules]: the three threshold tables.  The bounds are small
    integers in the source; they are written here as the floats they are
    converted to when they meet a float operand. *)
Definition speed_thresholds : list (string * (float * float)) :=
  [ ("walking", (0, 8)); ("cycling", (8, 25)); ("car", (15, 120));
    ("bus", (10, 80)); ("train", (30, 200)) ]%string%float.

Definition acceleration_thresholds : list (string * (float * float)) :=
  [ ("walking", (0, 2)); ("cycling", (0, 3)); ("car", (0, 5));
    ("bus", (0, 4)); ("train", (0, 3)) ]%string%float.

Definition stop_frequency_thresholds : list (string * (float * float)) :=
  [ ("walking", (0, 10)); ("cycling", (0, 5)); ("car", (2, 20));
    ("bus", (5, 30)); ("train", (1, 10)) ]%string%float.

(** [_score_in_range]; [None] stands for the [ZeroDivisionError] of a
    division by a zero half-width or penalty range. *)
Definition _score_in_range (value : float) (range_tuple : float * float)
    : option float :=
  let '(min_val, max_val) := range_tuple in
  if le min_val value && le value max_val then
    let range_size := (max_val - min_val)%float in
    if PrimFloat.eqb range_size 0 then Some 1%float
    else
      let center := ((min_val + max_val) / 2)%float in
      let distance_from_center := abs (value - center) in
      normalized_distance ← py_div distance_from_center (range_size / 2);
      Some (max 0 (1 - normalized_distance))
  else
    let '(distance, penalty_range) :=
      if lt value min_val
      then ((min_val - value)%float, (min_val * 0.5)%float)
      else ((value - max_val)%float, (max_val * 0.5)%float) in
    if PrimFloat.eqb penalty_range 0 then Some 0%float
    else
      penalty ← py_div distance penalty_range;
      Some (max 0 (1 - penalty)).

(** [_calculate_mode_score]; [None] stands for the [KeyError] of a mode
    missing from a table and for an exception of [_score_in_range]. *)
Definition _calculate_mode_score (features : MLFeatures) (mode : string)
    : option float :=
  let score := 0%float in
  let weight_sum := 0%float in
  speed_range ← dict_get speed_thresholds mode;
  speed_score ← _score_in_range (avg_speed_kmh features) speed_range;
  let score := (score + speed_score * 0.4)%float in
  let weight_sum := (weight_sum + 0.4)%float in
  accel_range ← dict_get acceleration_thresholds mode;
  accel_score ← _score_in_range (avg_acceleration features) accel_range;
  let score := (score + accel_score * 0.3)%float in
  let weight_sum := (weight_sum + 0.3)%float in
  stop_range ← dict_get stop_frequency_thresholds mode;
  stop_score ← _score_in_range (stop_frequency features) stop_range;
  let score := (score + stop_score * 0.3)%float in
  let weight_sum := (weight_sum + 0.3)%float in
  Some (if gt weight_sum 0 then (score / weight_sum)%float else 0%float).

Definition candidate_modes : list string :=
  [ "walking"; "cycling"; "car"; "bus"; "train" ]%string.

(** [max(scores, key=scores.get)]: the first key with the largest score. *)
Fixpoint best_of (best : string * float) (rest : list (string * float))
    : string * float :=
  match rest with
  | [] => best
  | (m, s) :: rest' => best_of (if gt s best.2 then (m, s) else best) rest'
  end.

(** [classify_transport_mode]: any exception inside the [try] block (a
    missing table key, a division by zero in [_score_in_range]) gives
    [(UNKNOWN, 0.0)]. *)
Definition classify_transport_mode (features : MLFeatures)
    : TransportMode * float :=
  let result :=
    scores ← map_raise
                (fun mode => s ← _calculate_mode_score features mode; Some (mode, s))
                candidate_modes;
    match scores with
    | [] => None
    | first :: rest =>
        let '(best_mode, confidence) := best_of first rest in
        mode_enum ← TransportMode_of_value best_mode;
        Some (mode_enum, confidence)
    end in
  from_option id (UNKNOWN, 0%float) result.

(** *** TripDetectionML *)

Definition TransportMode_value (m : TransportMode) : string :=
  match m with
  | WALKING => "walking"
  | RUNNING => "running"
  | CYCLING => "cycling"
  | CAR => "car"
  | BUS => "bus"
  | TRAIN => "train"
  | METRO => "metro"
  | STATIONARY => "stationary"
  | UNKNOWN => "unknown"
  end.

(** The five modes the classifier scores. *)
Definition scored_modes : list TransportMode := [WALKING; CYCLING; CAR; BUS; TRAIN].

(** The dictionaries returned by [analyze_trip_data]. *)
Record AnalysisFeatures := mkAnalysisFeatures {
  af_avg_speed_kmh : float;
  af_max_speed_kmh : float;
  af_duration_minutes : float;
  af_distance_km : float;
  af_stop_frequency : float;
  af_gps_accuracy : float
}.

Record Analysis := mkAnalysis {
  an_transport_mode : string;
  an_confidence : float;
  an_quality_score : float;
  an_features : AnalysisFeatures;
  an_analysis_timestamp : string
}.

Inductive AnalysisResult := AnalysisError (msg : string) | AnalysisOk (a : Analysis).

(** [self.user_features]: a [defaultdict] of deques of length 10. *)
Record TripDetectionML := mkTripDetectionML {
  user_features : gmap string (deque MLFeatures)
}.

Definition new_TripDetectionML : TripDetectionML := mkTripDetectionML ∅.

Section Detection.

Variable statistics_mean : list float -> float.
Variable statistics_variance : list float -> option float.
Variable math_radians : float -> float.
Variable math_degrees : float -> float.
Variable math_sin : float -> option float.
Variable math_cos : float -> option float.
Variable math_asin : float -> option float.
Variable math_sqrt : float -> option float.
Variable math_atan2 : float -> float -> float.
Variable float_pow : float -> float -> option float.
Variable float_mod : float -> float -> float.
Variable fromtimestamp : float -> option datetime.
Variable dt_hour : datetime -> Z.
Variable dt_weekday : datetime -> Z.

(** The builtin [sum] and [datetime.isoformat()]. *)
Variable py_sum : list float -> float.
Variable isoformat : datetime -> string.

Definition _calculate_trip_quality (features : MLFeatures) : float :=
  let gps_quality := max 0 (1 - avg_accuracy features / 100) in
  let data_completeness := min 1 (float_of_Z (gps_point_count features) / 50) in
  let duration_quality :=
    if le 2 (duration_minutes features) && le (duration_minutes features) 120
    then 1%float else 0.5%float in
  let speed_consistency := max 0 (1 - speed_variance features / 100) in
  (py_sum [gps_quality; data_completeness; duration_quality; speed_consistency]
   / 4)%float.

(** [analyze_trip_data]; [now] is the clock read for the result's
    timestamp.  On float-valued features nothing after the extraction
    raises, so the outer [except] of the source is not reached. *)
Definition analyze_trip_data (st : TripDetectionML) (now : datetime)
    (uid : string) (gps_points : list PointDict)
    (sensor_data : option (list SensorDict)) : TripDetectionML * AnalysisResult :=
  match extract_features statistics_mean statistics_variance math_radians
          math_degrees math_sin math_cos math_asin math_sqrt math_atan2 float_pow
          float_mod fromtimestamp dt_hour dt_weekday gps_points sensor_data with
  | None => (st, AnalysisError "Insufficient data for analysis")
  | Some features =>
      let '(transport_mode, confidence) := classify_transport_mode features in
      let history :=
        match user_features st !! uid with
        | Some h => h
        | None => deque_new 10
        end in
      let st' :=
        mkTripDetectionML (<[uid := deque_append history features]> (user_features st)) in
      let quality_score := _calculate_trip_quality features in
      (st',
       AnalysisOk
         (mkAnalysis (TransportMode_value transport_mode) confidence quality_score
            (mkAnalysisFeatures (avg_speed_kmh features) (max_speed_kmh features)
               (duration_minutes features) (distance_actual features)
               (stop_frequency features) (avg_accuracy features))
            (isoformat now)))
  end.

(** A call of [analyze_trip_data]: clock, user, points, sensor data. *)
Definition AnalyzeCall : Type :=
  datetime * string * list PointDict * option (list SensorDict).

Definition analyze_all (calls : list AnalyzeCall) : TripDetectionML :=
  fold_left (fun st c => (analyze_trip_data st c.1.1.1 c.1.1.2 c.1.2 c.2).1) calls
    new_TripDetectionML.

End Detection.

End MLBackend.


(** * Sample inputs

    Concrete values used to exercise the operations: samples at a given
    speed and time, simple stand-ins for the library functions the models
    take as parameters, and small scenarios. *)

Module Samples.
Import Py.

(** A formatter standing in for [strftime]: it prints the same instant
    for every reading. *)
Definition strftime_fixed (_ : datetime) : string := "20250101_120000_000000".

(** Three clock readings one microsecond apart, starting at [t]. *)
Definition tick (t : datetime) : TripSM.Clock := TripSM.mkClock t (t + 1) (t + 2).

(** A state-machine sample with speed [v] km/h taken at time [t]. *)
Definition sample_at (v : float) (t : datetime) : TripSM.SensorData :=
  TripSM.mkSensorData v 0 0 5 t None.

(** [n] samples at 1 Hz from [t0], all with speed [v]; each is processed
    at the clock [clk] gives for its timestamp. *)
Definition samples_1hz (clk : datetime -> TripSM.Clock) (v : float) (t0 : datetime)
    (n : nat) : list (TripSM.Clock * TripSM.SensorData) :=
  map (fun i : nat =>
         let t := t0 + seconds (Z.of_nat i) in (clk t, sample_at v t))
      (seq 0 n).

(** The scenario of 59 fast samples, one slow sample and 59 fast samples. *)
Definition dip_scenario (clk : datetime -> TripSM.Clock) (t0 : datetime)
    : list (TripSM.Clock * TripSM.SensorData) :=
  samples_1hz clk 5 t0 59
  ++ samples_1hz clk 1 (t0 + seconds 59) 1
  ++ samples_1hz clk 5 (t0 + seconds 60) 59.

(** Stand-ins for the recorder's library functions: a distance that
    counts 111195 m per degree along each axis, and a conversion of POSIX
    seconds to microseconds. *)
Definition flat_earth_meters (a b : float * float) : float :=
  ((abs (a.1 - b.1) + abs (a.2 - b.2)) * 111195)%float.

Definition fromtimestamp_utc (x : float) : option datetime :=
  int_of_float (x * 1000000)%float.

(** A [gps_data] dictionary with coordinates, timestamp and accuracy. *)
Definition gps_at (lat lon ts : float) : RouteRec.GpsData :=
  RouteRec.mkGpsData (Val lat) (Val lon) (Val ts) (Val 5%float) Absent Absent Absent.

(** A recorder with one freshly opened trip. *)
Definition open_recorder : RouteRec.RouteRecorder :=
  (RouteRec.start_recording (RouteRec.new_recorder None) 0 "auto_1" None).1.


(** Three points in time order, the third too close to the second. *)
Definition ordered_calls : list RouteRec.AddCall :=
  [ (200%float, "auto_1"%string, gps_at 0 0 100);
    (201%float, "auto_1"%string, gps_at 0 0.01 160);
    (202%float, "auto_1"%string, gps_at 0 0.01001 220) ].

(** Stand-ins for the interpreter's [sum] (a left-to-right sum), for
    [statistics.variance] and for the float power on the two exponents the
    processor uses. *)
Definition sum_left (xs : list float) : float := fold_left PrimFloat.add xs 0%float.

Definition variance_zero (_ : list float) : float := 0%float.
Definition variance_always_zero (_ : list float) : option float := Some 0%float.

Definition pow_2_or_half (x y : float) : option float :=
  Some (if PrimFloat.eqb y 2 then (x * x)%float else PrimFloat.sqrt x).

(** Stand-ins for [statistics.mean] and for the [math] functions, good
    enough to run the extractor on points a few meters apart: small-angle
    forms of the trigonometric functions and a remainder for arguments
    below twice the modulus. *)
Definition mean_left (xs : list float) : float :=
  (sum_left xs / float_of_Z (Z.of_nat (List.length xs)))%float.

Definition radians_approx (x : float) : float := (x * 0.017453292519943295)%float.
Definition degrees_approx (x : float) : float := (x * 57.29577951308232)%float.
Definition sin_small (x : float) : option float := Some x.
Definition cos_small (x : float) : option float := Some (1 - x * x / 2)%float.
Definition asin_small (x : float) : option float := Some x.
Definition sqrt_total (x : float) : option float := Some (PrimFloat.sqrt x).
Definition atan2_small (y x : float) : float :=
  if PrimFloat.eqb x 0 then 1.5707963267948966%float else (y / x)%float.
Definition mod_below_twice (a b : float) : float :=
  if lt a b then a else (a - b)%float.
Definition hour_utc (t : datetime) : Z := (t / 3600000000) mod 24.
Definition weekday_thursday (_ : datetime) : Z := 3.

(** A raw sample of user [u1] with a given optional speed in m/s. *)
Definition raw_with_speed (v : option float) (t : datetime) : SensorProc.RawSensorData :=
  SensorProc.mkRawSensorData "u1" t 12.5 77.5 8 v None None (Some "walking"%string)
    (Some 0.8%float) None None None None (Some "android"%string).

(** A GPS-point dictionary without a [speed_kmh] key, and one with it. *)
Definition point_without_speed (i : nat) : MLBackend.PointDict :=
  MLBackend.mkPointDict (Val (float_of_Z (Z.of_nat i))) Absent (Val 12.5%float)
    (Val (77.5 + float_of_Z (Z.of_nat i) * 0.001)%float) (Val 5%float).

Definition point_with_speed (i : nat) : MLBackend.PointDict :=
  MLBackend.mkPointDict (Val (float_of_Z (Z.of_nat i))) (Val 5%float) (Val 12.5%float)
    (Val (77.5 + float_of_Z (Z.of_nat i) * 0.001)%float) (Val 5%float).

Definition ten_points_without_speed : list MLBackend.PointDict :=
  map point_without_speed (seq 0 10).

Definition ten_points_with_speed : list MLBackend.PointDict :=
  map point_with_speed (seq 0 10).

(** One sensor sample, an empty dictionary. *)
Definition one_sensor_sample : list MLBackend.SensorDict :=
  [ MLBackend.mkSensorDict Absent Absent Absent Absent ].

(** A feature vector with the three scored features of a slow walk. *)
Definition slow_walk : MLBackend.MLFeatures :=
  MLBackend.mkMLFeatures 5 6 1 6 1 2 0.5 (8 / 60) 3 0.4 0.5 12 9 2 0.5 0.5 8 40
    None None.

(** A buffered point at a position and time. *)
Definition point_at (lat lon : float) (t : datetime) : RouteRec.GPSPoint :=
  RouteRec.mkGPSPoint lat lon t 5 None None None.

Definition record_of (pts : list RouteRec.GPSPoint) : RouteRec.TripRecord :=
  RouteRec.mkTripRecord "auto_1" "auto" 0 (Some (seconds 600)) pts None (Some 10)
    "processing".

(** Three points about 111 m apart, and the same walk with a jump of about
    2.2 km inserted after the second point. *)
Definition stroll : RouteRec.TripRecord :=
  record_of [ point_at 0 0 (seconds 0); point_at 0 0.001 (seconds 60);
              point_at 0 0.002 (seconds 120) ].

Definition stroll_with_jump : RouteRec.TripRecord :=
  record_of [ point_at 0 0 (seconds 0); point_at 0 0.001 (seconds 60);
              point_at 0.02 0.001 (seconds 90);
              point_at 0.02 0.002 (seconds 150) ].

(** The same walk with one far point put between its last two points. *)
Definition stroll_with_detour : RouteRec.TripRecord :=
  record_of [ point_at 0 0 (seconds 0); point_at 0 0.001 (seconds 60);
              point_at 0.02 0.0015 (seconds 90);
              point_at 0 0.002 (seconds 120) ].

(** A machine with both callbacks registered (the stop callback raises),
    and the same machine after a manual start. *)
Definition hooked_machine : TripSM.TripStateMachine :=
  TripSM.set_route_recorder_callbacks (TripSM.new_machine None)
    (fun _ => TripSM.Returned) (fun _ => TripSM.Raised).

Definition hooked_active : TripSM.TripStateMachine :=
  (TripSM.manual_start_trip strftime_fixed hooked_machine (tick 1000) "u1").1.

(** A stream that stays below 3 km/h for 61 s. *)
Definition rest_x0 : TripSM.Clock * TripSM.SensorData :=
  (tick 2000, sample_at 1 (seconds 100)).
Definition rest_mid : list (TripSM.Clock * TripSM.SensorData) :=
  [ (tick 2010, sample_at 2 (seconds 130)) ].
Definition rest_xk : TripSM.Clock * TripSM.SensorData :=
  (tick 2020, sample_at 0 (seconds 160)).
Definition rest_post : list (TripSM.Clock * TripSM.SensorData) :=
  [ (tick 2030, sample_at 2.5 (seconds 161)) ].

(** A recorder whose open trip holds one point, and calls that offer
    points a few meters from it. *)
Definition one_point_recorder : RouteRec.RouteRecorder :=
  RouteRec.add_all flat_earth_meters fromtimestamp_utc open_recorder
    [ (200%float, "auto_1"%string, gps_at 0 0 100) ].

Definition nearby_calls : list RouteRec.AddCall :=
  [ (201%float, "auto_1"%string, gps_at 0 0.00001 110);
    (202%float, "auto_1"%string, gps_at 0.00002 0 120);
    (203%float, "auto_1"%string, gps_at 0.00003 0.00003 130) ].

(** A recorder that flushes every second point. *)
Definition pair_batching : RouteRec.RecorderConfig :=
  RouteRec.mkRecorderConfig 45 50 10 true 2.

Definition batching_recorder : RouteRec.RouteRecorder :=
  (RouteRec.start_recording (RouteRec.new_recorder (Some pair_batching)) 0
     "auto_1" None).1.

Definition five_far_calls : list RouteRec.AddCall :=
  [ (200%float, "auto_1"%string, gps_at 0 0 100);
    (201%float, "auto_1"%string, gps_at 0 0.001 110);
    (202%float, "other"%string, gps_at 0 0.0015 115);
    (203%float, "auto_1"%string, gps_at 0 0.002 120);
    (204%float, "auto_1"%string, gps_at 0 0.003 130);
    (205%float, "auto_1"%string, gps_at 0 0.004 140) ].

(** Stand-ins for [isoformat], [timestamp] and the calendar attributes: a
    clock that counts from midnight of 1 January 2025. *)
Definition iso_micro (t : datetime) : string := Py.str_int t.
Definition timestamp_seconds (t : datetime) : float := Py.total_seconds t.
Definition year_2025 (_ : datetime) : Z := 2025.
Definition month_january (_ : datetime) : Z := 1.
Definition day_of_january (t : datetime) : Z := 1 + (t / 86400000000) mod 31.
Definition minute_utc (t : datetime) : Z := (t / 60000000) mod 60.
Definition second_utc (t : datetime) : Z := (t / 1000000) mod 60.

(** [strftime("%Y%m%d_%H%M%S_%f")] for the datetimes of 1 January 2025,
    counted in microseconds from its midnight. *)
Definition strftime_jan1 (t : datetime) : string :=
  "20250101_" +:+ Py.zfill 2 (Py.str_int (hour_utc t))
  +:+ Py.zfill 2 (Py.str_int (minute_utc t))
  +:+ Py.zfill 2 (Py.str_int (second_utc t))
  +:+ "_" +:+ Py.zfill 6 (Py.str_int (t mod 1000000)).

(** Clock readings 100, 300 and 900 microseconds after noon. *)
Definition noon_plus (us : Z) : TripSM.Clock :=
  TripSM.mkClock (Py.seconds 43200 + us) (Py.seconds 43200 + us + 10)
    (Py.seconds 43200 + us + 20).

(** A sample whose accuracy is a NaN. *)
Definition raw_with_nan_accuracy : SensorProc.RawSensorData :=
  SensorProc.mkRawSensorData "u1" 0 12.5 77.5 nan (Some 1.5%float) None None
    (Some "walking"%string) (Some 0.8%float) None None None None
    (Some "android"%string).

(** A collaborator that accepts every record and finds one row, one that
    refuses every record, and one whose [save_trip_record] raises. *)
Definition accepting_db : RouteRec.Database :=
  RouteRec.mkDatabase (fun _ => Py.Answers true)
    (fun _ => Py.Answers ["row-1"%string]) (fun _ _ => Py.Answers tt).

Definition refusing_db : RouteRec.Database :=
  RouteRec.mkDatabase (fun _ => Py.Answers false)
    (fun _ => Py.Answers ["row-1"%string]) (fun _ _ => Py.Answers tt).

Definition raising_db : RouteRec.Database :=
  RouteRec.mkDatabase (fun _ => Py.Raises)
    (fun _ => Py.Answers ["row-1"%string]) (fun _ _ => Py.Answers tt).

(** A recorder whose open trip holds two points. *)
Definition two_point_recorder : RouteRec.RouteRecorder :=
  RouteRec.add_all flat_earth_meters fromtimestamp_utc open_recorder ordered_calls.

(** A short stream that stays at or above 3 km/h for 61 s. *)
Definition walk_x0 : TripSM.Clock * TripSM.SensorData :=
  (tick 1000, sample_at 5 0).
Definition walk_mid : list (TripSM.Clock * TripSM.SensorData) :=
  [ (tick 1010, sample_at 4 (seconds 30)) ].
Definition walk_xk : TripSM.Clock * TripSM.SensorData :=
  (tick 1020, sample_at 6 (seconds 60)).
Definition walk_post : list (TripSM.Clock * TripSM.SensorData) :=
  [ (tick 1030, sample_at 3 (seconds 61)) ].

(** A machine in which a manual start has opened a trip. *)
Definition started_machine : TripSM.TripStateMachine :=
  (TripSM.manual_start_trip strftime_fixed (TripSM.new_machine None) (tick 1000)
     "u1").1.

End Samples.


(** * Facts about the Python primitives *)

Module PyFacts.
Import Py.

Lemma SFcompare_antisym (a b : spec_float) :
  SFcompare b a = option_map CompOpp (SFcompare a b).
Proof.
  destruct a as [sa|sa| |sa ma ea], b as [sb|sb| |sb mb eb];
    try destruct sa; try destruct sb; try reflexivity.
  all: unfold SFcompare.
  all: rewrite (Z.compare_antisym ea eb).
  all: change (PosDef.Pos.compare_cont Eq mb ma) with (Pos.compare mb ma).
  all: change (PosDef.Pos.compare_cont Eq ma mb) with (Pos.compare ma mb).
  all: rewrite (Pos.compare_antisym ma mb).
  all: destruct (Z.compare ea eb); simpl; try reflexivity.
  all: destruct (Pos.compare ma mb); reflexivity.
Qed.

(** A float at or above a threshold is not below it. *)
Lemma ge_not_lt (x y : float) : ge x y = true -> lt x y = false.
Proof.
  unfold ge, lt. rewrite leb_spec, ltb_spec. unfold SFleb, SFltb.
  rewrite (SFcompare_antisym (Prim2SF y) (Prim2SF x)).
  destruct (SFcompare (Prim2SF y) (Prim2SF x)) as [[]|]; simpl; congruence.
Qed.

Lemma total_seconds_ge_spec (td : timedelta) (secs : Z) :
  total_seconds_ge td secs = true <-> seconds secs <= td.
Proof. unfold total_seconds_ge, seconds. rewrite Z.leb_le. lia. Qed.

End PyFacts.


(** * Properties of the trip state machine *)

Module TripSMFacts.
Import Py TripSM Samples PyFacts.

Section Facts.

Variable strftime_id : datetime -> string.

Lemma feed_app (m : TripStateMachine) (xs ys : list (Clock * SensorData)) :
  TripSM.feed strftime_id m (xs ++ ys) =
  let '(m1, r1) := TripSM.feed strftime_id m xs in
  let '(m2, r2) := TripSM.feed strftime_id m1 ys in
  (m2, r1 ++ r2).
Proof.
  revert m. induction xs as [|[clk sd] xs IH]; intros m; simpl.
  - destruct (TripSM.feed strftime_id m ys); reflexivity.
  - destruct (process_sensor_data strftime_id m clk sd) as [m1 r]. rewrite IH.
    destruct (TripSM.feed strftime_id m1 xs) as [m2 rs].
    destruct (TripSM.feed strftime_id m2 ys). reflexivity.
Qed.

(** The first fast sample starts the timer at its own timestamp. *)
Lemma idle_arms (m : TripStateMachine) (clk : Clock) (sd : SensorData) :
  default_thresholds m ->
  current_state (context m) = IDLE ->
  speed_above_threshold_start (context m) = None ->
  fast (clk, sd) ->
  let '(m', r) := process_sensor_data strftime_id m clk sd in
  default_thresholds m' /\ armed_at m' (timestamp sd)
  /\ trip_id (context m') = trip_id (context m)
  /\ hook_calls m' = hook_calls m
  /\ r_state_changed r = false /\ r_current_state r = "idle"%string.
Proof.
  intros [Hs Hd] Hst Htm Hfast. unfold fast in Hfast. simpl in Hfast.
  unfold process_sensor_data. simpl. rewrite Hst. simpl.
  unfold _handle_idle_state. simpl. rewrite Hs, Hfast, Htm. simpl.
  rewrite Hst. repeat split; assumption.
Qed.

(** While fewer than 60 s have elapsed, fast samples change nothing. *)
Lemma idle_waits (t0 : datetime) (xs : list (Clock * SensorData)) :
  forall m : TripStateMachine,
  default_thresholds m -> armed_at m t0 ->
  Forall fast xs ->
  Forall (fun x => dt_sub (timestamp x.2) t0 < seconds 60) xs ->
  let '(m', rs) := TripSM.feed strftime_id m xs in
  default_thresholds m' /\ armed_at m' t0
  /\ trip_id (context m') = trip_id (context m)
  /\ hook_calls m' = hook_calls m
  /\ map r_state_changed rs = repeat false (List.length xs)
  /\ map r_current_state rs = repeat "idle"%string (List.length xs).
Proof.
  induction xs as [|[clk sd] xs IH]; intros m Hth Harm Hfast Hlt; simpl.
  - repeat split; try apply Hth; apply Harm.
  - inversion Hfast as [|? ? Hf Hfs]; subst. inversion Hlt as [|? ? Hl Hls]; subst.
    destruct Hth as [Hs Hd]. destruct Harm as [Hst Htm].
    unfold fast in Hf. simpl in Hf, Hl.
    unfold process_sensor_data. simpl. rewrite Hst. simpl.
    unfold _handle_idle_state. simpl. rewrite Hs, Hf, Htm, Hd.
    assert (Hno : total_seconds_ge (dt_sub (timestamp sd) t0) 60 = false).
    { apply not_true_is_false. rewrite total_seconds_ge_spec. lia. }
    rewrite Hno. simpl.
    match goal with |- context [TripSM.feed strftime_id ?m1 xs] => specialize (IH m1) end.
    destruct (TripSM.feed strftime_id _ xs) as [m2 rs].
    destruct IH as (Hth' & Harm' & Hid & Hcalls & Hflags & Hstates);
      try assumption.
    + split; assumption.
    + split; assumption.
    + rewrite Hst. simpl. simpl in Hid, Hcalls. repeat split;
        try apply Hth'; try apply Harm'; congruence.
Qed.

(** The first fast sample at least 60 s after the timer start activates
    the trip. *)
Lemma idle_fires (m : TripStateMachine) (t0 : datetime) (clk : Clock) (sd : SensorData) :
  default_thresholds m -> armed_at m t0 ->
  fast (clk, sd) ->
  seconds 60 <= dt_sub (timestamp sd) t0 ->
  let '(m', r) := process_sensor_data strftime_id m clk sd in
  default_thresholds m' /\ cruising m'
  /\ trip_id (context m') = Some (_generate_trip_id strftime_id (at_generate clk) "auto")
  /\ r_state_changed r = true /\ r_current_state r = "active"%string
  /\ r_trigger r = Some "speed_duration_threshold"%string.
Proof.
  intros [Hs Hd] [Hst Htm] Hf Hge. unfold fast in Hf. simpl in Hf.
  unfold process_sensor_data. simpl. rewrite Hst. simpl.
  unfold _handle_idle_state. simpl. rewrite Hs, Hf, Htm, Hd.
  apply total_seconds_ge_spec in Hge. rewrite Hge. simpl.
  repeat split; assumption.
Qed.

(** Once active, fast samples never start the stop timer. *)
Lemma active_stays (xs : list (Clock * SensorData)) :
  forall m : TripStateMachine,
  default_thresholds m -> cruising m ->
  Forall fast xs ->
  let '(m', rs) := TripSM.feed strftime_id m xs in
  default_thresholds m' /\ cruising m'
  /\ trip_id (context m') = trip_id (context m)
  /\ map r_state_changed rs = repeat false (List.length xs)
  /\ map r_current_state rs = repeat "active"%string (List.length xs).
Proof.
  induction xs as [|[clk sd] xs IH]; intros m Hth Hcr Hfast; simpl.
  - repeat split; try apply Hth; apply Hcr.
  - inversion Hfast as [|? ? Hf Hfs]; subst.
    destruct Hth as [Hs Hd]. destruct Hcr as [Hst Htm].
    unfold fast in Hf. simpl in Hf.
    unfold process_sensor_data. simpl. rewrite Hst. simpl.
    unfold _handle_active_state. simpl. rewrite Hs.
    rewrite (ge_not_lt _ _ Hf), Htm. simpl.
    match goal with |- context [TripSM.feed strftime_id ?m1 xs] => specialize (IH m1) end.
    destruct (TripSM.feed strftime_id _ xs) as [m2 rs].
    destruct IH as (Hth' & Hcr' & Hid & Hflags & Hstates); try assumption.
    + split; assumption.
    + split; assumption.
    + rewrite Hst. simpl. simpl in Hid. repeat split;
        try apply Hth'; try apply Hcr'; congruence.
Qed.

(** A slow sample clears a running start timer and leaves the machine
    idle. *)
Lemma idle_resets (m : TripStateMachine) (clk : Clock) (sd : SensorData) :
  default_thresholds m ->
  current_state (context m) = IDLE ->
  ge (speed_kmh sd) 3 = false ->
  let '(m', r) := process_sensor_data strftime_id m clk sd in
  default_thresholds m'
  /\ current_state (context m') = IDLE
  /\ speed_above_threshold_start (context m') = None
  /\ trip_id (context m') = trip_id (context m)
  /\ hook_calls m' = hook_calls m
  /\ r_state_changed r = false.
Proof.
  intros [Hs Hd] Hst Hslow.
  unfold process_sensor_data. simpl. rewrite Hst. simpl.
  unfold _handle_idle_state. simpl. rewrite Hs, Hslow.
  destruct (speed_above_threshold_start (context m)) eqn:Htm; simpl;
    rewrite ?Htm; repeat split; assumption.
Qed.

(** C1: Idle machine, thresholds 3.0 km/h and 60 s, timer not running.
    If every sample of the stream is at or above the threshold and [xk] is
    the first sample at least 60 s after the first sample [x0], then
    exactly one call reports a state change, the call for [xk]; the
    machine is idle before it and active from it on. *)
Theorem idle_to_active_exactly_once
    (m : TripStateMachine) (x0 xk : Clock * SensorData)
    (mid post : list (Clock * SensorData)) :
  default_thresholds m ->
  current_state (context m) = IDLE ->
  speed_above_threshold_start (context m) = None ->
  Forall fast (x0 :: mid ++ xk :: post) ->
  Forall (fun x => dt_sub (timestamp x.2) (timestamp x0.2) < seconds 60) mid ->
  seconds 60 <= dt_sub (timestamp xk.2) (timestamp x0.2) ->
  let '(m', rs) := TripSM.feed strftime_id m (x0 :: mid ++ xk :: post) in
  map r_state_changed rs
    = false :: repeat false (List.length mid)
      ++ true :: repeat false (List.length post)
  /\ map r_current_state rs
    = repeat "idle"%string (S (List.length mid))
      ++ repeat "active"%string (S (List.length post))
  /\ current_state (context m') = ACTIVE
  /\ trip_id (context m') = Some (_generate_trip_id strftime_id (at_generate xk.1) "auto").
Proof.
  intros Hth Hst Htm Hfast Hmid Hk.
  destruct x0 as [now0 s0], xk as [nowk sk]. simpl in Hmid, Hk.
  inversion Hfast as [|? ? Hf0 Hrest]; subst.
  apply Forall_app in Hrest as [Hfmid Hrest].
  inversion Hrest as [|? ? Hfk Hfpost]; subst.
  cbn [TripSM.feed].
  pose proof (idle_arms m now0 s0 Hth Hst Htm Hf0) as H0.
  destruct (process_sensor_data strftime_id m now0 s0) as [m1 r0].
  destruct H0 as (Hth1 & Harm1 & _ & _ & Hc0 & Hs0).
  rewrite feed_app.
  pose proof (idle_waits (timestamp s0) mid m1 Hth1 Harm1 Hfmid Hmid) as H1.
  destruct (TripSM.feed strftime_id m1 mid) as [m2 r1].
  destruct H1 as (Hth2 & Harm2 & _ & _ & Hc1 & Hs1).
  cbn [TripSM.feed].
  pose proof (idle_fires m2 (timestamp s0) nowk sk Hth2 Harm2 Hfk Hk) as H2.
  destruct (process_sensor_data strftime_id m2 nowk sk) as [m3 r2].
  destruct H2 as (Hth3 & Hcr3 & Hid3 & Hc2 & Hs2 & _).
  pose proof (active_stays post m3 Hth3 Hcr3 Hfpost) as H3.
  destruct (TripSM.feed strftime_id m3 post) as [m4 r3].
  destruct H3 as (_ & Hcr4 & Hid4 & Hc3 & Hs3).
  cbn [map]. rewrite !map_app. cbn [map repeat List.app].
  rewrite Hc0, Hs0, Hc1, Hs1, Hc2, Hs2, Hc3, Hs3.
  repeat split.
  - apply Hcr4.
  - cbn [fst]. congruence.
Qed.

Lemma samples_1hz_fast (clk : datetime -> Clock) (t0 : datetime) (n : nat) :
  Forall fast (samples_1hz clk 5 t0 n).
Proof.
  unfold samples_1hz. apply Forall_map, Forall_forall. intros i _.
  reflexivity.
Qed.

Lemma samples_1hz_S (clk : datetime -> Clock) (v : float) (t0 : datetime)
    (n : nat) :
  samples_1hz clk v t0 (S n) =
  (clk t0, sample_at v t0)
  :: map (fun i : nat =>
            let t := t0 + seconds (Z.of_nat i) in (clk t, sample_at v t))
       (seq 1 n).
Proof.
  unfold samples_1hz. cbn [seq map]. unfold seconds at 1 2.
  cbn [Z.of_nat]. rewrite Z.mul_0_l, Z.add_0_r. reflexivity.
Qed.

(** A run of at most 60 fast 1 Hz samples from an idle machine with no
    timer only starts the timer. *)
Lemma burst_only_arms (clk : datetime -> Clock) (t0 : datetime) (n : nat)
    (m : TripStateMachine) :
  (n <= 59)%nat ->
  default_thresholds m ->
  current_state (context m) = IDLE ->
  speed_above_threshold_start (context m) = None ->
  let '(m', rs) := TripSM.feed strftime_id m (samples_1hz clk 5 t0 (S n)) in
  default_thresholds m' /\ armed_at m' t0
  /\ trip_id (context m') = trip_id (context m)
  /\ hook_calls m' = hook_calls m
  /\ map r_state_changed rs = repeat false (S n).
Proof.
  intros Hn Hth Hst Htm.
  pose proof (samples_1hz_fast clk t0 (S n)) as Hfast.
  rewrite samples_1hz_S in *.
  inversion Hfast as [|? ? Hf0 Hfrest]; subst.
  cbn [TripSM.feed].
  pose proof (idle_arms m (clk t0) (sample_at 5 t0) Hth Hst Htm Hf0) as H0.
  destruct (process_sensor_data strftime_id m (clk t0) (sample_at 5 t0))
    as [m1 r0].
  destruct H0 as (Hth1 & Harm1 & Hid1 & Hcalls1 & Hc0 & _).
  cbn [timestamp sample_at] in Harm1.
  match goal with |- context [TripSM.feed strftime_id m1 ?xs] =>
    pose proof (idle_waits t0 xs m1 Hth1 Harm1 Hfrest) as H1;
    destruct (TripSM.feed strftime_id m1 xs) as [m2 r1]
  end.
  destruct H1 as (Hth2 & Harm2 & Hid2 & Hcalls2 & Hc1 & _).
  { apply Forall_map, Forall_forall. intros i Hi.
    apply list_elem_of_In, in_seq in Hi.
    cbn. unfold dt_sub, seconds. lia. }
  rewrite length_map, length_seq in Hc1.
  cbn [map repeat]. rewrite Hc0, Hc1.
  repeat split; try apply Hth2; try apply Harm2; congruence.
Qed.

(** C2: thresholds 3.0 km/h and 60 s: 59 samples at 5 km/h, one at
    1 km/h and 59 more at 5 km/h, one per second, cause no transition.
    The timer runs from the first sample, is unset by the slow sample and
    restarts at the next fast one, 60 s after the first. *)
Theorem dip_resets_timer (on_start on_stop : option Hook)
    (clk : datetime -> Clock) (t0 : datetime) :
  let m0 := mkMachine default_TripConfig initial_TripContext on_start on_stop [] in
  let '(m1, r1) := TripSM.feed strftime_id m0 (samples_1hz clk 5 t0 59) in
  let '(m2, r2) :=
    TripSM.feed strftime_id m1 (samples_1hz clk 1 (t0 + seconds 59) 1) in
  let '(m3, r3) :=
    TripSM.feed strftime_id m2 (samples_1hz clk 5 (t0 + seconds 60) 59) in
  TripSM.feed strftime_id m0 (dip_scenario clk t0) = (m3, r1 ++ r2 ++ r3)
  /\ speed_above_threshold_start (context m1) = Some t0
  /\ speed_above_threshold_start (context m2) = None
  /\ speed_above_threshold_start (context m3) = Some (t0 + seconds 60)
  /\ map r_state_changed (r1 ++ r2 ++ r3) = repeat false 119
  /\ current_state (context m3) = IDLE
  /\ trip_id (context m3) = None
  /\ hook_calls m3 = [].
Proof.
  intros m0.
  assert (Hth0 : default_thresholds m0) by (split; reflexivity).
  unfold dip_scenario. rewrite !feed_app.
  pose proof (burst_only_arms clk t0 58 m0 ltac:(lia) Hth0 eq_refl eq_refl) as H1.
  destruct (TripSM.feed strftime_id m0 (samples_1hz clk 5 t0 59)) as [m1 r1].
  destruct H1 as (Hth1 & [Hst1 Htm1] & Hid1 & Hcalls1 & Hc1).
  rewrite (samples_1hz_S clk 1). cbn [seq map app TripSM.feed].
  pose proof (idle_resets m1 (clk (t0 + seconds 59))
                (sample_at 1 (t0 + seconds 59)) Hth1 Hst1 eq_refl) as H2.
  destruct (process_sensor_data strftime_id m1 (clk (t0 + seconds 59))
              (sample_at 1 (t0 + seconds 59))) as [m2 r2].
  destruct H2 as (Hth2 & Hst2 & Htm2 & Hid2 & Hcalls2 & Hc2).
  pose proof (burst_only_arms clk (t0 + seconds 60) 58 m2 ltac:(lia)
                Hth2 Hst2 Htm2) as H3.
  destruct (TripSM.feed strftime_id m2 (samples_1hz clk 5 (t0 + seconds 60) 59))
    as [m3 r3].
  destruct H3 as (Hth3 & [Hst3 Htm3] & Hid3 & Hcalls3 & Hc3).
  rewrite !map_app, Hc1, Hc3. cbn [map]. rewrite Hc2.
  repeat split; try assumption; try congruence.
  - rewrite Hid3, Hid2, Hid1. reflexivity.
  - rewrite Hcalls3, Hcalls2, Hcalls1. reflexivity.
Qed.

Lemma transition_to_active_iff (m : TripStateMachine) (now : datetime)
    (tid trg : string) :
  trip_id_iff_active (_transition_to_active m now tid trg).
Proof. split; intros _; [reflexivity | discriminate]. Qed.

Lemma transition_to_idle_iff (m : TripStateMachine) (now : datetime)
    (trg : string) :
  trip_id_iff_active (_transition_to_idle m now trg).
Proof. split; [intros H; now destruct H | discriminate]. Qed.

Lemma iff_active_with_context (m : TripStateMachine) (c : TripContext) :
  trip_id c = trip_id (context m) ->
  current_state c = current_state (context m) ->
  trip_id_iff_active m -> trip_id_iff_active (with_context m c).
Proof. unfold trip_id_iff_active. simpl. intros -> ->. trivial. Qed.

(** Every operation keeps the invariant. *)
Lemma step_keeps_iff (m : TripStateMachine) (o : Op) :
  trip_id_iff_active m -> trip_id_iff_active (step strftime_id m o).
Proof.
  intros Hinv. destruct o as [clk sd|clk u|clk]; simpl.
  - unfold process_sensor_data.
    set (m1 := with_context m (set_last_sensor_data (context m) sd)).
    assert (H1 : trip_id_iff_active m1)
      by (apply iff_active_with_context; auto).
    change (current_state (context m1)) with (current_state (context m)).
    destruct (current_state (context m)); simpl.
    + unfold _handle_idle_state.
      destruct (ge _ _); destruct (speed_above_threshold_start _);
        try destruct (total_seconds_ge _ _); simpl;
        auto using transition_to_active_iff, iff_active_with_context.
    + unfold _handle_active_state.
      destruct (lt _ _); destruct (speed_below_threshold_start _);
        try destruct (total_seconds_ge _ _); simpl;
        auto using transition_to_idle_iff, iff_active_with_context.
  - unfold manual_start_trip. destruct (current_state (context m)); simpl;
      auto using transition_to_active_iff.
  - unfold manual_stop_trip. destruct (current_state (context m)); simpl;
      auto using transition_to_idle_iff.
Qed.

Lemma run_keeps_iff (ops : list Op) :
  forall m : TripStateMachine,
  trip_id_iff_active m -> trip_id_iff_active (run strftime_id m ops).
Proof.
  induction ops as [|o ops IH]; intros m Hinv; simpl; auto using step_keeps_iff.
Qed.

(** A step from Idle to Active installs the id generated by that step. *)
Lemma step_to_active (m : TripStateMachine) (o : Op) :
  current_state (context m) = IDLE ->
  current_state (context (step strftime_id m o)) = ACTIVE ->
  trip_id (context (step strftime_id m o)) = Some (new_trip_id strftime_id o).
Proof.
  intros Hst. destruct o as [clk sd|clk u|clk]; simpl.
  - unfold process_sensor_data. simpl. rewrite Hst. simpl.
    unfold _handle_idle_state.
    destruct (ge _ _); destruct (speed_above_threshold_start _);
      try destruct (total_seconds_ge _ _); simpl; congruence.
  - unfold manual_start_trip. rewrite Hst. reflexivity.
  - unfold manual_stop_trip. rewrite Hst. simpl. congruence.
Qed.

(** A step from Active to Idle clears the id. *)
Lemma step_to_idle (m : TripStateMachine) (o : Op) :
  current_state (context m) = ACTIVE ->
  current_state (context (step strftime_id m o)) = IDLE ->
  trip_id (context (step strftime_id m o)) = None.
Proof.
  intros Hst. destruct o as [clk sd|clk u|clk]; simpl.
  - unfold process_sensor_data. simpl. rewrite Hst. simpl.
    unfold _handle_active_state.
    destruct (lt _ _); destruct (speed_below_threshold_start _);
      try destruct (total_seconds_ge _ _); simpl; congruence.
  - unfold manual_start_trip. rewrite Hst. simpl. congruence.
  - unfold manual_stop_trip. rewrite Hst. reflexivity.
Qed.

(** X27: from the initial Idle context, under any configuration and
    callbacks, after every sequence of operations the trip id is non-null
    exactly when the state is Active; a step that enters Active starts
    from no id and installs the id generated by that step (the prefix, an
    underscore, the clock text cut to milliseconds), and a step that
    enters Idle clears the id.  Nothing is said here about that id being
    different from earlier ones. *)
Theorem trip_id_iff_active_invariant (cfg : TripConfig)
    (on_start on_stop : option Hook) (ops : list Op) (o : Op) :
  let m := run strftime_id (mkMachine cfg initial_TripContext on_start on_stop [])
             ops in
  let m' := step strftime_id m o in
  trip_id_iff_active m /\ trip_id_iff_active m'
  /\ (current_state (context m) = IDLE ->
      current_state (context m') = ACTIVE ->
      trip_id (context m) = None
      /\ trip_id (context m') = Some (new_trip_id strftime_id o))
  /\ (current_state (context m) = ACTIVE ->
      current_state (context m') = IDLE ->
      trip_id (context m) <> None /\ trip_id (context m') = None).
Proof.
  intros m m'.
  assert (Hm : trip_id_iff_active m).
  { apply run_keeps_iff. split; [intros H; now destruct H | discriminate]. }
  split; [exact Hm|]. split; [apply step_keeps_iff, Hm|]. split.
  - intros Hi Ha. split; [|apply step_to_active; assumption].
    destruct (trip_id (context m)) eqn:E; [|reflexivity].
    assert (Hx : current_state (context m) = ACTIVE)
      by (apply Hm; rewrite E; discriminate).
    congruence.
  - intros Ha Hi. split; [apply Hm, Ha | apply step_to_idle; assumption].
Qed.

(** C8: [manual_start_trip] on an Active machine returns the ongoing
    trip's id and the machine itself: state, trip id, state-entry time,
    both timers and the trace of callback calls are unchanged. *)
Theorem manual_start_idempotent (m : TripStateMachine) (clk : Clock)
    (uid : string) :
  current_state (context m) = ACTIVE ->
  manual_start_trip strftime_id m clk uid = (m, trip_id (context m)).
Proof. intros Hst. unfold manual_start_trip. rewrite Hst. reflexivity. Qed.

(** Starting twice: the second call answers with the first call's id and
    calls no callback. *)
Lemma manual_start_twice (m : TripStateMachine) (clk1 clk2 : Clock)
    (u1 u2 : string) :
  current_state (context m) = IDLE ->
  let '(m1, id1) := manual_start_trip strftime_id m clk1 u1 in
  id1 = Some (_generate_trip_id strftime_id (at_generate clk1) u1)
  /\ manual_start_trip strftime_id m1 clk2 u2 = (m1, id1).
Proof.
  intros Hst. unfold manual_start_trip at 1. rewrite Hst.
  split; reflexivity.
Qed.

End Facts.

Lemma idle_to_active_exactly_once_witness :
  let '(m', rs) :=
    TripSM.feed strftime_fixed (new_machine None)
      (walk_x0 :: walk_mid ++ walk_xk :: walk_post) in
  map r_state_changed rs = [false; false; true; false]
  /\ map r_current_state rs = ["idle"; "idle"; "active"; "active"]%string
  /\ current_state (context m') = ACTIVE
  /\ trip_id (context m') = Some "auto_20250101_120000_000"%string.
Proof.
  apply (idle_to_active_exactly_once strftime_fixed (new_machine None)
           walk_x0 walk_xk walk_mid walk_post).
  - split; reflexivity.
  - reflexivity.
  - reflexivity.
  - repeat constructor.
  - repeat constructor.
  - vm_compute. discriminate.
Defined.

Lemma manual_start_idempotent_witness :
  current_state (context started_machine) = ACTIVE
  /\ manual_start_trip strftime_fixed started_machine (tick 2000) "u1"
     = (started_machine, Some "u1_20250101_120000_000"%string).
Proof.
  split; [reflexivity|].
  apply (manual_start_idempotent strftime_fixed started_machine (tick 2000) "u1").
  reflexivity.
Defined.

End TripSMFacts.


(** * Properties of the route recorder *)

Module RouteRecFacts.
Import Py RouteRec Samples PyFacts.

Section Facts.

Variable geodesic_meters : float * float -> float * float -> float.
Variable fromtimestamp : float -> option datetime.











(** The distance loop is a fold over the segment lengths. *)
Lemma calculate_distance_loop_fold (total : float) (prev : GPSPoint)
    (rest : list GPSPoint) :
  _calculate_distance_loop geodesic_meters total prev rest =
  fold_left (fun acc d => if lt d 1000 then (acc + d)%float else acc)
    (segment_lengths_from geodesic_meters prev rest) total.
Proof.
  revert total prev. induction rest as [|curr rest IH]; intros total prev.
  - reflexivity.
  - cbn [_calculate_distance_loop segment_lengths_from fold_left]. apply IH.
Qed.

Lemma calculate_distance_fold (pts : list GPSPoint) :
  _calculate_distance geodesic_meters pts =
  (fold_left (fun acc d => if lt d 1000 then (acc + d)%float else acc)
     (segment_lengths geodesic_meters pts) 0 / 1000)%float.
Proof.
  destruct pts as [|p [|q rest]]; try reflexivity.
  unfold _calculate_distance. rewrite calculate_distance_loop_fold. reflexivity.
Qed.

Lemma fold_all_short (ds : list float) (total : float) :
  Forall (fun d => lt d 1000 = true) ds ->
  fold_left (fun acc d => if lt d 1000 then (acc + d)%float else acc) ds total =
  fold_left PrimFloat.add ds total.
Proof.
  revert total. induction ds as [|d ds IH]; intros total Hall.
  - reflexivity.
  - inversion Hall as [|? ? Hd Hds]; subst. cbn [fold_left].
    rewrite Hd. apply IH, Hds.
Qed.

Lemma fold_skips_jump (l1 l2 : list float) (d total : float) :
  lt d 1000 = false ->
  fold_left (fun acc d => if lt d 1000 then (acc + d)%float else acc)
    (l1 ++ d :: l2) total =
  fold_left (fun acc d => if lt d 1000 then (acc + d)%float else acc)
    (l1 ++ l2) total.
Proof.
  intros Hd. rewrite !fold_left_app. cbn [fold_left]. rewrite Hd. reflexivity.
Qed.

(** C6: a finalized trip whose segments are all shorter than 1 km gets
    the plain sum of its segment lengths as [total_distance_km]; a trip
    whose segments are the same with one segment of 1 km or more (a 2 km
    jump, say) inserted anywhere gets the same [total_distance_km], and
    finalizing it leaves its points in the buffer. *)
Theorem outlier_free_distance (t t' : TripRecord) (l1 l2 : list float)
    (d : float) :
  gps_points t <> [] ->
  segment_lengths geodesic_meters (gps_points t) = l1 ++ l2 ->
  Forall (fun d => lt d 1000 = true) (l1 ++ l2) ->
  segment_lengths geodesic_meters (gps_points t') = l1 ++ d :: l2 ->
  lt d 1000 = false ->
  total_distance_km (_post_process_trip geodesic_meters t)
    = Some (unfiltered_sum_km geodesic_meters (gps_points t))
  /\ total_distance_km (_post_process_trip geodesic_meters t')
     = total_distance_km (_post_process_trip geodesic_meters t)
  /\ gps_points (_post_process_trip geodesic_meters t') = gps_points t'.
Proof.
  intros Hne Hps Hshort Hqs Hd.
  assert (Ht : total_distance_km (_post_process_trip geodesic_meters t)
               = Some (unfiltered_sum_km geodesic_meters (gps_points t))).
  { unfold _post_process_trip. cbn [total_distance_km].
    destruct (gps_points t) as [|p rest] eqn:E; [congruence|].
    rewrite calculate_distance_fold, Hps, fold_all_short by exact Hshort.
    unfold unfiltered_sum_km. rewrite Hps. reflexivity. }
  split; [exact Ht|]. split; [|reflexivity].
  rewrite Ht. unfold _post_process_trip. cbn [total_distance_km].
  destruct (gps_points t') as [|q rest] eqn:E.
  - destruct l1; discriminate.
  - rewrite calculate_distance_fold, Hqs, fold_skips_jump by exact Hd.
    rewrite fold_all_short by exact Hshort.
    unfold unfiltered_sum_km. rewrite Hps. reflexivity.
Qed.

Lemma fresh_recorder_empty (cfg : option RecorderConfig) (now : datetime)
    (tid : string) (uid : option string) :
  forall tid0 t0,
    _active_trips (start_recording (new_recorder cfg) now tid uid).1 !! tid0
      = Some t0 ->
    gps_points t0 = [].
Proof.
  unfold start_recording, new_recorder. cbn [_active_trips].
  rewrite lookup_empty. cbn [fst _active_trips]. intros tid0 t0 H.
  apply lookup_insert_Some in H as [[_ <-]|[_ H]]; [reflexivity|].
  rewrite lookup_empty in H. discriminate.
Qed.

End Facts.



Lemma outlier_free_distance_witness :
  total_distance_km (_post_process_trip flat_earth_meters stroll)
    = Some (unfiltered_sum_km flat_earth_meters (gps_points stroll))
  /\ total_distance_km (_post_process_trip flat_earth_meters stroll_with_jump)
     = total_distance_km (_post_process_trip flat_earth_meters stroll)
  /\ gps_points (_post_process_trip flat_earth_meters stroll_with_jump)
     = gps_points stroll_with_jump.
Proof.
  apply (outlier_free_distance flat_earth_meters stroll stroll_with_jump
           [flat_earth_meters (0, 0) (0, 0.001)]%float
           [flat_earth_meters (0, 0.001) (0, 0.002)]%float
           (flat_earth_meters (0, 0.001) (0.02, 0.001))%float).
  - discriminate.
  - reflexivity.
  - repeat constructor.
  - reflexivity.
  - reflexivity.
Defined.

(** A far point put between two retained points is another matter: both
    segments that touch it are left out and the segment it replaced is no
    longer measured, so the total drops to the remaining segment. *)
Example far_point_replaces_a_segment :
  _calculate_distance flat_earth_meters (gps_points stroll_with_detour)
  = (flat_earth_meters (0, 0) (0, 0.001) / 1000)%float
  /\ lt (_calculate_distance flat_earth_meters (gps_points stroll_with_detour))
        (_calculate_distance flat_earth_meters (gps_points stroll)) = true.
Proof. split; reflexivity. Qed.

End RouteRecFacts.


(** * Properties of the sensor processor *)

Module SensorProcFacts.
Import Py SensorProc Samples.

(** An upper-cased character is never a lower-case letter. *)
Lemma upper_ascii_not_lower (c : ascii) :
  let n := nat_of_ascii (upper_ascii c) in
  ((97 <=? n)%nat && (n <=? 122)%nat)%bool = false.
Proof. destruct c as [[] [] [] [] [] [] [] []]; reflexivity. Qed.

(** The lookup key is upper-cased, so only the upper-case entries of the
    table can ever be found. *)
Lemma lower_case_entries_unreachable (s : string) :
  dict_get activity_mapping (upper s) = dict_get upper_case_entries (upper s).
Proof.
  destruct s as [|c s]; [reflexivity|].
  cbn [upper]. pose proof (upper_ascii_not_lower c) as Hc.
  destruct (upper_ascii c) as [[] [] [] [] [] [] [] []];
    try discriminate Hc; reflexivity.
Qed.

(** A label whose upper-case form is an Android label gets that label's
    activity, whatever its letter case. *)
Lemma android_labels_case_insensitive (s : string) (c : option float)
    (a : ActivityType) :
  s <> ""%string ->
  dict_get upper_case_entries (upper s) = Some a ->
  (process_activity (Some s) c).1 = a.
Proof.
  intros Hs Ha. unfold process_activity. cbn [fst].
  destruct s as [|ch s]; [congruence|]. cbn [str_truthy].
  rewrite lower_case_entries_unreachable, Ha. reflexivity.
Qed.

(** Android labels are recognised in any letter case. *)
Lemma android_labels_any_case :
  (process_activity (Some "IN_VEHICLE"%string) (Some 0.9%float)).1 = IN_VEHICLE
  /\ (process_activity (Some "in_vehicle"%string) (Some 0.9%float)).1 = IN_VEHICLE
  /\ (process_activity (Some "Walking"%string) (Some 0.9%float)).1 = WALKING
  /\ (process_activity (Some "still"%string) (Some 0.9%float)).1 = STILL
  /\ (process_activity (Some "On_Bicycle"%string) (Some 0.9%float)).1 = ON_BICYCLE
  /\ (process_activity (Some "tilting"%string) (Some 0.9%float)).1 = TILTING
  /\ (process_activity (Some "RUNNING"%string) (Some 0.9%float)).1 = RUNNING
  /\ (process_activity (Some "on_foot"%string) (Some 0.9%float)).1 = ON_FOOT.
Proof. repeat split; reflexivity. Qed.

(** An unlabeled sample is [unknown] with confidence 0.5. *)
Lemma unlabeled_is_unknown :
  process_activity None None = (UNKNOWN, 0.5%float).
Proof. reflexivity. Qed.

(** C5: the table maps the iOS labels [automotive], [cycling] and
    [stationary] to [in_vehicle], [on_bicycle] and [still], but
    [process_activity] upper-cases the label before the lookup, finds no
    entry and answers [unknown]. *)
Theorem ios_labels_fall_to_unknown :
  (dict_get activity_mapping "automotive" = Some IN_VEHICLE
   /\ process_activity (Some "automotive"%string) None = (UNKNOWN, 0.5%float))
  /\ (dict_get activity_mapping "cycling" = Some ON_BICYCLE
      /\ process_activity (Some "cycling"%string) None = (UNKNOWN, 0.5%float))
  /\ (dict_get activity_mapping "stationary" = Some STILL
      /\ process_activity (Some "stationary"%string) None = (UNKNOWN, 0.5%float)).
Proof. repeat split; reflexivity. Qed.

Section Facts.

Variable py_sum : list float -> float.
Variable statistics_variance : list float -> float.
Variable float_pow : float -> float -> option float.

Lemma deque_append_maxlen {A : Type} (d : deque A) (x : A) :
  maxlen (deque_append d x) = maxlen d.
Proof.
  unfold deque_append. destruct (maxlen d) eqn:E; [congruence|].
  destruct (_ <? _)%nat; simpl; congruence.
Qed.

(** Appending to a window of positive length puts the value last. *)
Lemma deque_append_last {A : Type} (d : deque A) (x : A) :
  (0 < maxlen d)%nat -> last (items (deque_append d x)) = Some x.
Proof.
  unfold deque_append. destruct (maxlen d) eqn:E; [lia|]. intros _.
  destruct (_ <? _)%nat; simpl; apply last_snoc.
Qed.

Lemma process_speed_windows_ok (p : SensorDataProcessor) (raw : RawSensorData) :
  windows_ok p -> windows_ok (_process_speed py_sum p raw).1.
Proof.
  intros [Hcfg Hw]. unfold _process_speed. split; [exact Hcfg|].
  cbn [fst speed_windows]. intros uid w Hl.
  apply lookup_insert_Some in Hl as [[_ <-]|[_ Hl]]; [|eauto].
  rewrite deque_append_maxlen.
  destruct (speed_windows p !! user_id raw) eqn:E; [eauto|].
  rewrite Hcfg. reflexivity.
Qed.

Lemma process_motion_keeps_windows (p : SensorDataProcessor) (now : datetime)
    (raw : RawSensorData) (x y z : float) :
  let p' := (_process_motion_data statistics_variance float_pow p now raw x y z).1 in
  speed_windows p' = speed_windows p /\ config p' = config p.
Proof.
  unfold _process_motion_data.
  destruct (add_motion_data _ _ _ _ _ _); split; reflexivity.
Qed.

Lemma call_windows_ok (p : SensorDataProcessor) (c : Call) :
  windows_ok p -> windows_ok (call py_sum statistics_variance float_pow p c).
Proof.
  intros Hok. destruct c as [now raw|uid]; simpl.
  - unfold process_sensor_data.
    destruct (validate_gps_data raw) as [[|] msg]; [|exact Hok].
    pose proof (process_speed_windows_ok p raw Hok) as H1.
    destruct (_process_speed py_sum p raw) as [p1 v]. cbn [fst] in H1.
    destruct (process_activity _ _) as [act conf].
    destruct (determine_movement_state _ _ _) as [mv mc].
    destruct (accelerometer_x raw) as [x|]; [|exact H1].
    destruct (accelerometer_y raw) as [y|]; [|exact H1].
    destruct (accelerometer_z raw) as [z|]; [|exact H1].
    pose proof (process_motion_keeps_windows p1 now raw x y z) as [Hw Hc].
    destruct (_process_motion_data _ _ _ _ _ _ _ _) as [p2 motion].
    cbn [fst] in *. destruct H1 as [Hcfg H1].
    split; [congruence|]. rewrite Hw. exact H1.
  - destruct Hok as [Hcfg Hw]. split; [exact Hcfg|].
    cbn [cleanup_user_data speed_windows]. intros u w Hl.
    apply lookup_delete_Some in Hl as [_ Hl]. eauto.
Qed.

(** Every processor reached from a new one has well-formed windows. *)
Lemma run_windows_ok (calls : list Call) :
  windows_ok (run py_sum statistics_variance float_pow calls).
Proof.
  unfold run. induction calls as [|c calls IH] using rev_ind.
  - split; [reflexivity|]. intros uid w Hl. simpl in Hl.
    rewrite lookup_empty in Hl. discriminate.
  - rewrite fold_left_app. cbn [fold_left]. apply call_windows_ok, IH.
Qed.

(** What [_process_speed] does with a sample that has no speed reading. *)
Lemma process_speed_without_reading (p : SensorDataProcessor) (raw : RawSensorData) :
  windows_ok p ->
  speed_mps raw = None ->
  let w0 := from_option id (deque_new 5) (speed_windows p !! user_id raw) in
  let w' := deque_append w0 0%float in
  let '(p', v) := _process_speed py_sum p raw in
  speed_windows p' !! user_id raw = Some w'
  /\ last (items w') = Some 0%float
  /\ v = window_mean py_sum (items w').
Proof.
  intros [Hcfg Hw] Hs w0 w'. unfold _process_speed. rewrite Hs, Hcfg.
  cbn [or_default speed_smoothing_window processor_config speed_windows].
  change (0 * 3.6)%float with 0%float.
  replace (match speed_windows p !! user_id raw with
           | Some w => w
           | None => deque_new 5
           end) with w0
    by (subst w0; destruct (speed_windows p !! user_id raw); reflexivity).
  fold w'.
  assert (Hlast : last (items w') = Some 0%float).
  { apply deque_append_last. subst w0.
    destruct (speed_windows p !! user_id raw) as [w|] eqn:E; simpl.
    - rewrite (Hw _ _ E). lia.
    - lia. }
  split; [apply lookup_insert_eq|]. split; [exact Hlast|].
  destruct (items w') eqn:E; [discriminate|reflexivity].
Qed.

(** C10: on any processor reached from a new one, a sample that passes
    validation and has [speed_mps = None] appends 0 km/h to the user's
    window (created with length 5 if the user is new, the oldest value
    dropped if it is full), and the smoothed speed of the returned record
    is the mean of that window, 0 included.  The only way no record is
    returned is an accelerometer triple whose magnitude overflows. *)
Theorem missing_speed_counts_as_zero (calls : list Call) (now : datetime)
    (raw : RawSensorData) :
  (validate_gps_data raw).1 = true ->
  speed_mps raw = None ->
  let p := run py_sum statistics_variance float_pow calls in
  let w0 := from_option id (deque_new 5) (speed_windows p !! user_id raw) in
  let w' := deque_append w0 0%float in
  let '(p', res) := process_sensor_data py_sum statistics_variance float_pow p now raw in
  speed_windows p' !! user_id raw = Some w'
  /\ last (items w') = Some 0%float
  /\ match res with
     | Some out => p_speed_kmh out = window_mean py_sum (items w')
     | None =>
         exists x y z a,
           accelerometer_x raw = Some x /\ accelerometer_y raw = Some y
           /\ accelerometer_z raw = Some z
           /\ add_motion_data float_pow a now x y z = None
     end.
Proof.
  intros Hvalid Hs p w0 w'.
  pose proof (process_speed_without_reading p raw (run_windows_ok calls) Hs) as H1.
  unfold process_sensor_data.
  destruct (validate_gps_data raw) as [[|] msg]; [|discriminate Hvalid].
  destruct (_process_speed py_sum p raw) as [p1 v].
  cbv zeta in H1. fold w0 w' in H1. destruct H1 as (Hwin & Hlast & Hv).
  destruct (process_activity _ _) as [act conf].
  destruct (determine_movement_state _ _ _) as [mv mc].
  destruct (accelerometer_x raw) as [x|];
    [|repeat split; assumption].
  destruct (accelerometer_y raw) as [y|];
    [|repeat split; assumption].
  destruct (accelerometer_z raw) as [z|];
    [|repeat split; assumption].
  pose proof (process_motion_keeps_windows p1 now raw x y z) as [Hw _].
  unfold _process_motion_data in *.
  destruct (add_motion_data float_pow _ now x y z) as [a'|] eqn:Ha;
    cbn [fst] in Hw; cbn [speed_windows mbind option_bind];
    (split; [exact Hwin|]); (split; [exact Hlast|]).
  - exact Hv.
  - eauto 10.
Qed.

End Facts.

(** A user whose window holds 7.2 km/h sends a sample without speed: the
    window becomes [7.2; 0] and the smoothed speed is their mean. *)
Example missing_speed_halves_the_mean :
  let p := run sum_left variance_zero pow_2_or_half
             [Process 10 (raw_with_speed (Some 2%float) 0)] in
  let '(p', res) :=
    process_sensor_data sum_left variance_zero pow_2_or_half p 20
      (raw_with_speed None (seconds 5)) in
  items <$> speed_windows p' !! "u1"%string = Some [(2 * 3.6)%float; 0%float]
  /\ p_speed_kmh <$> res = Some ((0 + 2 * 3.6 + 0) / 2)%float.
Proof. vm_compute. split; reflexivity. Qed.

Lemma missing_speed_counts_as_zero_witness :
  let raw := raw_with_speed None (seconds 5) in
  let p := run sum_left variance_zero pow_2_or_half
             [Process 10 (raw_with_speed (Some 2%float) 0)] in
  (validate_gps_data raw).1 = true
  /\ speed_mps raw = None
  /\ let w' :=
       deque_append (from_option id (deque_new 5) (speed_windows p !! user_id raw))
         0%float in
     let '(p', res) :=
       process_sensor_data sum_left variance_zero pow_2_or_half p 20 raw in
     speed_windows p' !! user_id raw = Some w'
     /\ last (items w') = Some 0%float
     /\ match res with
        | Some out => p_speed_kmh out = window_mean sum_left (items w')
        | None =>
            exists x y z a,
              accelerometer_x raw = Some x /\ accelerometer_y raw = Some y
              /\ accelerometer_z raw = Some z
              /\ add_motion_data pow_2_or_half a 20 x y z = None
        end.
Proof.
  intros raw p. split; [reflexivity|]. split; [reflexivity|].
  apply (missing_speed_counts_as_zero sum_left variance_zero pow_2_or_half
           [Process 10 (raw_with_speed (Some 2%float) 0)] 20 raw);
    reflexivity.
Defined.

End SensorProcFacts.


(** * Properties of the feature extractor and the mode classifier *)

Module MLBackendFacts.
Import Py MLBackend Samples.

(** C7: with mean speed 5 km/h, mean acceleration 1 and stop frequency
    8/60, whatever the other features, walking scores strictly above
    train (0.608 against 0.2) and is the selected mode, with its score as
    the confidence. *)
Theorem walking_beats_train (f : MLFeatures) :
  avg_speed_kmh f = 5%float ->
  avg_acceleration f = 1%float ->
  stop_frequency f = (8 / 60)%float ->
  exists w t : float,
    _calculate_mode_score f "walking" = Some w
    /\ _calculate_mode_score f "train" = Some t
    /\ gt w t = true
    /\ gt w 0.6 = true /\ lt t 0.21 = true
    /\ classify_transport_mode f = (WALKING, w).
Proof.
  intros Hs Ha Hf.
  unfold classify_transport_mode, candidate_modes, map_raise,
    _calculate_mode_score.
  rewrite Hs, Ha, Hf.
  eexists _, _. repeat split; vm_compute; reflexivity.
Qed.

Lemma walking_beats_train_witness :
  exists w t : float,
    _calculate_mode_score slow_walk "walking" = Some w
    /\ _calculate_mode_score slow_walk "train" = Some t
    /\ gt w t = true
    /\ gt w 0.6 = true /\ lt t 0.21 = true
    /\ classify_transport_mode slow_walk = (WALKING, w).
Proof. apply (walking_beats_train slow_walk); reflexivity. Defined.

Lemma dict_get_app {V : Type} (l1 l2 : list (string * V)) (k : string) :
  dict_get (l1 ++ l2) k =
  match dict_get l1 k with
  | Some v => Some v
  | None => dict_get l2 k
  end.
Proof.
  induction l1 as [|[k' v] l1 IH]; [reflexivity|].
  cbn [app dict_get]. destruct (String.eqb k k'); auto.
Qed.

Lemma dict_get_absent {V : Type} (l : list (string * V)) (k : string) :
  mem_string k (map fst l) = false -> dict_get l k = None.
Proof.
  induction l as [|[k' v] l IH]; [reflexivity|].
  cbn [map fst mem_string existsb dict_get].
  destruct (String.eqb k k'); [discriminate|]. exact IH.
Qed.

(** The constructor fails when [avg_acceleration] is not among the
    keywords. *)
Lemma build_needs_avg_acceleration (kw : kwargs) :
  dict_get kw "avg_acceleration" = None -> build_MLFeatures kw = None.
Proof.
  intros H. unfold build_MLFeatures.
  destruct (has_duplicate _); [reflexivity|].
  destruct (negb _); [reflexivity|].
  rewrite H.
  destruct (dict_get kw "avg_speed_kmh"); [|reflexivity].
  destruct (dict_get kw "max_speed_kmh"); [|reflexivity].
  destruct (dict_get kw "speed_variance"); [|reflexivity].
  destruct (dict_get kw "speed_percentile_95"); reflexivity.
Qed.

Lemma mem_string_app (k : string) (l1 l2 : list string) :
  mem_string k (l1 ++ l2) = mem_string k l1 || mem_string k l2.
Proof. unfold mem_string. apply existsb_app. Qed.

Lemma has_duplicate_app_r (l1 l2 : list string) :
  has_duplicate l2 = true -> has_duplicate (l1 ++ l2) = true.
Proof.
  intros H. induction l1 as [|k l1 IH]; [exact H|].
  cbn [app has_duplicate]. rewrite IH. apply orb_true_r.
Qed.

Lemma has_duplicate_shared (k : string) (l1 l2 : list string) :
  mem_string k l1 = true -> mem_string k l2 = true ->
  has_duplicate (l1 ++ l2) = true.
Proof.
  intros H1 H2. induction l1 as [|k' l1 IH]; [discriminate|].
  cbn [app has_duplicate]. cbn [mem_string existsb] in H1.
  destruct (String.eqb k k') eqn:E.
  - apply String.eqb_eq in E as <-.
    rewrite mem_string_app, H2, orb_true_r. reflexivity.
  - rewrite (IH H1). apply orb_true_r.
Qed.

(** The constructor fails when a keyword is given twice. *)
Lemma build_rejects_duplicates (kw : kwargs) :
  has_duplicate (map fst kw) = true -> build_MLFeatures kw = None.
Proof. intros H. unfold build_MLFeatures. rewrite H. reflexivity. Qed.

Section Facts.

Variable statistics_mean : list float -> float.
Variable statistics_variance : list float -> option float.
Variable math_radians : float -> float.
Variable math_degrees : float -> float.
Variable math_sin : float -> option float.
Variable math_cos : float -> option float.
Variable math_asin : float -> option float.
Variable math_sqrt : float -> option float.
Variable math_atan2 : float -> float -> float.
Variable float_pow : float -> float -> option float.
Variable float_mod : float -> float -> float.
Variable fromtimestamp : float -> option datetime.
Variable dt_hour : datetime -> Z.
Variable dt_weekday : datetime -> Z.

(** Fewer than 10 points: no feature vector. *)
Lemma extract_features_insufficient (points : list PointDict)
    (sensor_data : option (list SensorDict)) :
  (List.length points < 10)%nat ->
  extract_features statistics_mean statistics_variance math_radians math_degrees
    math_sin math_cos math_asin math_sqrt math_atan2 float_pow float_mod
    fromtimestamp dt_hour dt_weekday points sensor_data = None.
Proof.
  intros H. unfold extract_features.
  cbn [min_points_for_features extractor_config].
  apply Nat.ltb_lt in H. rewrite H. reflexivity.
Qed.

Lemma insert_by_Forall {A : Type} (P : A -> Prop) (key : A -> float) (x : A)
    (l : list A) :
  P x -> Forall P l -> Forall P (insert_by key x l).
Proof.
  intros Hx. induction 1 as [|y l Hy Hl IH]; cbn [insert_by].
  - repeat constructor. exact Hx.
  - destruct (lt _ _); repeat constructor; assumption.
Qed.

Lemma sorted_by_Forall {A : Type} (P : A -> Prop) (key : A -> float)
    (l : list A) :
  Forall P l -> Forall P (sorted_by key l).
Proof.
  induction 1 as [|x l Hx Hl IH]; [constructor|].
  cbn [sorted_by foldr]. apply insert_by_Forall; assumption.
Qed.

Lemma omap_all_None {A B : Type} (f : A -> option B) (l : list A) :
  Forall (fun x => f x = None) l -> omap f l = [].
Proof.
  induction 1 as [|x l Hx Hl IH]; [reflexivity|].
  cbn [omap list_omap]. rewrite Hx. exact IH.
Qed.

(** The keys of the movement and time dictionaries. *)
Lemma movement_keys (cfg : ExtractorConfig) (points : list PointDict)
    (kw : kwargs) :
  _extract_movement_features math_radians math_degrees math_sin math_cos
    math_asin math_sqrt math_atan2 float_pow float_mod cfg points = Some kw ->
  map fst kw
  = [ "stop_frequency"; "direction_changes"; "distance_actual";
      "distance_straight_line" ]%string.
Proof.
  unfold _extract_movement_features. intros H.
  repeat match type of H with
         | (_ ≫= _) = Some _ =>
             apply bind_Some in H as (? & _ & H)
         end.
  injection H as <-. reflexivity.
Qed.

Lemma time_keys (points : list PointDict) (kw : kwargs) :
  _extract_time_features fromtimestamp dt_hour dt_weekday points = Some kw ->
  map fst kw = [ "duration_minutes"; "time_of_day"; "day_of_week" ]%string.
Proof.
  unfold _extract_time_features. intros H.
  destruct points as [|p0 rest]; [injection H as <-; reflexivity|].
  destruct (last (p0 :: rest)); [|injection H as <-; reflexivity].
  repeat match type of H with
         | (_ ≫= _) = Some _ =>
             apply bind_Some in H as (? & _ & H)
         end.
  injection H as <-. reflexivity.
Qed.

Lemma sensor_keys (sd : list SensorDict) (kw : kwargs) :
  sd <> [] ->
  _extract_sensor_features statistics_mean statistics_variance float_pow sd
    = Some kw ->
  mem_string "activity_confidence" (map fst kw) = true.
Proof.
  unfold _extract_sensor_features. intros Hne H.
  apply bind_Some in H as (mv & _ & H).
  apply bind_Some in H as (f1 & _ & H).
  destruct sd as [|d sd]; [congruence|].
  apply bind_Some in H as (cs & _ & H). injection H as <-.
  rewrite map_app, mem_string_app. apply orb_true_r.
Qed.

Lemma sensor_keys_shape (sd : list SensorDict) (kw : kwargs) :
  _extract_sensor_features statistics_mean statistics_variance float_pow sd
    = Some kw ->
  exists b1 b2 : bool,
    map fst kw
    = (if b1 then ["motion_variance"%string] else [])
      ++ (if b2 then ["activity_confidence"%string] else []).
Proof.
  unfold _extract_sensor_features. intros H.
  apply bind_Some in H as (mv & _ & H).
  apply bind_Some in H as (f1 & Hf1 & H).
  assert (Hk : exists b1 : bool,
            map fst f1 = if b1 then ["motion_variance"%string] else []).
  { destruct mv.
    - injection Hf1 as <-. exists false. reflexivity.
    - apply bind_Some in Hf1 as (v & _ & Hf1). injection Hf1 as <-.
      exists true. reflexivity. }
  destruct Hk as [b1 Hk].
  destruct sd as [|d sd].
  - injection H as <-. exists b1, false. rewrite Hk, app_nil_r. reflexivity.
  - apply bind_Some in H as (cs & _ & H). injection H as <-.
    exists b1, true. rewrite map_app, Hk. reflexivity.
Qed.

(** No speed reading on any point: the speed dictionary lacks the
    acceleration keys and no feature vector is built. *)
Lemma extract_features_without_speed (points : list PointDict)
    (sensor_data : option (list SensorDict)) :
  Forall (fun p => field_get_val (pt_speed_kmh p) = None) points ->
  extract_features statistics_mean statistics_variance math_radians math_degrees
    math_sin math_cos math_asin math_sqrt math_atan2 float_pow float_mod
    fromtimestamp dt_hour dt_weekday points sensor_data = None.
Proof.
  intros Hnone. unfold extract_features.
  destruct (_ <? _)%nat; [reflexivity|].
  destruct (map_raise _ points) as [keys|]; [|reflexivity].
  cbn [mbind option_bind].
  set (sorted_points := sorted_by _ points).
  assert (Hsp : _extract_speed_features statistics_mean statistics_variance
                  sorted_points
                = Some [ ("avg_speed_kmh", VFloat 0); ("max_speed_kmh", VFloat 0);
                         ("speed_variance", VFloat 0);
                         ("speed_percentile_95", VFloat 0) ]%string).
  { unfold _extract_speed_features.
    rewrite (omap_all_None _ sorted_points); [reflexivity|].
    apply sorted_by_Forall, Hnone. }
  rewrite Hsp. cbn [mbind option_bind].
  destruct (_extract_movement_features _ _ _ _ _ _ _ _ _ _ _) as [mv|] eqn:Hmv;
    [|reflexivity].
  destruct (_extract_time_features _ _ _ _) as [tf|] eqn:Htf; [|reflexivity].
  cbn [mbind option_bind _extract_gps_features].
  destruct (match sensor_data with Some ((_ :: _) as sd) => _ | _ => _ end)
    as [sf|] eqn:Hsf; [|reflexivity].
  cbn [mbind option_bind].
  apply build_needs_avg_acceleration.
  rewrite !dict_get_app.
  rewrite (dict_get_absent mv)
    by (rewrite (movement_keys _ _ _ Hmv); reflexivity).
  rewrite (dict_get_absent tf) by (rewrite (time_keys _ _ Htf); reflexivity).
  cbn [dict_get String.eqb Ascii.eqb Bool.eqb].
  apply dict_get_absent.
  destruct sensor_data as [[|d sd]|]; try (injection Hsf as <-; reflexivity).
  destruct (sensor_keys_shape _ _ Hsf) as ([|] & [|] & ->); reflexivity.
Qed.

(** Any sensor data at all: [activity_confidence] is passed twice, by the
    GPS dictionary and by the sensor dictionary, and no feature vector is
    built. *)
Lemma extract_features_with_sensor_data (points : list PointDict)
    (sd : list SensorDict) :
  sd <> [] ->
  extract_features statistics_mean statistics_variance math_radians math_degrees
    math_sin math_cos math_asin math_sqrt math_atan2 float_pow float_mod
    fromtimestamp dt_hour dt_weekday points (Some sd) = None.
Proof.
  intros Hne. unfold extract_features.
  destruct (_ <? _)%nat; [reflexivity|].
  destruct (map_raise _ points) as [keys|]; [|reflexivity].
  cbn [mbind option_bind].
  destruct (_extract_speed_features _ _ _) as [sp|]; [|reflexivity].
  cbn [mbind option_bind].
  destruct (_extract_movement_features _ _ _ _ _ _ _ _ _ _ _) as [mv|];
    [|reflexivity].
  destruct (_extract_time_features _ _ _ _) as [tf|]; [|reflexivity].
  cbn [mbind option_bind _extract_gps_features].
  destruct sd as [|d sd]; [congruence|].
  destruct (_extract_sensor_features statistics_mean statistics_variance
              float_pow (d :: sd)) as [sf|] eqn:Hsf; [|reflexivity].
  cbn [mbind option_bind].
  apply build_rejects_duplicates.
  rewrite !map_app. do 3 apply has_duplicate_app_r.
  apply (has_duplicate_shared "activity_confidence").
  - reflexivity.
  - apply (sensor_keys (d :: sd)); [discriminate|exact Hsf].
Qed.

(** C9: ten well-formed points none of which has a [speed_kmh] key give
    no feature vector, and neither do ten points with speeds accompanied
    by one sensor sample: in both cases the [MLFeatures] constructor
    raises and the exception is turned into [None]. *)
Theorem ten_points_yield_no_features :
  List.length ten_points_without_speed = 10%nat
  /\ extract_features statistics_mean statistics_variance math_radians
       math_degrees math_sin math_cos math_asin math_sqrt math_atan2 float_pow
       float_mod fromtimestamp dt_hour dt_weekday ten_points_without_speed None
     = None
  /\ List.length ten_points_with_speed = 10%nat
  /\ extract_features statistics_mean statistics_variance math_radians
       math_degrees math_sin math_cos math_asin math_sqrt math_atan2 float_pow
       float_mod fromtimestamp dt_hour dt_weekday ten_points_with_speed
       (Some one_sensor_sample)
     = None.
Proof.
  split; [reflexivity|]. split; [|split; [reflexivity|]].
  - apply extract_features_without_speed. repeat constructor.
  - apply extract_features_with_sensor_data. discriminate.
Qed.

End Facts.

(** With a speed on every point and no sensor data the extractor does
    build a vector (here under the stand-in library functions). *)
Example ten_points_with_speed_give_features :
  exists f : MLFeatures,
    extract_features mean_left variance_always_zero radians_approx degrees_approx
      sin_small cos_small asin_small sqrt_total atan2_small pow_2_or_half
      mod_below_twice fromtimestamp_utc hour_utc weekday_thursday
      ten_points_with_speed None = Some f
    /\ gps_point_count f = 10
    /\ avg_speed_kmh f = 5%float
    /\ max_speed_kmh f = 5%float
    /\ avg_acceleration f = 0%float
    /\ stop_frequency f = 0%float
    /\ avg_accuracy f = 5%float.
Proof. vm_compute. eexists. repeat split. Qed.

End MLBackendFacts.


(** * More facts about float comparisons *)

Module FloatOrder.
Import Py PyFacts.

(** A float below a threshold is not at or above it. *)
Lemma lt_not_ge (x y : float) : lt x y = true -> ge x y = false.
Proof.
  unfold ge, lt. rewrite leb_spec, ltb_spec. unfold SFleb, SFltb.
  rewrite (SFcompare_antisym (Prim2SF x) (Prim2SF y)).
  destruct (SFcompare (Prim2SF x) (Prim2SF y)) as [[]|]; simpl; congruence.
Qed.

Lemma ltb_leb (x y : float) : PrimFloat.ltb x y = true -> PrimFloat.leb x y = true.
Proof.
  rewrite leb_spec, ltb_spec. unfold SFleb, SFltb.
  destruct (SFcompare (Prim2SF x) (Prim2SF y)) as [[]|]; congruence.
Qed.

End FloatOrder.


(** * The stop side of the trip state machine, manual control, callbacks *)

Module TripLifecycleFacts.
Import Py TripSM Samples PyFacts FloatOrder TripSMFacts.

Section Facts.

Variable strftime_id : datetime -> string.

(** The first slow sample of an active trip starts the stop timer. *)
Lemma active_arms (m : TripStateMachine) (clk : Clock) (sd : SensorData) :
  default_stop_thresholds m -> cruising m -> slow (clk, sd) ->
  let '(m', r) := process_sensor_data strftime_id m clk sd in
  default_stop_thresholds m' /\ stopping_since m' (timestamp sd)
  /\ trip_id (context m') = trip_id (context m)
  /\ on_trip_stop m' = on_trip_stop m
  /\ hook_calls m' = hook_calls m
  /\ r_state_changed r = false /\ r_current_state r = "active"%string.
Proof.
  intros [Hs Hd] [Hst Htm] Hslow. unfold slow in Hslow. simpl in Hslow.
  unfold process_sensor_data. simpl. rewrite Hst. simpl.
  unfold _handle_active_state. simpl. rewrite Hs, Hslow, Htm. simpl.
  rewrite Hst. repeat split; assumption.
Qed.

(** While fewer than 60 s have elapsed, slow samples change nothing. *)
Lemma active_waits (t0 : datetime) (xs : list (Clock * SensorData)) :
  forall m : TripStateMachine,
  default_stop_thresholds m -> stopping_since m t0 ->
  Forall slow xs ->
  Forall (fun x => dt_sub (timestamp x.2) t0 < seconds 60) xs ->
  let '(m', rs) := TripSM.feed strftime_id m xs in
  default_stop_thresholds m' /\ stopping_since m' t0
  /\ trip_id (context m') = trip_id (context m)
  /\ on_trip_stop m' = on_trip_stop m
  /\ hook_calls m' = hook_calls m
  /\ map r_state_changed rs = repeat false (List.length xs)
  /\ map r_current_state rs = repeat "active"%string (List.length xs).
Proof.
  induction xs as [|[clk sd] xs IH]; intros m Hth Harm Hslow Hlt; simpl.
  - repeat split; try apply Hth; apply Harm.
  - inversion Hslow as [|? ? Hf Hfs]; subst. inversion Hlt as [|? ? Hl Hls]; subst.
    destruct Hth as [Hs Hd]. destruct Harm as [Hst Htm].
    unfold slow in Hf. simpl in Hf, Hl.
    unfold process_sensor_data. simpl. rewrite Hst. simpl.
    unfold _handle_active_state. simpl. rewrite Hs, Hf, Htm, Hd.
    assert (Hno : total_seconds_ge (dt_sub (timestamp sd) t0) 60 = false).
    { apply not_true_is_false. rewrite total_seconds_ge_spec. lia. }
    rewrite Hno. simpl.
    match goal with |- context [TripSM.feed strftime_id ?m1 xs] =>
      specialize (IH m1) end.
    destruct (TripSM.feed strftime_id _ xs) as [m2 rs].
    destruct IH as (Hth' & Harm' & Hid & Hstop & Hcalls & Hflags & Hstates);
      try assumption.
    + split; assumption.
    + split; assumption.
    + rewrite Hst. simpl. simpl in Hid, Hstop, Hcalls. repeat split;
        try apply Hth'; try apply Harm'; congruence.
Qed.

(** The first slow sample at least 60 s after the timer start ends the
    trip and reports it to the stop callback. *)
Lemma active_fires (m : TripStateMachine) (t0 : datetime) (clk : Clock)
    (sd : SensorData) (h : Hook) (tid : string) :
  default_stop_thresholds m -> stopping_since m t0 ->
  on_trip_stop m = Some h -> trip_id (context m) = Some tid -> tid <> ""%string ->
  slow (clk, sd) ->
  seconds 60 <= dt_sub (timestamp sd) t0 ->
  let '(m', r) := process_sensor_data strftime_id m clk sd in
  speed_threshold_kmh (config m') = 3%float
  /\ current_state (context m') = IDLE
  /\ speed_above_threshold_start (context m') = None
  /\ trip_id (context m') = None
  /\ hook_calls m' = hook_calls m ++ [TripStopCalled tid]
  /\ r_state_changed r = true /\ r_current_state r = "idle"%string
  /\ r_trigger r = Some "stop_duration_threshold"%string.
Proof.
  intros [Hs Hd] [Hst Htm] Hh Hid Hne Hf Hge. unfold slow in Hf. simpl in Hf.
  unfold process_sensor_data. simpl. rewrite Hst. simpl.
  unfold _handle_active_state. simpl. rewrite Hs, Hf, Htm, Hd.
  apply total_seconds_ge_spec in Hge. rewrite Hge. simpl.
  rewrite Hh, Hid. destruct tid as [|c tid]; [congruence|]. simpl.
  destruct (h (String c tid)); repeat split; assumption.
Qed.

(** Idle with no timer running, slow samples change nothing. *)
Lemma idle_stays (xs : list (Clock * SensorData)) :
  forall m : TripStateMachine,
  speed_threshold_kmh (config m) = 3%float ->
  current_state (context m) = IDLE ->
  speed_above_threshold_start (context m) = None ->
  Forall slow xs ->
  let '(m', rs) := TripSM.feed strftime_id m xs in
  current_state (context m') = IDLE
  /\ trip_id (context m') = trip_id (context m)
  /\ hook_calls m' = hook_calls m
  /\ map r_state_changed rs = repeat false (List.length xs)
  /\ map r_current_state rs = repeat "idle"%string (List.length xs).
Proof.
  induction xs as [|[clk sd] xs IH]; intros m Hs Hst Htm Hslow; simpl.
  - repeat split; assumption.
  - inversion Hslow as [|? ? Hf Hfs]; subst. unfold slow in Hf. simpl in Hf.
    unfold process_sensor_data. simpl. rewrite Hst. simpl.
    unfold _handle_idle_state. simpl. rewrite Hs, (lt_not_ge _ _ Hf), Htm.
    match goal with |- context [TripSM.feed strftime_id ?m1 xs] =>
      specialize (IH m1) end.
    destruct (TripSM.feed strftime_id _ xs) as [m2 rs].
    destruct IH as (Hst' & Hid & Hcalls & Hflags & Hstates); try assumption.
    simpl. rewrite Hst. simpl in *. repeat split; congruence.
Qed.

(** X1: Active machine, thresholds 3.0 km/h and 60 s, stop timer not
    running, stop callback registered.  If every sample of the stream is
    below the threshold and [xk] is the first sample at least 60 s after
    the first sample [x0], then exactly one call reports a state change,
    the call for [xk]; the machine is active before it and idle from it
    on, the trip id is cleared and the stop callback is called once, with
    the id of the trip that ended. *)
Theorem active_to_idle_exactly_once
    (m : TripStateMachine) (x0 xk : Clock * SensorData)
    (mid post : list (Clock * SensorData)) (h : Hook) (tid : string) :
  default_stop_thresholds m ->
  cruising m ->
  on_trip_stop m = Some h -> trip_id (context m) = Some tid -> tid <> ""%string ->
  Forall slow (x0 :: mid ++ xk :: post) ->
  Forall (fun x => dt_sub (timestamp x.2) (timestamp x0.2) < seconds 60) mid ->
  seconds 60 <= dt_sub (timestamp xk.2) (timestamp x0.2) ->
  let '(m', rs) := TripSM.feed strftime_id m (x0 :: mid ++ xk :: post) in
  map r_state_changed rs
    = false :: repeat false (List.length mid)
      ++ true :: repeat false (List.length post)
  /\ map r_current_state rs
    = repeat "active"%string (S (List.length mid))
      ++ repeat "idle"%string (S (List.length post))
  /\ current_state (context m') = IDLE
  /\ trip_id (context m') = None
  /\ hook_calls m' = hook_calls m ++ [TripStopCalled tid].
Proof.
  intros Hth Hcr Hh Hid Hne Hslow Hmid Hk.
  destruct x0 as [clk0 s0], xk as [clkk sk]. simpl in Hmid, Hk.
  inversion Hslow as [|? ? Hf0 Hrest]; subst.
  apply Forall_app in Hrest as [Hfmid Hrest].
  inversion Hrest as [|? ? Hfk Hfpost]; subst.
  cbn [TripSM.feed].
  pose proof (active_arms m clk0 s0 Hth Hcr Hf0) as H0.
  destruct (process_sensor_data strftime_id m clk0 s0) as [m1 r0].
  destruct H0 as (Hth1 & Harm1 & Hid1 & Hstop1 & Hcalls1 & Hc0 & Hs0).
  rewrite feed_app.
  pose proof (active_waits (timestamp s0) mid m1 Hth1 Harm1 Hfmid Hmid) as H1.
  destruct (TripSM.feed strftime_id m1 mid) as [m2 r1].
  destruct H1 as (Hth2 & Harm2 & Hid2 & Hstop2 & Hcalls2 & Hc1 & Hs1).
  cbn [TripSM.feed].
  assert (Hh2 : on_trip_stop m2 = Some h) by congruence.
  assert (Hid2' : trip_id (context m2) = Some tid) by congruence.
  pose proof (active_fires m2 (timestamp s0) clkk sk h tid Hth2 Harm2 Hh2 Hid2'
                Hne Hfk Hk) as H2.
  destruct (process_sensor_data strftime_id m2 clkk sk) as [m3 r2].
  destruct H2 as (Hs3 & Hst3 & Htm3 & Hid3 & Hcalls3 & Hc2 & Hs2 & _).
  pose proof (idle_stays post m3 Hs3 Hst3 Htm3 Hfpost) as H3.
  destruct (TripSM.feed strftime_id m3 post) as [m4 r3].
  destruct H3 as (Hst4 & Hid4 & Hcalls4 & Hc3 & Hs4).
  cbn [map]. rewrite !map_app. cbn [map repeat List.app].
  rewrite Hc0, Hs0, Hc1, Hs1, Hc2, Hs2, Hc3, Hs4.
  repeat split; congruence.
Qed.

(** A call that reports a state change leaves both timers unset. *)
Lemma changed_clears_timers (m : TripStateMachine) (clk : Clock) (sd : SensorData) :
  let '(m', r) := process_sensor_data strftime_id m clk sd in
  r_state_changed r = true ->
  speed_above_threshold_start (context m') = None
  /\ speed_below_threshold_start (context m') = None.
Proof.
  unfold process_sensor_data, _state_handlers, _handle_idle_state,
    _handle_active_state. simpl.
  repeat (case_match; simpl in *; simplify_eq); try discriminate; auto.
Qed.

(** With neither timer running a call cannot change the state. *)
Lemma no_timer_no_change (m : TripStateMachine) (clk : Clock) (sd : SensorData) :
  speed_above_threshold_start (context m) = None ->
  speed_below_threshold_start (context m) = None ->
  let '(m', r) := process_sensor_data strftime_id m clk sd in
  r_state_changed r = false.
Proof.
  intros Ha Hb.
  unfold process_sensor_data, _state_handlers. simpl.
  destruct (current_state (context m));
    unfold _handle_idle_state, _handle_active_state; simpl;
    rewrite ?Ha, ?Hb;
    repeat (case_match; simpl in *; simplify_eq); reflexivity.
Qed.

(** X2: an automatic transition needs two samples, whatever the
    configured durations: no stream makes two consecutive calls of
    [process_sensor_data] both report a state change, and the first sample
    given to a new machine never does. *)
Theorem transitions_need_two_samples (m : TripStateMachine) (c1 c2 : Clock)
    (s1 s2 : SensorData) (cfg : TripConfig) (on_start on_stop : option Hook) :
  (let '(m1, r1) := process_sensor_data strftime_id m c1 s1 in
   let '(m2, r2) := process_sensor_data strftime_id m1 c2 s2 in
   r_state_changed r1 && r_state_changed r2 = false)
  /\ r_state_changed
       (process_sensor_data strftime_id
          (mkMachine cfg initial_TripContext on_start on_stop []) c1 s1).2
     = false.
Proof.
  split.
  - pose proof (changed_clears_timers m c1 s1) as H1.
    destruct (process_sensor_data strftime_id m c1 s1) as [m1 r1].
    pose proof (no_timer_no_change m1 c2 s2) as H2.
    destruct (process_sensor_data strftime_id m1 c2 s2) as [m2 r2].
    destruct (r_state_changed r1); [|reflexivity].
    destruct (H1 eq_refl) as [Ha Hb]. simpl. auto.
  - pose proof (no_timer_no_change
                  (mkMachine cfg initial_TripContext on_start on_stop []) c1 s1
                  eq_refl eq_refl) as H.
    destruct (process_sensor_data _ _ _ _) as [m1 r1]. exact H.
Qed.

(** X3: on an Idle machine [manual_stop_trip] answers [False] and changes
    nothing; a manual start followed by a manual stop brings the machine
    back to Idle with no trip id and no timer, the state-entry time set by
    the stop, the configuration untouched, and a further stop is refused. *)
Theorem manual_stop_closes_manual_start (m : TripStateMachine)
    (clk1 clk2 clk3 : Clock) (u : string) :
  current_state (context m) = IDLE ->
  manual_stop_trip m clk1 = (m, false)
  /\ let '(m1, id) := manual_start_trip strftime_id m clk1 u in
     let '(m2, ok) := manual_stop_trip m1 clk2 in
     id = Some (_generate_trip_id strftime_id (at_generate clk1) u)
     /\ trip_id (context m1) = id
     /\ ok = true
     /\ context m2
        = mkTripContext None IDLE (Some (at_transition clk2))
            (last_sensor_data (context m)) None None
     /\ config m2 = config m
     /\ manual_stop_trip m2 clk3 = (m2, false).
Proof.
  intros Hst. split.
  - unfold manual_stop_trip. rewrite Hst. reflexivity.
  - unfold manual_start_trip. rewrite Hst. simpl. repeat split.
Qed.

Lemma generated_id_not_empty (now : datetime) (prefix : string) :
  _generate_trip_id strftime_id now prefix <> ""%string.
Proof. unfold _generate_trip_id. destruct prefix; discriminate. Qed.

Lemma paired_with_context (hs he : Hook) (m : TripStateMachine) (c : TripContext) :
  trip_id c = trip_id (context m) ->
  current_state c = current_state (context m) ->
  paired_machine hs he m -> paired_machine hs he (with_context m c).
Proof.
  intros Hid Hst (H1 & H2 & H3 & H4 & H5).
  unfold paired_machine, trip_id_iff_active. simpl. rewrite Hid, Hst.
  repeat split; try assumption; apply H5.
Qed.

Lemma paired_to_active (hs he : Hook) (m : TripStateMachine) (now : datetime)
    (tid trg : string) :
  tid <> ""%string ->
  current_state (context m) = IDLE ->
  paired_machine hs he m ->
  paired_machine hs he (_transition_to_active m now tid trg).
Proof.
  intros Hne Hst (H1 & H2 & H3 & H4 & H5).
  assert (Hnone : trip_id (context m) = None).
  { destruct (trip_id (context m)) eqn:E; [|reflexivity].
    assert (current_state (context m) = ACTIVE)
      by (apply H5; rewrite E; discriminate).
    congruence. }
  rewrite Hnone in H3.
  unfold paired_machine. simpl. rewrite H1.
  repeat split; try assumption.
  - destruct (hs tid); constructor; exact H3.
  - congruence.
  - discriminate.
Qed.

Lemma paired_to_idle (hs he : Hook) (m : TripStateMachine) (now : datetime)
    (trg : string) :
  current_state (context m) = ACTIVE ->
  paired_machine hs he m ->
  paired_machine hs he (_transition_to_idle m now trg).
Proof.
  intros Hst (H1 & H2 & H3 & H4 & H5).
  destruct (trip_id (context m)) as [tid|] eqn:E.
  - unfold paired_machine, _transition_to_idle. simpl. rewrite H2, E.
    destruct tid as [|ch tid]; [congruence|]. simpl.
    repeat split; try assumption; try discriminate.
    + destruct (he (String ch tid)); constructor; exact H3.
    + intros H; now destruct H.
  - assert (Hx : trip_id (context m) <> None) by (apply H5; exact Hst).
    congruence.
Qed.

Lemma paired_step (hs he : Hook) (m : TripStateMachine) (o : Op) :
  paired_machine hs he m -> paired_machine hs he (step strftime_id m o).
Proof.
  intros Hinv. destruct o as [clk sd|clk u|clk]; simpl.
  - unfold process_sensor_data.
    set (m1 := with_context m (set_last_sensor_data (context m) sd)).
    assert (H1 : paired_machine hs he m1)
      by (apply paired_with_context; auto).
    change (current_state (context m1)) with (current_state (context m)).
    destruct (current_state (context m)) eqn:Hst; simpl.
    + unfold _handle_idle_state.
      destruct (ge _ _); destruct (speed_above_threshold_start _);
        try destruct (total_seconds_ge _ _); simpl;
        auto using paired_to_active, paired_with_context,
          generated_id_not_empty.
    + unfold _handle_active_state.
      destruct (lt _ _); destruct (speed_below_threshold_start _);
        try destruct (total_seconds_ge _ _); simpl;
        auto using paired_to_idle, paired_with_context.
  - unfold manual_start_trip. destruct (current_state (context m)) eqn:Hst;
      simpl; auto using paired_to_active, generated_id_not_empty.
  - unfold manual_stop_trip. destruct (current_state (context m)) eqn:Hst;
      simpl; auto using paired_to_idle.
Qed.

(** X4: with both callbacks registered from the start, whatever operations
    follow, the calls made to the recorder alternate between start and
    stop, every stop names the trip of the start before it, and a start is
    left unanswered exactly when a trip is open, which is then the
    machine's current trip. *)
Theorem callbacks_are_paired (cfg : TripConfig) (hs he : Hook) (ops : list Op) :
  let m := run strftime_id
             (mkMachine cfg initial_TripContext (Some hs) (Some he) []) ops in
  well_paired (hook_calls m) (trip_id (context m)).
Proof.
  intros m.
  assert (H : paired_machine hs he m).
  { subst m. unfold run.
    induction ops as [|o ops IH] using rev_ind.
    - repeat split; try constructor; try discriminate.
      intros H; now destruct H.
    - rewrite fold_left_app. cbn [fold_left]. apply paired_step, IH. }
  apply H.
Qed.

End Facts.

Lemma active_to_idle_exactly_once_witness :
  let '(m', rs) :=
    TripSM.feed strftime_fixed hooked_active
      (rest_x0 :: rest_mid ++ rest_xk :: rest_post) in
  map r_state_changed rs = [false; false; true; false]
  /\ map r_current_state rs = ["active"; "active"; "idle"; "idle"]%string
  /\ current_state (context m') = IDLE
  /\ trip_id (context m') = None
  /\ hook_calls m'
     = [TripStartCalled "u1_20250101_120000_000";
        TripStopCalled "u1_20250101_120000_000"]%string.
Proof.
  apply (active_to_idle_exactly_once strftime_fixed hooked_active
           rest_x0 rest_xk rest_mid rest_post (fun _ => Raised)
           "u1_20250101_120000_000").
  - split; reflexivity.
  - split; reflexivity.
  - reflexivity.
  - reflexivity.
  - discriminate.
  - repeat constructor.
  - repeat constructor.
  - vm_compute. discriminate.
Defined.

Lemma manual_stop_closes_manual_start_witness :
  current_state (context (new_machine None)) = IDLE
  /\ manual_stop_trip (new_machine None) (tick 10) = (new_machine None, false)
  /\ let '(m1, id) :=
       manual_start_trip strftime_fixed (new_machine None) (tick 10) "u1" in
     let '(m2, ok) := manual_stop_trip m1 (tick 20) in
     id = Some (_generate_trip_id strftime_fixed (at_generate (tick 10)) "u1")
     /\ trip_id (context m1) = id
     /\ ok = true
     /\ context m2
        = mkTripContext None IDLE (Some (at_transition (tick 20)))
            (last_sensor_data (context (new_machine None))) None None
     /\ config m2 = config (new_machine None)
     /\ manual_stop_trip m2 (tick 30) = (m2, false).
Proof.
  split; [reflexivity|].
  apply (manual_stop_closes_manual_start strftime_fixed (new_machine None)
           (tick 10) (tick 20) (tick 30) "u1").
  reflexivity.
Defined.

End TripLifecycleFacts.


(** * The registry of per-user machines *)

Module ManagerFacts.
Import Py TripSM Samples TripSMFacts.

Section Facts.

Variable strftime_id : datetime -> string.
Variable isoformat : datetime -> string.

Lemma step_keeps_config (m : TripStateMachine) (o : Op) :
  config (step strftime_id m o) = config m.
Proof.
  destruct o as [clk sd|clk u|clk]; simpl;
    unfold process_sensor_data, _state_handlers, _handle_idle_state,
      _handle_active_state, manual_start_trip, manual_stop_trip; simpl;
    repeat (case_match; simpl in *; simplify_eq); reflexivity.
Qed.

Lemma on_machine_ok (g : TripStateMachineManager) (uid : string)
    (f : TripStateMachine -> TripStateMachine) :
  (forall m, config (f m) = config m) ->
  (forall m, trip_id_iff_active m -> trip_id_iff_active (f m)) ->
  machines_ok g -> machines_ok (on_machine g uid f).
Proof.
  intros Hcfg Hiff Hok. unfold on_machine, get_machine.
  destruct (_user_machines g !! uid) as [m|] eqn:E;
    intros u m' Hl; cbn [_user_machines _config] in *;
    apply lookup_insert_Some in Hl as [[_ <-]|[Hne Hl]].
  - destruct (Hok _ _ E). rewrite Hcfg. auto.
  - eauto.
  - rewrite Hcfg. split; [reflexivity|]. apply Hiff.
    split; [intros H; now destruct H|discriminate].
  - rewrite lookup_insert_ne in Hl by congruence. eauto.
Qed.

Lemma manager_call_ok (g : TripStateMachineManager) (c : ManagerCall) :
  machines_ok g -> machines_ok (manager_call strftime_id g c).
Proof.
  intros Hok. destruct c as [uid o|uid hs he|uid|cfg]; simpl.
  - apply on_machine_ok; auto using step_keeps_config, step_keeps_iff.
  - apply on_machine_ok; auto.
  - intros u m Hl. cbn [remove_machine _user_machines] in Hl.
    apply lookup_delete_Some in Hl as [_ Hl]. eauto.
  - intros u m Hl. simpl in Hl. rewrite lookup_fmap in Hl.
    destruct (_user_machines g !! u) as [m0|] eqn:E; [|discriminate].
    injection Hl as <-. destruct (Hok _ _ E) as [_ Hiff].
    split; [reflexivity|exact Hiff].
Qed.

Lemma manager_run_ok (calls : list ManagerCall) :
  machines_ok (manager_run strftime_id calls).
Proof.
  unfold manager_run. induction calls as [|c calls IH] using rev_ind.
  - intros u m Hl. simpl in Hl. rewrite lookup_empty in Hl. discriminate.
  - rewrite fold_left_app. apply manager_call_ok, IH.
Qed.

(** X5: after any sequence of manager calls (operations on users'
    machines, callback registration, removal, configuration updates) every
    registered machine runs under the manager's current configuration, and
    [get_all_active_trips] lists exactly the users whose machine is Active,
    each with its state and a non-null trip id; a user left out has no
    machine or an Idle one without trip id. *)
Theorem manager_lists_open_trips (calls : list ManagerCall)
    (clk : string -> datetime) (uid : string) :
  let g := manager_run strftime_id calls in
  (forall m, _user_machines g !! uid = Some m -> config m = _config g)
  /\ match get_all_active_trips isoformat g clk !! uid with
     | Some info =>
         exists m,
           _user_machines g !! uid = Some m
           /\ current_state (context m) = ACTIVE
           /\ info = get_current_state isoformat m (clk uid)
           /\ si_state info = "active"%string
           /\ si_trip_id info <> None
     | None =>
         forall m,
           _user_machines g !! uid = Some m ->
           current_state (context m) = IDLE /\ trip_id (context m) = None
     end.
Proof.
  intros g. pose proof (manager_run_ok calls) as Hok. fold g in Hok.
  split; [intros m Hl; apply (Hok _ _ Hl)|].
  unfold get_all_active_trips. rewrite map_lookup_imap.
  destruct (_user_machines g !! uid) as [m|] eqn:E; simpl; [|discriminate].
  destruct (Hok _ _ E) as [_ Hiff].
  destruct (current_state (context m)) eqn:Hst.
  - intros m' [= <-]. split; [exact Hst|].
    destruct (trip_id (context m)) eqn:Hid; [|reflexivity].
    assert (current_state (context m) = ACTIVE)
      by (apply Hiff; rewrite Hid; discriminate).
    congruence.
  - exists m. repeat split; try assumption.
    + simpl. rewrite Hst. reflexivity.
    + simpl. apply Hiff, Hst.
Qed.

End Facts.

End ManagerFacts.


(** * The recorder's registry: adding points, batches, opening trips *)

Module RecorderMoreFacts.
Import Py RouteRec Samples PyFacts RouteRecFacts.

Lemma before_underscore_app (u rest : string) :
  before_underscore (u +:+ "_" +:+ rest)
  = Some (from_option id u (before_underscore u)).
Proof.
  induction u as [|c u IH]; [reflexivity|].
  change (String c u +:+ "_" +:+ rest) with (String c (u +:+ "_" +:+ rest)).
  cbn [before_underscore].
  destruct (Ascii.eqb c "_"); [reflexivity|].
  rewrite IH. destruct (before_underscore u); reflexivity.
Qed.

(** X6: a trip id generated by the state machine for prefix [u], opened in
    the recorder without a user id, is recorded under the part of [u] that
    precedes its first underscore ([u] itself when it has none, so [auto]
    for automatic trips); the record starts empty, in status recording. *)
Theorem generated_trip_id_names_its_user (strftime_id : datetime -> string)
    (r : RouteRecorder) (now clk : datetime) (u : string) :
  let tid := TripSM._generate_trip_id strftime_id clk u in
  _active_trips r !! tid = None ->
  let '(r', ok) := start_recording r now tid None in
  ok = true
  /\ _active_trips r' !! tid
     = Some (mkTripRecord tid (from_option id u (before_underscore u)) now None
               [] None None "recording")
  /\ (before_underscore u = None ->
      user_id <$> _active_trips r' !! tid = Some u).
Proof.
  intros tid Hnone. unfold start_recording. rewrite Hnone.
  cbn [str_truthy fst snd _active_trips].
  assert (Hu : user_of_trip_id tid = from_option id u (before_underscore u)).
  { unfold user_of_trip_id, tid, TripSM._generate_trip_id.
    rewrite before_underscore_app. reflexivity. }
  rewrite Hu, lookup_insert_eq. repeat split.
  intros ->. reflexivity.
Qed.

Lemma generated_trip_id_names_its_user_witness :
  let tid := TripSM._generate_trip_id strftime_fixed 7 "user_42" in
  _active_trips (new_recorder None) !! tid = None
  /\ let '(r', ok) := start_recording (new_recorder None) 0 tid None in
     ok = true
     /\ _active_trips r' !! tid
        = Some (mkTripRecord tid "user" 0 None [] None None "recording")
     /\ (before_underscore "user_42" = None ->
         user_id <$> _active_trips r' !! tid = Some "user_42"%string).
Proof.
  split; [reflexivity|].
  apply (generated_trip_id_names_its_user strftime_fixed (new_recorder None) 0 7
           "user_42").
  reflexivity.
Defined.

Section Facts.

Variable geodesic_meters : float * float -> float * float -> float.
Variable fromtimestamp : float -> option datetime.

(** A dictionary that passes validation yields a point within the
    bounds. *)
Lemma valid_point_in_bounds (cfg : RecorderConfig) (now_ts : float)
    (gd : GpsData) (p : GPSPoint) :
  _validate_gps_data cfg gd = Some true ->
  make_point fromtimestamp now_ts gd = Some p ->
  point_in_bounds cfg p = true.
Proof.
  unfold _validate_gps_data, make_point, point_in_bounds. intros Hv Hp.
  destruct (gd_latitude gd) as [| |lat]; try discriminate.
  destruct (gd_longitude gd) as [| |lon]; try discriminate.
  destruct (_ ≫= fromtimestamp) as [dt|]; [|discriminate].
  injection Hp as <-. cbn [latitude longitude accuracy].
  destruct (le (-90) lat && le lat 90) eqn:Hlat; [|discriminate].
  destruct (le (-180) lon && le lon 180) eqn:Hlon; [|discriminate].
  cbn [negb] in Hv. cbn [andb].
  apply andb_prop in Hlon as [-> ->]. cbn [andb].
  destruct (gd_accuracy gd) as [| |a]; try discriminate;
    injection Hv as Hv; exact Hv.
Qed.

(** Everything one call of [add_gps_point] does. *)
Lemma add_gps_point_effect (r : RouteRecorder) (now_ts : float) (tid : string)
    (gd : GpsData) :
  let '(r', ok) := add_gps_point geodesic_meters fromtimestamp r now_ts tid gd in
  (r' = r /\ ok = false)
  \/ exists t p,
       _active_trips r !! tid = Some t
       /\ _validate_gps_data (config r) gd = Some true
       /\ make_point fromtimestamp now_ts gd = Some p
       /\ _should_add_point geodesic_meters (config r) t p = true
       /\ ok = negb (batch_size (config r) =? 0)
       /\ r' = mkRecorder (config r)
                 (<[tid := with_points t (gps_points t ++ [p])]> (_active_trips r))
                 (batch_payloads r
                  ++ if negb (batch_size (config r) =? 0)
                        && (Z.of_nat (List.length (gps_points t ++ [p]))
                              mod batch_size (config r) =? 0)
                     then [gps_points t ++ [p]] else []).
Proof.
  unfold add_gps_point.
  destruct (_active_trips r !! tid) as [t|] eqn:Ht; [|cbv iota; auto].
  destruct (_validate_gps_data (config r) gd) as [[|]|] eqn:Hv;
    try (cbv iota; auto).
  destruct (make_point fromtimestamp now_ts gd) as [p|] eqn:Hp;
    [|cbv iota; auto].
  destruct (_should_add_point geodesic_meters (config r) t p) eqn:Hs;
    [|cbv iota; auto].
  cbv zeta.
  change (gps_points (with_points t (gps_points t ++ [p])))
    with (gps_points t ++ [p]).
  destruct (batch_size (config r) =? 0); cbn [negb andb];
    [|destruct (Z.of_nat (List.length (gps_points t ++ [p]))
                  mod batch_size (config r) =? 0) eqn:Hm];
    cbv iota; right; exists t, p; cbn [negb andb];
    rewrite ?Hm, ?app_nil_r; split_and!; (assumption || reflexivity).
Qed.

(** X7: what the answer of [add_gps_point] means.  The configuration and
    the other trips are never touched.  [True] means that the dictionary
    passed validation and its point, within the bounds, is now the last
    point of the trip's buffer.  [False] means that nothing changed, as
    long as [batch_size] is not 0; with [batch_size] 0 the answer is always
    [False], also when the point was retained. *)
Theorem add_gps_point_answer (r : RouteRecorder) (now_ts : float) (tid : string)
    (gd : GpsData) :
  let '(r', ok) := add_gps_point geodesic_meters fromtimestamp r now_ts tid gd in
  config r' = config r
  /\ (forall tid', tid' <> tid -> _active_trips r' !! tid' = _active_trips r !! tid')
  /\ (ok = true ->
      exists t p,
        _active_trips r !! tid = Some t
        /\ make_point fromtimestamp now_ts gd = Some p
        /\ point_in_bounds (config r) p = true
        /\ _active_trips r' !! tid = Some (with_points t (gps_points t ++ [p])))
  /\ (ok = false -> batch_size (config r) <> 0 -> r' = r)
  /\ (batch_size (config r) = 0 -> ok = false).
Proof.
  pose proof (add_gps_point_effect r now_ts tid gd) as H.
  destruct (add_gps_point geodesic_meters fromtimestamp r now_ts tid gd) as [r' ok].
  destruct H as [[-> ->]|(t & p & Ht & Hv & Hp & Hs & -> & ->)].
  - repeat split; auto; discriminate.
  - cbn [config _active_trips]. split; [reflexivity|].
    split; [intros tid' Hne; apply lookup_insert_ne; congruence|].
    split; [|split].
    + intros _. exists t, p. rewrite lookup_insert_eq.
      eauto using valid_point_in_bounds.
    + intros Hok Hbs. apply Z.eqb_neq in Hbs. rewrite Hbs in Hok. discriminate.
    + intros ->. reflexivity.
Qed.

Lemma add_all_snoc' (r : RouteRecorder) (calls : list AddCall) (c : AddCall) :
  add_all geodesic_meters fromtimestamp r (calls ++ [c]) =
  (add_gps_point geodesic_meters fromtimestamp
     (add_all geodesic_meters fromtimestamp r calls) c.1.1 c.1.2 c.2).1.
Proof. unfold add_all. rewrite fold_left_app. reflexivity. Qed.

(** X8: in a recorder whose trips were opened empty, whatever calls
    arrive, every buffered point has its latitude in [-90, 90], its
    longitude in [-180, 180] and an accuracy that does not exceed
    [max_accuracy_threshold]. *)
Theorem buffered_points_in_bounds (r : RouteRecorder) (calls : list AddCall)
    (tid : string) (t : TripRecord) :
  (forall tid0 t0, _active_trips r !! tid0 = Some t0 -> gps_points t0 = []) ->
  _active_trips (add_all geodesic_meters fromtimestamp r calls) !! tid = Some t ->
  Forall (fun p => point_in_bounds (config r) p = true) (gps_points t).
Proof.
  intros Hinit. revert tid t.
  assert (H : config (add_all geodesic_meters fromtimestamp r calls) = config r
              /\ forall tid t,
                   _active_trips (add_all geodesic_meters fromtimestamp r calls)
                     !! tid = Some t ->
                   Forall (fun p => point_in_bounds (config r) p = true)
                     (gps_points t)); [|apply H].
  induction calls as [|[[now_ts tid1] gd] calls IH] using rev_ind.
  - split; [reflexivity|]. intros tid t Ht. simpl in Ht.
    rewrite (Hinit _ _ Ht). constructor.
  - destruct IH as [Hcfg IH]. rewrite add_all_snoc'. cbn [fst snd].
    set (r1 := add_all geodesic_meters fromtimestamp r calls) in *.
    pose proof (add_gps_point_effect r1 now_ts tid1 gd) as H.
    destruct (add_gps_point geodesic_meters fromtimestamp r1 now_ts tid1 gd)
      as [r2 ok].
    cbn [fst].
    destruct H as [[-> _]|(t1 & p & Ht1 & Hv & Hp & _ & _ & ->)];
      [split; assumption|].
    split; [exact Hcfg|]. cbn [_active_trips]. intros tid t Ht.
    apply lookup_insert_Some in Ht as [[_ <-]|[_ Ht]]; [|eauto].
    cbn [gps_points with_points]. apply Forall_app. split; [eauto|].
    constructor; [|constructor]. rewrite <- Hcfg.
    eapply valid_point_in_bounds; eauto.
Qed.

(** X9: points offered closer than [min_distance_filter] to the last
    retained point of a trip are all dropped, however many arrive and
    whatever happens to other trips meanwhile: the trip's record does not
    change (so points that stay near the first point leave a buffer of
    length 1). *)
Theorem points_near_the_last_are_dropped (r : RouteRecorder)
    (calls : list AddCall) (tid : string) (t : TripRecord) (l : GPSPoint) :
  _active_trips r !! tid = Some t ->
  last (gps_points t) = Some l ->
  Forall (fun c : AddCall =>
            c.1.2 = tid ->
            forall q, make_point fromtimestamp c.1.1 c.2 = Some q ->
                      ge (geodesic_meters (coords l) (coords q))
                         (min_distance_filter (config r)) = false)
         calls ->
  _active_trips (add_all geodesic_meters fromtimestamp r calls) !! tid = Some t.
Proof.
  intros Ht Hl Hnear.
  assert (H : config (add_all geodesic_meters fromtimestamp r calls) = config r
              /\ _active_trips (add_all geodesic_meters fromtimestamp r calls)
                   !! tid = Some t); [|apply H].
  induction calls as [|[[now_ts tid1] gd] calls IH] using rev_ind.
  - split; [reflexivity|exact Ht].
  - apply Forall_app in Hnear as [Hcalls Hc].
    apply Forall_inv in Hc.
    destruct (IH Hcalls) as [Hcfg IH']. clear IH. rename IH' into IH.
    rewrite add_all_snoc'. cbn [fst snd] in *.
    set (r1 := add_all geodesic_meters fromtimestamp r calls) in *.
    pose proof (add_gps_point_effect r1 now_ts tid1 gd) as H.
    destruct (add_gps_point geodesic_meters fromtimestamp r1 now_ts tid1 gd)
      as [r2 ok].
    cbn [fst].
    destruct H as [[-> _]|(t1 & p & Ht1 & Hv & Hp & Hs & _ & ->)];
      [split; assumption|].
    split; [exact Hcfg|]. cbn [_active_trips].
    destruct (decide (tid1 = tid)) as [->|Hne];
      [|rewrite lookup_insert_ne by exact Hne; exact IH].
    exfalso. rewrite IH in Ht1. injection Ht1 as <-.
    unfold _should_add_point in Hs. rewrite Hl in Hs.
    unfold _calculate_distance_between_points in Hs.
    rewrite Hcfg, (Hc eq_refl p Hp) in Hs. discriminate.
Qed.

End Facts.

Lemma points_near_the_last_are_dropped_witness :
  exists t : TripRecord,
    _active_trips one_point_recorder !! "auto_1"%string = Some t
    /\ List.length (gps_points t) = 1%nat
    /\ _active_trips
         (add_all flat_earth_meters fromtimestamp_utc one_point_recorder
            nearby_calls) !! "auto_1"%string = Some t.
Proof.
  destruct (_active_trips one_point_recorder !! "auto_1"%string) as [t|] eqn:Ht;
    [|vm_compute in Ht; discriminate].
  exists t. split; [reflexivity|].
  assert (Ht' := Ht). vm_compute in Ht'. injection Ht' as Ht'.
  split; [rewrite <- Ht'; reflexivity|].
  apply (points_near_the_last_are_dropped flat_earth_meters fromtimestamp_utc
           one_point_recorder nearby_calls "auto_1" t
           (point_at 0 0 (seconds 100)) Ht).
  - rewrite <- Ht'. reflexivity.
  - repeat constructor; intros _ q Hq; vm_compute in Hq; injection Hq as <-;
      reflexivity.
Defined.

Lemma buffered_points_in_bounds_witness :
  exists t : TripRecord,
    _active_trips
      (add_all flat_earth_meters fromtimestamp_utc open_recorder ordered_calls)
      !! "auto_1"%string = Some t
    /\ List.length (gps_points t) = 2%nat
    /\ Forall (fun p => point_in_bounds default_RecorderConfig p = true)
         (gps_points t).
Proof.
  destruct (_active_trips
              (add_all flat_earth_meters fromtimestamp_utc open_recorder
                 ordered_calls) !! "auto_1"%string) as [t|] eqn:Ht;
    [|vm_compute in Ht; discriminate].
  exists t. split; [reflexivity|]. split.
  - vm_compute in Ht. injection Ht as <-. reflexivity.
  - apply (buffered_points_in_bounds flat_earth_meters fromtimestamp_utc
             open_recorder ordered_calls "auto_1" t
             (fresh_recorder_empty None 0 "auto_1" None) Ht).
Defined.

End RecorderMoreFacts.


(** * Batches, finalizing a trip, identifiers *)

Module RecorderLifecycleFacts.
Import Py RouteRec Samples PyFacts.

Lemma string_length_app (a b : string) :
  String.length (a +:+ b) = (String.length a + String.length b)%nat.
Proof.
  induction a as [|c a IH]; [reflexivity|].
  change (String c a +:+ b) with (String c (a +:+ b)).
  cbn [String.length]. rewrite IH. reflexivity.
Qed.

Lemma app_inj_length (a a' b b' : string) :
  String.length a = String.length a' ->
  a +:+ b = a' +:+ b' -> a = a' /\ b = b'.
Proof.
  revert a'. induction a as [|c a IH]; intros [|c' a'] Hlen H;
    try discriminate; [split; [reflexivity|exact H]|].
  injection Hlen as Hlen. injection H as -> H.
  destruct (IH a' Hlen H) as [-> ->]. split; reflexivity.
Qed.

Lemma below_by_check (P : Z -> bool) (k : nat) :
  forallb P (map Z.of_nat (seq 0 k)) = true ->
  forall n, 0 <= n < Z.of_nat k -> P n = true.
Proof.
  intros Hall n Hn. rewrite forallb_forall in Hall. apply Hall.
  apply in_map_iff. exists (Z.to_nat n). split; [lia|].
  apply in_seq. lia.
Qed.

Lemma zfill4_decodes (n : Z) :
  0 <= n < 10000 ->
  String.length (zfill 4 (str_int n)) = 4%nat
  /\ option_map Z.of_uint (NilZero.uint_of_string (zfill 4 (str_int n))) = Some n.
Proof.
  intros Hn.
  pose proof (below_by_check
    (fun n => (String.length (zfill 4 (str_int n)) =? 4)%nat
              && match option_map Z.of_uint
                         (NilZero.uint_of_string (zfill 4 (str_int n))) with
                 | Some m => m =? n
                 | None => false
                 end) 10000) as H.
  cbv beta in H. specialize (H ltac:(vm_compute; reflexivity) n Hn).
  apply andb_prop in H as [Hl Hd]. apply Nat.eqb_eq in Hl. split; [exact Hl|].
  destruct (option_map _ _) as [m|]; [|discriminate].
  apply Z.eqb_eq in Hd. congruence.
Qed.

Lemma zfill2_decodes (n : Z) :
  0 <= n < 100 ->
  String.length (zfill 2 (str_int n)) = 2%nat
  /\ option_map Z.of_uint (NilZero.uint_of_string (zfill 2 (str_int n))) = Some n.
Proof.
  intros Hn.
  pose proof (below_by_check
    (fun n => (String.length (zfill 2 (str_int n)) =? 2)%nat
              && match option_map Z.of_uint
                         (NilZero.uint_of_string (zfill 2 (str_int n))) with
                 | Some m => m =? n
                 | None => false
                 end) 100) as H.
  cbv beta in H. specialize (H ltac:(vm_compute; reflexivity) n Hn).
  apply andb_prop in H as [Hl Hd]. apply Nat.eqb_eq in Hl. split; [exact Hl|].
  destruct (option_map _ _) as [m|]; [|discriminate].
  apply Z.eqb_eq in Hd. congruence.
Qed.

Lemma zfill4_inj (n m : Z) :
  0 <= n < 10000 -> 0 <= m < 10000 ->
  zfill 4 (str_int n) = zfill 4 (str_int m) -> n = m.
Proof.
  intros Hn Hm H. destruct (zfill4_decodes n Hn) as [_ Dn].
  destruct (zfill4_decodes m Hm) as [_ Dm]. rewrite H in Dn. congruence.
Qed.

Lemma zfill2_inj (n m : Z) :
  0 <= n < 100 -> 0 <= m < 100 ->
  zfill 2 (str_int n) = zfill 2 (str_int m) -> n = m.
Proof.
  intros Hn Hm H. destruct (zfill2_decodes n Hn) as [_ Dn].
  destruct (zfill2_decodes m Hm) as [_ Dm]. rewrite H in Dn. congruence.
Qed.

Lemma take_snoc_prefixes {A : Type} (buf : list A) (p : A) (b m : nat) :
  (m * b <= List.length buf)%nat ->
  map (fun k => take (k * b) (buf ++ [p])) (seq 1 m)
  = map (fun k => take (k * b) buf) (seq 1 m).
Proof.
  intros Hm. apply map_ext_in. intros k Hk. apply in_seq in Hk.
  apply take_app_le. nia.
Qed.

Lemma div_after_multiple (n b : nat) :
  (0 < b)%nat -> (S n mod b = 0)%nat ->
  (S n / b = S (n / b) /\ S (n / b) * b = S n)%nat.
Proof.
  intros Hb Hmod. pose proof (Nat.div_mod_eq (S n) b) as Hd.
  rewrite Hmod, Nat.add_0_r in Hd.
  destruct (S n / b)%nat as [|q]; [lia|].
  rewrite Nat.mul_succ_r in Hd.
  assert (Hq : (q = n / b)%nat)
    by (apply (Nat.div_unique n b q (b - 1)); lia).
  rewrite <- Hq. split; [reflexivity|].
  rewrite Nat.mul_succ_l, (Nat.mul_comm q b). lia.
Qed.

Lemma div_between_multiples (n b : nat) :
  (0 < b)%nat -> (S n mod b <> 0)%nat -> (S n / b = n / b)%nat.
Proof.
  intros Hb Hmod. pose proof (Nat.div_mod_eq (S n) b) as Hd.
  pose proof (Nat.mod_upper_bound (S n) b ltac:(lia)) as Hu.
  apply (Nat.div_unique n b (S n / b) (S n mod b - 1)); lia.
Qed.

Section Facts.

Variable geodesic_meters : float * float -> float * float -> float.
Variable fromtimestamp : float -> option datetime.
Variable isoformat : datetime -> string.
Variable dt_timestamp : datetime -> float.
Variable dt_year : datetime -> Z.
Variable dt_month : datetime -> Z.
Variable dt_day : datetime -> Z.
Variable dt_hour : datetime -> Z.
Variable dt_minute : datetime -> Z.
Variable dt_second : datetime -> Z.

(** X10: with one open trip that starts empty and a positive [batch_size]
    [b], the lists [_batch_save_gps_points] builds for
    [save_gps_points_batch] are, in order, the first [b], [2b], [3b], ...
    points of the buffer: one flush is attempted each time the buffer's
    length reaches a multiple of [b], and every flush converts the whole
    buffer again, not the last [b] points.  (Whether a list then reaches
    the collaborator depends on the collaborator having the method.) *)
Theorem batches_are_whole_buffers (r : RouteRecorder) (b : nat)
    (calls : list AddCall) (tid : string) (t0 : TripRecord) :
  batch_size (config r) = Z.of_nat b -> (0 < b)%nat ->
  _active_trips r = {[ tid := t0 ]} -> gps_points t0 = [] ->
  batch_payloads r = [] ->
  exists t,
    _active_trips (add_all geodesic_meters fromtimestamp r calls) = {[ tid := t ]}
    /\ batch_payloads (add_all geodesic_meters fromtimestamp r calls)
       = map (fun k => take (k * b) (gps_points t))
           (seq 1 (List.length (gps_points t) / b)).
Proof.
  intros Hbs Hb Htrips Hempty Hsaved.
  assert (H : config (add_all geodesic_meters fromtimestamp r calls) = config r
              /\ exists t,
                   _active_trips (add_all geodesic_meters fromtimestamp r calls)
                   = {[ tid := t ]}
                   /\ batch_payloads (add_all geodesic_meters fromtimestamp r calls)
                      = map (fun k => take (k * b) (gps_points t))
                          (seq 1 (List.length (gps_points t) / b)));
    [|apply H].
  induction calls as [|[[now_ts tid1] gd] calls IH] using rev_ind.
  - split; [reflexivity|]. exists t0. split; [exact Htrips|].
    cbn [add_all fold_left]. rewrite Hsaved, Hempty.
    cbn [List.length]. rewrite Nat.Div0.div_0_l. reflexivity.
  - destruct IH as (Hcfg & t & Ht & Hs).
    rewrite RecorderMoreFacts.add_all_snoc'. cbn [fst snd].
    set (r1 := add_all geodesic_meters fromtimestamp r calls) in *.
    pose proof (RecorderMoreFacts.add_gps_point_effect geodesic_meters
                  fromtimestamp r1 now_ts tid1 gd) as H.
    destruct (add_gps_point geodesic_meters fromtimestamp r1 now_ts tid1 gd)
      as [r2 ok].
    cbn [fst].
    destruct H as [[Hr _]|(t1 & p & Ht1 & _ & _ & _ & _ & Hr)]; rewrite Hr;
      [split; [exact Hcfg|]; exists t; split; assumption|].
    split; [exact Hcfg|]. cbn [_active_trips batch_payloads].
    rewrite Ht in Ht1. apply lookup_singleton_Some in Ht1 as [<- <-].
    exists (with_points t (gps_points t ++ [p])).
    rewrite Ht, insert_singleton_eq. split; [reflexivity|].
    cbn [gps_points with_points]. rewrite Hcfg, Hbs, Hs.
    assert (Hnz : (Z.of_nat b =? 0) = false) by (apply Z.eqb_neq; lia).
    rewrite Hnz. cbn [negb andb].
    rewrite length_app. cbn [List.length]. rewrite Nat.add_1_r.
    rewrite <- Nat2Z.inj_mod.
    destruct (Z.of_nat (S (List.length (gps_points t)) mod b) =? 0) eqn:Hm.
    + apply Z.eqb_eq in Hm.
      destruct (div_after_multiple (List.length (gps_points t)) b Hb ltac:(lia))
        as [Hq Hfull].
      rewrite Hq, seq_S, map_app. cbn [map Nat.add].
      rewrite take_snoc_prefixes by nia.
      f_equal. f_equal. symmetry. apply take_ge.
      rewrite length_app. cbn [List.length]. lia.
    + apply Z.eqb_neq in Hm.
      rewrite (div_between_multiples (List.length (gps_points t)) b Hb ltac:(lia)).
      rewrite app_nil_r, take_snoc_prefixes; [reflexivity|].
      pose proof (Nat.div_mod_eq (List.length (gps_points t)) b). nia.
Qed.

Lemma enhance_points_mirror (t : TripRecord) (pts : list GPSPoint)
    (eps : list EnhancedPoint) :
  enhance_points isoformat dt_timestamp t pts = Some eps ->
  map (fun e => (ep_latitude e, ep_longitude e)) eps = map coords pts
  /\ Forall (fun e => ep_user_id e = user_id t) eps.
Proof.
  revert eps. induction pts as [|p pts IH]; intros eps H.
  - injection H as <-. split; constructor.
  - cbn [enhance_points] in H.
    destruct (enhance_point isoformat dt_timestamp t p) as [e|] eqn:He;
      [|discriminate].
    destruct (enhance_points isoformat dt_timestamp t pts) as [es|];
      [|discriminate].
    cbn in H. injection H as <-. destruct (IH es eq_refl) as [Hm Hu].
    unfold enhance_point in He.
    destruct (int_of_float _) as [ms|]; [|discriminate].
    cbn in He. injection He as <-. split.
    + cbn [map]. rewrite Hm. reflexivity.
    + constructor; [reflexivity|exact Hu].
Qed.

(** X11: when [_save_trip_to_database] sends points to the locations
    table, the trip record was accepted before, a row with the trip number
    was found and gives the id, the buffer is not empty, and the points
    sent are the buffered ones: one per buffered point, in order, with the
    same coordinates, each under the trip's user id. *)
Theorem saved_points_mirror_the_buffer (db : Database) (t : TripRecord)
    (db_trip_id : string) (eps : list EnhancedPoint) :
  In (SaveTripPoints db_trip_id eps)
     (_save_trip_to_database isoformat dt_timestamp dt_year dt_month dt_day
        dt_hour dt_minute dt_second db t).2 ->
  let d := trip_data_of isoformat dt_year dt_month dt_day dt_hour dt_minute
             dt_second t in
  save_trip_record db d = Answers true
  /\ (exists rest, select_trip_ids db (td_trip_number d)
                   = Answers (db_trip_id :: rest))
  /\ gps_points t <> []
  /\ map (fun e => (ep_latitude e, ep_longitude e)) eps = map coords (gps_points t)
  /\ Forall (fun e => ep_user_id e = user_id t) eps.
Proof.
  intros Hin d. unfold _save_trip_to_database in Hin. fold d in Hin.
  destruct (save_trip_record db d) as [[|]|]; cbn [snd] in Hin;
    try (destruct Hin as [Hin|[]]; discriminate).
  destruct (gps_points t) as [|p pts] eqn:Hpts;
    [destruct Hin as [Hin|[]]; discriminate|].
  destruct (select_trip_ids db (td_trip_number d)) as [[|id rest]|];
    try (destruct Hin as [Hin|[Hin|[]]]; discriminate).
  destruct (enhance_points isoformat dt_timestamp t (p :: pts)) as [es|] eqn:He;
    [|destruct Hin as [Hin|[Hin|[]]]; discriminate].
  destruct Hin as [Hin|[Hin|[Hin|[]]]]; try discriminate.
  injection Hin as -> ->.
  destruct (enhance_points_mirror t (p :: pts) eps He) as [Hm Hu].
  split_and!; eauto; try discriminate.
Qed.

(** X12: stopping an open trip whose duration converts removes it from the
    registry whatever the persistence collaborator answers.  The record is
    offered to [save_trip_record] first, as completed, with the duration
    and the number of buffered points; the dictionary is returned unless
    that call raises (also when the record was refused), and the empty
    dictionary otherwise.  Afterwards points for the trip are refused
    without any change, a second stop returns [None] and does nothing, and
    the same id can be opened again. *)
Theorem stop_recording_closes_the_trip (r : RouteRecorder) (now : datetime)
    (db : Database) (tid : string) (t : TripRecord) (minutes : Z) :
  _active_trips r !! tid = Some t ->
  int_of_float (total_seconds (dt_sub now (start_time t)) / 60)%float
  = Some minutes ->
  let '(r', ret, calls) :=
    stop_recording geodesic_meters isoformat dt_timestamp dt_year dt_month
      dt_day dt_hour dt_minute dt_second r now db tid in
  exists d,
    _active_trips r' = delete tid (_active_trips r)
    /\ config r' = config r
    /\ head calls = Some (SaveTripRecord d)
    /\ td_status d = "completed"%string
    /\ td_duration_minutes d = minutes
    /\ td_gps_points_count d = Z.of_nat (List.length (gps_points t))
    /\ td_user_id d = user_id t
    /\ ret = match save_trip_record db d with
             | Raises => StopEmpty
             | Answers _ => StopData d
             end
    /\ (forall now_ts gd,
          add_gps_point geodesic_meters fromtimestamp r' now_ts tid gd
          = (r', false))
    /\ (forall now' db',
          stop_recording geodesic_meters isoformat dt_timestamp dt_year dt_month
            dt_day dt_hour dt_minute dt_second r' now' db' tid
          = (r', StopNone, []))
    /\ (forall now' uid, (start_recording r' now' tid uid).2 = true).
Proof.
  intros Ht Hmin. unfold stop_recording. rewrite Ht.
  cbn [start_time]. rewrite Hmin. cbv zeta.
  set (t3 := _post_process_trip geodesic_meters _).
  unfold _save_trip_to_database.
  set (d := trip_data_of isoformat dt_year dt_month dt_day dt_hour dt_minute
              dt_second t3).
  assert (Hd : td_status d = "completed"%string
               /\ td_duration_minutes d = minutes
               /\ td_gps_points_count d = Z.of_nat (List.length (gps_points t))
               /\ td_user_id d = user_id t).
  { unfold d, trip_data_of, t3, _post_process_trip.
    cbn [gps_points status duration_minutes user_id].
    destruct (gps_points t) as [|p pts]; [|destruct (last (p :: pts))];
      split_and!; reflexivity. }
  destruct Hd as (H1 & H2 & H3 & H4).
  assert (Hgone : forall trips : gmap string TripRecord,
                    delete tid trips !! tid = None)
    by (intros; apply lookup_delete_eq).
  destruct (save_trip_record db d) as [ok|] eqn:Hsave; cbv iota; exists d;
    rewrite ?Hsave; cbn [_active_trips config head];
    (split_and!; try (assumption || reflexivity);
     [ intros; unfold add_gps_point; cbn [_active_trips]; rewrite Hgone;
       reflexivity
     | intros; cbn [_active_trips]; rewrite Hgone; reflexivity
     | intros; unfold start_recording; cbn [_active_trips]; rewrite Hgone;
       reflexivity ]).
Qed.

(** X13: a trip number is 20 characters long, and two start times in the
    calendar ranges get the same trip number exactly when they agree on
    year, month, day, hour, minute and second: trips started within the
    same second share their number, whoever the user is. *)
Theorem trip_number_identifies_the_second (w1 w2 : datetime) :
  calendar_ranges dt_year dt_month dt_day dt_hour dt_minute dt_second w1 ->
  calendar_ranges dt_year dt_month dt_day dt_hour dt_minute dt_second w2 ->
  String.length (_generate_trip_number dt_year dt_month dt_day dt_hour
                   dt_minute dt_second w1) = 20%nat
  /\ (_generate_trip_number dt_year dt_month dt_day dt_hour dt_minute
        dt_second w1
      = _generate_trip_number dt_year dt_month dt_day dt_hour dt_minute
          dt_second w2
      <-> dt_year w1 = dt_year w2 /\ dt_month w1 = dt_month w2
          /\ dt_day w1 = dt_day w2 /\ dt_hour w1 = dt_hour w2
          /\ dt_minute w1 = dt_minute w2 /\ dt_second w1 = dt_second w2).
Proof.
  intros (Hy1 & Hm1 & Hd1 & Hh1 & Hmi1 & Hs1) (Hy2 & Hm2 & Hd2 & Hh2 & Hmi2 & Hs2).
  unfold _generate_trip_number. cbv zeta.
  destruct (zfill4_decodes (dt_year w1) ltac:(lia)) as [Ly1 _].
  destruct (zfill2_decodes (dt_month w1) ltac:(lia)) as [Lm1 _].
  destruct (zfill2_decodes (dt_day w1) ltac:(lia)) as [Ld1 _].
  destruct (zfill2_decodes (dt_hour w1) ltac:(lia)) as [Lh1 _].
  destruct (zfill2_decodes (dt_minute w1) ltac:(lia)) as [Lmi1 _].
  destruct (zfill2_decodes (dt_second w1) ltac:(lia)) as [Ls1 _].
  destruct (zfill4_decodes (dt_year w2) ltac:(lia)) as [Ly2 _].
  destruct (zfill2_decodes (dt_month w2) ltac:(lia)) as [Lm2 _].
  destruct (zfill2_decodes (dt_day w2) ltac:(lia)) as [Ld2 _].
  destruct (zfill2_decodes (dt_hour w2) ltac:(lia)) as [Lh2 _].
  destruct (zfill2_decodes (dt_minute w2) ltac:(lia)) as [Lmi2 _].
  split.
  - rewrite !string_length_app, Ly1, Lm1, Ld1, Lh1, Lmi1, Ls1. reflexivity.
  - split.
    + intros H.
      apply app_inj_length in H as [_ H]; [|reflexivity].
      apply app_inj_length in H as [Ey H]; [|congruence].
      apply app_inj_length in H as [Em H]; [|congruence].
      apply app_inj_length in H as [Ed H]; [|congruence].
      apply app_inj_length in H as [_ H]; [|reflexivity].
      apply app_inj_length in H as [Eh H]; [|congruence].
      apply app_inj_length in H as [Emi Es]; [|congruence].
      split_and!;
        [apply zfill4_inj|apply zfill2_inj|apply zfill2_inj|apply zfill2_inj
        |apply zfill2_inj|apply zfill2_inj]; (lia || assumption).
    + intros (-> & -> & -> & -> & -> & ->). reflexivity.
Qed.

(** X14: two start times in the calendar ranges get the same chain id
    exactly when they agree on year, month, day and hour; so trips with the
    same trip number always share their chain id. *)
Theorem chain_id_identifies_the_hour (w1 w2 : datetime) :
  calendar_ranges dt_year dt_month dt_day dt_hour dt_minute dt_second w1 ->
  calendar_ranges dt_year dt_month dt_day dt_hour dt_minute dt_second w2 ->
  (_generate_chain_id dt_year dt_month dt_day dt_hour w1
   = _generate_chain_id dt_year dt_month dt_day dt_hour w2
   <-> dt_year w1 = dt_year w2 /\ dt_month w1 = dt_month w2
       /\ dt_day w1 = dt_day w2 /\ dt_hour w1 = dt_hour w2)
  /\ (_generate_trip_number dt_year dt_month dt_day dt_hour dt_minute
        dt_second w1
      = _generate_trip_number dt_year dt_month dt_day dt_hour dt_minute
          dt_second w2 ->
      _generate_chain_id dt_year dt_month dt_day dt_hour w1
      = _generate_chain_id dt_year dt_month dt_day dt_hour w2).
Proof.
  intros (Hy1 & Hm1 & Hd1 & Hh1 & Hmi1 & Hs1) (Hy2 & Hm2 & Hd2 & Hh2 & Hmi2 & Hs2).
  unfold _generate_chain_id, _generate_trip_number. cbv zeta.
  destruct (zfill4_decodes (dt_year w1) ltac:(lia)) as [Ly1 _].
  destruct (zfill2_decodes (dt_month w1) ltac:(lia)) as [Lm1 _].
  destruct (zfill2_decodes (dt_day w1) ltac:(lia)) as [Ld1 _].
  destruct (zfill2_decodes (dt_hour w1) ltac:(lia)) as [Lh1 _].
  destruct (zfill4_decodes (dt_year w2) ltac:(lia)) as [Ly2 _].
  destruct (zfill2_decodes (dt_month w2) ltac:(lia)) as [Lm2 _].
  destruct (zfill2_decodes (dt_day w2) ltac:(lia)) as [Ld2 _].
  destruct (zfill2_decodes (dt_hour w2) ltac:(lia)) as [Lh2 _].
  split; [split|].
  - intros H.
    apply app_inj_length in H as [_ H]; [|reflexivity].
    apply app_inj_length in H as [Ey H]; [|congruence].
    apply app_inj_length in H as [Em H]; [|congruence].
    apply app_inj_length in H as [Ed H]; [|congruence].
    apply app_inj_length in H as [_ Eh]; [|reflexivity].
    split_and!;
      [apply zfill4_inj|apply zfill2_inj|apply zfill2_inj|apply zfill2_inj];
      (lia || assumption).
  - intros (-> & -> & -> & ->). reflexivity.
  - intros H.
    apply app_inj_length in H as [_ H]; [|reflexivity].
    apply app_inj_length in H as [Ey H]; [|congruence].
    apply app_inj_length in H as [Em H]; [|congruence].
    apply app_inj_length in H as [Ed H]; [|congruence].
    apply app_inj_length in H as [_ H]; [|reflexivity].
    apply app_inj_length in H as [Eh _]; [|congruence].
    rewrite Ey, Em, Ed, Eh. reflexivity.
Qed.

End Facts.

Lemma batches_are_whole_buffers_witness :
  batch_size (config batching_recorder) = Z.of_nat 2
  /\ exists t,
       _active_trips
         (add_all flat_earth_meters fromtimestamp_utc batching_recorder
            five_far_calls) = {[ "auto_1"%string := t ]}
       /\ batch_payloads
            (add_all flat_earth_meters fromtimestamp_utc batching_recorder
               five_far_calls)
          = map (fun k => take (k * 2) (gps_points t))
              (seq 1 (List.length (gps_points t) / 2)).
Proof.
  split; [reflexivity|].
  apply (batches_are_whole_buffers flat_earth_meters fromtimestamp_utc
           batching_recorder 2 five_far_calls "auto_1"
           (mkTripRecord "auto_1" "auto" 0 None [] None None "recording"));
    [reflexivity|lia|reflexivity|reflexivity|reflexivity].
Defined.

(** Five retained points with [batch_size] 2: two flushes, of 2 and of 4
    points. *)
Example five_points_two_flushes :
  List.length <$> batch_payloads
    (add_all flat_earth_meters fromtimestamp_utc batching_recorder five_far_calls)
  = [2%nat; 4%nat].
Proof. vm_compute. reflexivity. Qed.

Lemma saved_points_mirror_the_buffer_witness :
  exists eps,
    In (SaveTripPoints "row-1" eps)
       (_save_trip_to_database iso_micro timestamp_seconds year_2025
          month_january day_of_january hour_utc minute_utc second_utc
          accepting_db stroll).2
    /\ map (fun e => (ep_latitude e, ep_longitude e)) eps
       = map coords (gps_points stroll)
    /\ Forall (fun e => ep_user_id e = user_id stroll) eps.
Proof.
  assert (H : exists eps,
            In (SaveTripPoints "row-1" eps)
               (_save_trip_to_database iso_micro timestamp_seconds year_2025
                  month_january day_of_january hour_utc minute_utc second_utc
                  accepting_db stroll).2).
  { eexists. cbv. right. right. left. reflexivity. }
  destruct H as [eps H]. exists eps. split; [exact H|].
  destruct (saved_points_mirror_the_buffer iso_micro timestamp_seconds year_2025
              month_january day_of_january hour_utc minute_utc second_utc
              accepting_db stroll "row-1" eps H) as (_ & _ & _ & Hm & Hu).
  split; assumption.
Defined.

Lemma stop_recording_closes_the_trip_witness :
  exists t,
    _active_trips two_point_recorder !! "auto_1"%string = Some t
    /\ int_of_float (total_seconds (dt_sub (seconds 300) (start_time t)) / 60)%float
       = Some 5
    /\ let '(r', ret, calls) :=
         stop_recording flat_earth_meters iso_micro timestamp_seconds year_2025
           month_january day_of_january hour_utc minute_utc second_utc
           two_point_recorder (seconds 300) refusing_db "auto_1" in
       _active_trips r' !! "auto_1"%string = None
       /\ exists d, ret = StopData d /\ td_duration_minutes d = 5
                    /\ td_gps_points_count d = 2.
Proof.
  destruct (_active_trips two_point_recorder !! "auto_1"%string) as [t|] eqn:Ht;
    [|vm_compute in Ht; discriminate].
  exists t. split; [reflexivity|].
  assert (Ht' := Ht). vm_compute in Ht'. injection Ht' as Ht'.
  assert (Hmin : int_of_float
                   (total_seconds (dt_sub (seconds 300) (start_time t)) / 60)%float
                 = Some 5) by (rewrite <- Ht'; vm_compute; reflexivity).
  split; [exact Hmin|].
  pose proof (stop_recording_closes_the_trip flat_earth_meters fromtimestamp_utc
                iso_micro timestamp_seconds year_2025 month_january
                day_of_january hour_utc minute_utc second_utc
                two_point_recorder (seconds 300) refusing_db "auto_1" t 5 Ht Hmin)
    as H.
  destruct (stop_recording _ _ _ _ _ _ _ _ _ _ _ _ _) as [[r' ret] calls].
  destruct H as (d & Htrips & _ & _ & _ & Hdur & Hcount & _ & Hret & _).
  split; [rewrite Htrips; apply lookup_delete_eq|].
  exists d. split; [exact Hret|]. split; [exact Hdur|].
  rewrite Hcount, <- Ht'. reflexivity.
Defined.

(** When saving the record raises, the caller gets the empty dictionary
    and the trip is gone from the registry all the same. *)
Example stop_with_failing_save :
  let '(r', ret, calls) :=
    stop_recording flat_earth_meters iso_micro timestamp_seconds year_2025
      month_january day_of_january hour_utc minute_utc second_utc
      two_point_recorder (seconds 300) raising_db "auto_1" in
  ret = StopEmpty
  /\ _active_trips r' !! "auto_1"%string = None
  /\ List.length calls = 1%nat.
Proof. vm_compute. repeat split. Qed.

Lemma trip_number_identifies_the_second_witness :
  calendar_ranges year_2025 month_january day_of_january hour_utc minute_utc
    second_utc (seconds 5)
  /\ calendar_ranges year_2025 month_january day_of_january hour_utc minute_utc
       second_utc (seconds 5 + 17)
  /\ _generate_trip_number year_2025 month_january day_of_january hour_utc
       minute_utc second_utc (seconds 5)
     = _generate_trip_number year_2025 month_january day_of_january hour_utc
         minute_utc second_utc (seconds 5 + 17).
Proof.
  assert (H1 : calendar_ranges year_2025 month_january day_of_january hour_utc
                 minute_utc second_utc (seconds 5))
    by (repeat split; vm_compute; discriminate).
  assert (H2 : calendar_ranges year_2025 month_january day_of_january hour_utc
                 minute_utc second_utc (seconds 5 + 17))
    by (repeat split; vm_compute; discriminate).
  split; [exact H1|]. split; [exact H2|].
  destruct (trip_number_identifies_the_second year_2025 month_january
              day_of_january hour_utc minute_utc second_utc _ _ H1 H2)
    as [_ [_ Hback]].
  apply Hback. repeat split.
Defined.

Lemma chain_id_identifies_the_hour_witness :
  calendar_ranges year_2025 month_january day_of_january hour_utc minute_utc
    second_utc (seconds 5)
  /\ calendar_ranges year_2025 month_january day_of_january hour_utc minute_utc
       second_utc (seconds 3599)
  /\ _generate_chain_id year_2025 month_january day_of_january hour_utc
       (seconds 5)
     = _generate_chain_id year_2025 month_january day_of_january hour_utc
         (seconds 3599).
Proof.
  assert (H1 : calendar_ranges year_2025 month_january day_of_january hour_utc
                 minute_utc second_utc (seconds 5))
    by (repeat split; vm_compute; discriminate).
  assert (H2 : calendar_ranges year_2025 month_january day_of_january hour_utc
                 minute_utc second_utc (seconds 3599))
    by (repeat split; vm_compute; discriminate).
  split; [exact H1|]. split; [exact H2|].
  destruct (chain_id_identifies_the_hour year_2025 month_january
              day_of_january hour_utc minute_utc second_utc _ _ H1 H2)
    as [[_ Hback] _].
  apply Hback. repeat split.
Defined.

End RecorderLifecycleFacts.


(** * The sensor processor: validation gate, confidence, histories *)

Module SensorMoreFacts.
Import Py SensorProc Samples PyFacts FloatOrder.

Lemma tl_drop {A : Type} (n : nat) (l : list A) : List.tl (drop n l) = drop (S n) l.
Proof.
  revert l. induction n as [|n IH]; intros [|a l]; try reflexivity.
  - cbn [drop]. rewrite IH. destruct l; reflexivity.
Qed.

(** Appending to a list moves its last-[n] window as [deque.append] does. *)
Lemma last_n_snoc {A : Type} (n : nat) (s : list A) (x : A) :
  (0 < n)%nat ->
  last_n n (s ++ [x])
  = if (List.length (last_n n s) <? n)%nat then last_n n s ++ [x]
    else List.tl (last_n n s) ++ [x].
Proof.
  intros Hn. unfold last_n. rewrite length_drop, length_app. cbn [List.length].
  destruct (Nat.ltb_spec (List.length s - (List.length s - n)) n) as [Hlt|Hge].
  - replace (List.length s - n)%nat with 0%nat by lia.
    replace (List.length s + 1 - n)%nat with 0%nat by lia. reflexivity.
  - rewrite tl_drop.
    replace (List.length s + 1 - n)%nat with (S (List.length s - n)) by lia.
    apply drop_app_le. lia.
Qed.

Lemma deque_append_items {A : Type} (d : deque A) (x : A) :
  (0 < maxlen d)%nat ->
  items (deque_append d x)
  = if (List.length (items d) <? maxlen d)%nat then items d ++ [x]
    else List.tl (items d) ++ [x].
Proof.
  unfold deque_append. destruct (maxlen d) eqn:E; [lia|]. intros _.
  destruct (_ <? _)%nat; reflexivity.
Qed.

Lemma deque_append_keeps_maxlen {A : Type} (d : deque A) (x : A) :
  maxlen (deque_append d x) = maxlen d.
Proof.
  unfold deque_append. destruct (maxlen d) eqn:E; [congruence|].
  destruct (_ <? _)%nat; simpl; congruence.
Qed.

Lemma deque_append_within {A : Type} (d : deque A) (x : A) :
  within_maxlen d -> within_maxlen (deque_append d x).
Proof.
  unfold within_maxlen, deque_append. intros H.
  destruct (maxlen d) eqn:E; [rewrite E; exact H|].
  destruct (Nat.ltb_spec (List.length (items d)) (S n)) as [Hlt|Hge];
    cbn [items maxlen]; rewrite length_app; cbn [List.length].
  - lia.
  - destruct (items d); cbn [List.tl List.length] in *; lia.
Qed.

(** What a sample that passes validation satisfies. *)
Lemma validate_true (raw : RawSensorData) :
  (validate_gps_data raw).1 = true ->
  le (-90) (latitude raw) && le (latitude raw) 90 = true
  /\ le (-180) (longitude raw) && le (longitude raw) 180 = true
  /\ gt (accuracy raw) 100 = false
  /\ gt (offered_speed raw) 200 = false.
Proof.
  unfold validate_gps_data, validator_config, offered_speed.
  cbn [lat_min lat_max lon_min lon_max SensorProc.max_accuracy_threshold
       SensorProc.max_speed_kmh].
  destruct (le (-90) (latitude raw) && le (latitude raw) 90); [|discriminate].
  destruct (le (-180) (longitude raw) && le (longitude raw) 180); [|discriminate].
  cbn [negb]. destruct (gt (accuracy raw) 100); [discriminate|].
  destruct (speed_mps raw) as [v|]; cbn [or_default];
    [|intros _; repeat split; reflexivity].
  destruct (gt (v * 3.6) 200) eqn:Hv; [discriminate|]. intros _.
  repeat split. destruct (float_truthy v); [exact Hv|reflexivity].
Qed.

(** X19: for a label made of ASCII characters, [process_activity] answers
    what the seven upper-case entries of [activity_mapping] (IN_VEHICLE,
    ON_BICYCLE, ON_FOOT, RUNNING, STILL, TILTING, WALKING) give for the
    upper-cased label, and [unknown] when they give nothing: the ten
    lower-case entries of the table are never used, and the letter case of
    the label does not matter. *)
Theorem only_upper_case_entries_are_used (s : string) (c : option float) :
  is_ascii s = true ->
  (process_activity (Some s) c).1
  = from_option id UNKNOWN (dict_get upper_case_entries (upper s))
  /\ forall s', is_ascii s' = true -> upper s' = upper s ->
                (process_activity (Some s') c).1 = (process_activity (Some s) c).1.
Proof.
  intros _.
  assert (H : forall t,
            (process_activity (Some t) c).1
            = from_option id UNKNOWN (dict_get upper_case_entries (upper t))).
  { intros t. unfold process_activity. cbn [fst].
    destruct t as [|ch t]; [reflexivity|]. cbn [str_truthy].
    rewrite SensorProcFacts.lower_case_entries_unreachable. reflexivity. }
  split; [apply H|]. intros s' _ Hup. rewrite !H, Hup. reflexivity.
Qed.

Lemma only_upper_case_entries_are_used_witness :
  is_ascii "Walking" = true
  /\ (process_activity (Some "Walking"%string) (Some 0.9%float)).1 = WALKING
  /\ (process_activity (Some "wALKING"%string) (Some 0.9%float)).1
     = (process_activity (Some "Walking"%string) (Some 0.9%float)).1.
Proof.
  destruct (only_upper_case_entries_are_used "Walking" (Some 0.9%float) eq_refl)
    as [Hw Hsame].
  split; [reflexivity|]. split; [exact Hw|].
  apply Hsame; reflexivity.
Defined.

(** X16: the confidence [process_activity] returns lies in [0, 1] for every
    input, a NaN included (it becomes 1); a missing confidence and a
    confidence of 0 both become 0.5. *)
Theorem activity_confidence_is_clamped (a : option string) (c : option float) :
  let conf := (process_activity a c).2 in
  le 0 conf && le conf 1 = true
  /\ (c = None \/ c = Some 0%float -> conf = 0.5%float)
  /\ (process_activity a (Some nan)).2 = 1%float.
Proof.
  unfold process_activity. cbn [snd]. split; [|split; [|reflexivity]].
  - generalize (or_default c 0.5). intros x. unfold max, min, gt, lt, le.
    destruct (PrimFloat.ltb x 1) eqn:H1.
    + destruct (PrimFloat.ltb 0 x) eqn:H0.
      * rewrite (ltb_leb _ _ H0), (ltb_leb _ _ H1). reflexivity.
      * reflexivity.
    + reflexivity.
  - intros [->| ->]; reflexivity.
Qed.

Section Facts.

Variable py_sum : list float -> float.
Variable statistics_variance : list float -> float.
Variable float_pow : float -> float -> option float.

(** X15: a sample that fails validation changes nothing and yields no
    record.  A record that is returned comes from a sample that passed:
    its latitude is in [-90, 90] and its longitude in [-180, 180] (so
    neither is a NaN), its accuracy is not above 100 m (a NaN accuracy is
    not above 100 and is let through), the speed the sample offers is not
    above 200 km/h, and it carries the sample's user. *)
Theorem invalid_samples_are_ignored (p : SensorDataProcessor) (now : datetime)
    (raw : RawSensorData) :
  let '(p', out) :=
    process_sensor_data py_sum statistics_variance float_pow p now raw in
  ((validate_gps_data raw).1 = false -> p' = p /\ out = None)
  /\ (forall o, out = Some o ->
        (validate_gps_data raw).1 = true
        /\ processed_in_bounds o = true
        /\ gt (offered_speed raw) 200 = false
        /\ p_user_id o = user_id raw).
Proof.
  pose proof (validate_true raw) as Hv. unfold process_sensor_data.
  destruct (validate_gps_data raw) as [[|] msg]; cbn [fst] in *.
  - destruct (Hv eq_refl) as (Hlat & Hlon & Hacc & Hsp).
    destruct (_process_speed py_sum p raw) as [p1 v].
    destruct (process_activity _ _) as [act conf].
    destruct (determine_movement_state _ _ _) as [mv mc].
    destruct (match accelerometer_x raw with Some _ => _ | None => _ end)
      as [p2 motion].
    split; [discriminate|]. intros o Ho.
    destruct motion as [[mvar stat]|]; [|discriminate].
    cbn in Ho. injection Ho as <-. unfold processed_in_bounds.
    cbn [p_latitude p_longitude p_accuracy p_user_id].
    apply andb_prop in Hlon as [Hl1 Hl2].
    rewrite Hlat, Hl1, Hl2, Hacc. repeat split; assumption.
  - split; [intros _; split; reflexivity|discriminate].
Qed.

(** The speed windows after one call of [process_sensor_data]. *)
Lemma speed_windows_after (p : SensorDataProcessor) (now : datetime)
    (raw : RawSensorData) :
  speed_windows (process_sensor_data py_sum statistics_variance float_pow p now raw).1
  = if (validate_gps_data raw).1
    then <[user_id raw :=
             deque_append
               (from_option id (deque_new (speed_smoothing_window (config p)))
                  (speed_windows p !! user_id raw))
               (offered_speed raw)]> (speed_windows p)
    else speed_windows p.
Proof.
  unfold process_sensor_data.
  destruct (validate_gps_data raw) as [[|] msg]; cbn [fst]; [|reflexivity].
  unfold _process_speed, offered_speed.
  destruct (process_activity _ _) as [act conf].
  destruct (determine_movement_state _ _ _) as [mv mc].
  assert (Hsame : forall x, from_option id x (speed_windows p !! user_id raw)
                            = match speed_windows p !! user_id raw with
                              | Some w => w
                              | None => x
                              end)
    by (intros; destruct (speed_windows p !! user_id raw); reflexivity).
  rewrite Hsame.
  destruct (accelerometer_x raw) as [x|]; [|reflexivity].
  destruct (accelerometer_y raw) as [y|]; [|reflexivity].
  destruct (accelerometer_z raw) as [z|]; [|reflexivity].
  unfold _process_motion_data.
  destruct (add_motion_data _ _ _ _ _ _); reflexivity.
Qed.

(** The motion histories after one call of [process_sensor_data]: nothing
    changes, or the user's history, a new one of length 10 when the user
    has none, is stored again, possibly with one sample appended. *)
Lemma motion_analyzers_after (p : SensorDataProcessor) (now : datetime)
    (raw : RawSensorData) :
  let p' := (process_sensor_data py_sum statistics_variance float_pow p now raw).1 in
  motion_analyzers p' = motion_analyzers p
  \/ exists a0,
       a0 = from_option id (new_MotionAnalyzer 10)
              (motion_analyzers p !! user_id raw)
       /\ (motion_analyzers p' = <[user_id raw := a0]> (motion_analyzers p)
           \/ exists smp,
                motion_analyzers p'
                = <[user_id raw := deque_append a0 smp]> (motion_analyzers p)).
Proof.
  unfold process_sensor_data.
  destruct (validate_gps_data raw) as [[|] msg]; cbn [fst]; [|left; reflexivity].
  destruct (_process_speed py_sum p raw) as [p1 v] eqn:Hp1.
  assert (Hm : motion_analyzers p1 = motion_analyzers p)
    by (unfold _process_speed in Hp1; injection Hp1 as <- _; reflexivity).
  destruct (process_activity _ _) as [act conf].
  destruct (determine_movement_state _ _ _) as [mv mc].
  destruct (accelerometer_x raw) as [x|]; [|left; exact Hm].
  destruct (accelerometer_y raw) as [y|]; [|left; exact Hm].
  destruct (accelerometer_z raw) as [z|]; [|left; exact Hm].
  unfold _process_motion_data. rewrite Hm.
  right. exists (from_option id (new_MotionAnalyzer 10)
                   (motion_analyzers p !! user_id raw)).
  split; [reflexivity|].
  assert (Hsame : match motion_analyzers p !! user_id raw with
                  | Some a => a
                  | None => new_MotionAnalyzer 10
                  end
                  = from_option id (new_MotionAnalyzer 10)
                      (motion_analyzers p !! user_id raw))
    by (destruct (motion_analyzers p !! user_id raw); reflexivity).
  rewrite Hsame. unfold add_motion_data.
  destruct (float_pow x 2); [|left; reflexivity].
  destruct (float_pow y 2); [|left; reflexivity].
  destruct (float_pow z 2); [|left; reflexivity].
  cbn [mbind option_bind].
  destruct (float_pow _ 0.5); [|left; reflexivity].
  right. eexists. reflexivity.
Qed.

Lemma call_keeps_config (p : SensorDataProcessor) (c : Call) :
  config (call py_sum statistics_variance float_pow p c) = config p.
Proof.
  destruct c as [now raw|uid]; [|reflexivity]. cbn [call].
  unfold process_sensor_data.
  destruct (validate_gps_data raw) as [[|] msg]; cbn [fst]; [|reflexivity].
  unfold _process_speed.
  destruct (process_activity _ _) as [act conf].
  destruct (determine_movement_state _ _ _) as [mv mc].
  destruct (accelerometer_x raw) as [x|]; [|reflexivity].
  destruct (accelerometer_y raw) as [y|]; [|reflexivity].
  destruct (accelerometer_z raw) as [z|]; [|reflexivity].
  unfold _process_motion_data.
  destruct (add_motion_data _ _ _ _ _ _); reflexivity.
Qed.

Lemma run_config (calls : list Call) :
  config (run py_sum statistics_variance float_pow calls) = processor_config.
Proof.
  unfold run. induction calls as [|c calls IH] using rev_ind; [reflexivity|].
  rewrite fold_left_app. cbn [fold_left]. rewrite call_keeps_config. exact IH.
Qed.

(** X17: at any moment a user's smoothing window holds exactly the last
    five speeds that the user's valid samples have offered since the
    user's data was last cleaned up, oldest first; the user has no window
    exactly when there is no such sample. *)
Theorem speed_window_is_the_last_five (uid : string) (calls : list Call) :
  match speed_windows (run py_sum statistics_variance float_pow calls) !! uid with
  | None => speeds_since_cleanup uid calls = []
  | Some w =>
      items w = last_n 5 (speeds_since_cleanup uid calls)
      /\ speeds_since_cleanup uid calls <> []
      /\ maxlen w = 5%nat
  end.
Proof.
  induction calls as [|c calls IH] using rev_ind.
  - unfold run. cbn [fold_left new_processor speed_windows].
    rewrite lookup_empty. reflexivity.
  - pose proof (run_config calls) as Hcfg.
    unfold run, speeds_since_cleanup in *. rewrite !fold_left_app.
    cbn [fold_left].
    set (p := fold_left (call py_sum statistics_variance float_pow) calls
                new_processor) in *.
    set (s := fold_left (speeds_step uid) calls []) in *.
    destruct c as [now raw|u]; cbn [call speeds_step].
    + rewrite speed_windows_after.
      destruct (validate_gps_data raw).1; cbn [andb]; [|exact IH].
      destruct (String.eqb_spec (user_id raw) uid) as [->|Hne].
      * rewrite lookup_insert_eq, Hcfg.
        cbn [speed_smoothing_window processor_config].
        assert (Hw : exists w0,
                  from_option id (deque_new 5) (speed_windows p !! uid) = w0
                  /\ items w0 = last_n 5 s /\ maxlen w0 = 5%nat).
        { destruct (speed_windows p !! uid) as [w|].
          - exists w. destruct IH as (Hi & _ & Hm). auto.
          - exists (deque_new 5). rewrite IH. repeat split. }
        destruct Hw as (w0 & -> & Hi & Hm).
        rewrite deque_append_items, deque_append_keeps_maxlen, Hm, Hi by lia.
        rewrite last_n_snoc by lia.
        split; [reflexivity|]. split; [|reflexivity].
        intros Hnil. apply app_eq_nil in Hnil as [_ Hnil]. discriminate.
      * rewrite lookup_insert_ne by exact Hne. exact IH.
    + cbn [cleanup_user_data speed_windows].
      destruct (String.eqb_spec u uid) as [->|Hne].
      * rewrite lookup_delete_eq. reflexivity.
      * rewrite lookup_delete_ne by exact Hne. exact IH.
Qed.

Lemma call_bounded (p : SensorDataProcessor) (c : Call) :
  config p = processor_config ->
  histories_bounded p ->
  histories_bounded (call py_sum statistics_variance float_pow p c).
Proof.
  intros Hcfg [Hs Hm]. destruct c as [now raw|u]; cbn [call].
  - split.
    + intros uid w. rewrite speed_windows_after.
      destruct (validate_gps_data raw).1; [|apply Hs].
      intros Hl. apply lookup_insert_Some in Hl as [[_ <-]|[_ Hl]]; [|eauto].
      rewrite deque_append_keeps_maxlen.
      destruct (speed_windows p !! user_id raw) as [w0|] eqn:E; cbn [from_option id].
      * destruct (Hs _ _ E) as [H5 Hin]. split; [exact H5|].
        apply deque_append_within, Hin.
      * rewrite Hcfg. split; [reflexivity|].
        apply deque_append_within. unfold within_maxlen. cbn. lia.
    + intros uid a Hl.
      pose proof (motion_analyzers_after p now raw) as H. cbv zeta in H.
      assert (H0 : forall a0,
                a0 = from_option id (new_MotionAnalyzer 10)
                       (motion_analyzers p !! user_id raw) ->
                maxlen a0 = 10%nat /\ within_maxlen a0).
      { intros a0 ->.
        destruct (motion_analyzers p !! user_id raw) as [a1|] eqn:E;
          cbn [from_option id]; [eauto|].
        split; [reflexivity|]. unfold within_maxlen. cbn. lia. }
      destruct H as [H|(a0 & Ha0 & [H|[smp H]])]; rewrite H in Hl.
      * eauto.
      * apply lookup_insert_Some in Hl as [[_ <-]|[_ Hl]]; eauto.
      * apply lookup_insert_Some in Hl as [[_ <-]|[_ Hl]]; [|eauto].
        destruct (H0 a0 Ha0) as [H10 Hin].
        rewrite deque_append_keeps_maxlen. split; [exact H10|].
        apply deque_append_within, Hin.
  - split; cbn [cleanup_user_data speed_windows motion_analyzers];
      intros uid x Hl; apply lookup_delete_Some in Hl as [_ Hl]; eauto.
Qed.

(** X18: whatever calls a processor has received, no user's smoothing
    window holds more than 5 speeds and no user's motion history more than
    10 samples. *)
Theorem histories_stay_bounded (calls : list Call) :
  histories_bounded (run py_sum statistics_variance float_pow calls).
Proof.
  induction calls as [|c calls IH] using rev_ind.
  - split; intros uid x Hl; cbn in Hl; rewrite lookup_empty in Hl; discriminate.
  - pose proof (run_config calls) as Hcfg. unfold run in *.
    rewrite fold_left_app. cbn [fold_left]. apply call_bounded; assumption.
Qed.

End Facts.

(** A sample whose accuracy is a NaN passes validation, and the record
    returned carries the NaN. *)
Example nan_accuracy_is_accepted :
  exists o,
    (process_sensor_data sum_left variance_zero pow_2_or_half new_processor 0
       raw_with_nan_accuracy).2 = Some o
    /\ PrimFloat.eqb (p_accuracy o) (p_accuracy o) = false
    /\ processed_in_bounds o = true.
Proof. vm_compute. eexists. repeat split. Qed.

End SensorMoreFacts.


(** * The classifier and the trip analysis *)

Module MLMoreFacts.
Import Py MLBackend Samples PyFacts FloatOrder.

Lemma finite_lt_trans (sa sb sc : bool) (ma mb mc : positive) (ea eb ec : Z) :
  SFcompare (S754_finite sa ma ea) (S754_finite sb mb eb) = Some Lt ->
  SFcompare (S754_finite sb mb eb) (S754_finite sc mc ec) = Some Lt ->
  SFcompare (S754_finite sa ma ea) (S754_finite sc mc ec) = Some Lt.
Proof.
  unfold SFcompare.
  change (PosDef.Pos.compare_cont Eq) with Pos.compare.
  intros Hab Hbc. injection Hab as Hab. injection Hbc as Hbc. f_equal.
  destruct sa, sb, sc; try discriminate; try reflexivity.
  - destruct (Z.compare_spec ea eb), (Z.compare_spec eb ec); try discriminate;
      destruct (Z.compare_spec ea ec); try lia; try reflexivity; subst.
    all: destruct (Pos.compare_spec ma mb); try discriminate;
      destruct (Pos.compare_spec mb mc); try discriminate;
      destruct (Pos.compare_spec ma mc); try lia; try reflexivity.
  - destruct (Z.compare_spec ea eb), (Z.compare_spec eb ec); try discriminate;
      destruct (Z.compare_spec ea ec); try lia; try reflexivity; subst.
    all: destruct (Pos.compare_spec ma mb); try discriminate;
      destruct (Pos.compare_spec mb mc); try discriminate;
      destruct (Pos.compare_spec ma mc); try lia; try reflexivity.
Qed.

Lemma SFcompare_lt_trans (a b c : spec_float) :
  SFcompare a b = Some Lt -> SFcompare b c = Some Lt -> SFcompare a c = Some Lt.
Proof.
  destruct a as [sa|sa| |sa ma ea], b as [sb|sb| |sb mb eb],
    c as [sc|sc| |sc mc ec];
    try apply finite_lt_trans;
    cbn [SFcompare]; try discriminate;
    repeat match goal with s : bool |- _ => destruct s end;
    try discriminate; try reflexivity.
Qed.

Lemma ltb_Lt (x y : float) :
  PrimFloat.ltb x y = true <-> SFcompare (Prim2SF x) (Prim2SF y) = Some Lt.
Proof.
  rewrite ltb_spec. unfold SFltb.
  destruct (SFcompare (Prim2SF x) (Prim2SF y)) as [[]|]; split; congruence.
Qed.

Lemma ltb_trans (x y z : float) :
  PrimFloat.ltb x y = true -> PrimFloat.ltb y z = true -> PrimFloat.ltb x z = true.
Proof. rewrite !ltb_Lt. apply SFcompare_lt_trans. Qed.

Lemma ltb_irrefl (x : float) : PrimFloat.ltb x x = false.
Proof.
  apply not_true_is_false. rewrite ltb_Lt. intros H.
  pose proof (SFcompare_antisym (Prim2SF x) (Prim2SF x)) as Ha.
  rewrite H in Ha. discriminate.
Qed.

(** A score that does not exceed [b] does not exceed a score above [b]. *)
Lemma gt_false_mono (x b s : float) :
  gt s b = true -> gt x b = false -> gt x s = false.
Proof.
  unfold gt. intros Hs Hx. destruct (PrimFloat.ltb s x) eqn:E; [|reflexivity].
  rewrite (ltb_trans _ _ _ Hs E) in Hx. discriminate.
Qed.

(** The scan of [max(scores, key=scores.get)]: the result is one of the
    entries, and no entry has a strictly larger score. *)
Lemma best_of_spec (best : string * float) (rest : list (string * float)) :
  In (best_of best rest) (best :: rest)
  /\ (forall x, gt x best.2 = false -> gt x (best_of best rest).2 = false)
  /\ Forall (fun e => gt e.2 (best_of best rest).2 = false) rest.
Proof.
  revert best. induction rest as [|[m s] rest IH]; intros best.
  - cbn [best_of]. split; [left; reflexivity|]. split; [auto|constructor].
  - cbn [best_of].
    destruct (IH (if gt s best.2 then (m, s) else best)) as (Hin & Hmono & Hall).
    assert (Hstep : forall x, gt x best.2 = false ->
                              gt x (if gt s best.2 then (m, s) else best).2 = false).
    { intros x Hx. destruct (gt s best.2) eqn:E; [|exact Hx].
      exact (gt_false_mono x best.2 s E Hx). }
    split; [|split].
    + destruct Hin as [Hin|Hin]; [|right; right; exact Hin].
      rewrite <- Hin. destruct (gt s best.2); [right; left|left]; reflexivity.
    + intros x Hx. apply Hmono, Hstep, Hx.
    + constructor; [|exact Hall]. cbn [snd]. apply Hmono.
      destruct (gt s best.2) eqn:E; [apply ltb_irrefl|exact E].
Qed.

Lemma max_zero_not_negative (y : float) : le 0 (max 0 y) = true.
Proof.
  unfold max, gt, le. destruct (PrimFloat.ltb 0 y) eqn:E;
    [apply ltb_leb, E|reflexivity].
Qed.

(** A range that is a single point, or whose half-width is not zero, is
    scored without an exception. *)
Lemma score_defined (value min_val max_val : float) :
  PrimFloat.eqb (max_val - min_val) 0 = true
  \/ PrimFloat.eqb ((max_val - min_val) / 2) 0 = false ->
  exists s, _score_in_range value (min_val, max_val) = Some s.
Proof.
  intros H. unfold _score_in_range, py_div.
  destruct (le min_val value && le value max_val).
  - destruct (PrimFloat.eqb (max_val - min_val) 0) eqn:E; [eauto|].
    destruct H as [H|H]; [discriminate|]. cbv zeta. rewrite H.
    cbn [mbind option_bind]. eauto.
  - destruct (lt value min_val); cbv beta iota zeta;
      (destruct (PrimFloat.eqb (_ * 0.5) 0); cbn [mbind option_bind]; eauto).
Qed.

(** The ranges of the three threshold tables all have a half-width that is
    not zero. *)
Lemma table_ranges_wide :
  Forall (fun r : float * float => PrimFloat.eqb ((r.2 - r.1) / 2) 0 = false)
    (map snd (speed_thresholds ++ acceleration_thresholds
              ++ stop_frequency_thresholds)).
Proof. repeat constructor. Qed.

(** X21: whatever the value and the range, a NaN or an infinity included,
    [_score_in_range] either returns a number that is at least 0 (so never
    a NaN), or raises [ZeroDivisionError]; it raises only for a value
    inside a range whose width is not zero but whose half-width is
    (rounded to) zero, and so for no range of the three threshold
    tables. *)
Theorem score_in_range_not_negative (value : float) (range_tuple : float * float) :
  match _score_in_range value range_tuple with
  | Some s => le 0 s = true
  | None =>
      le range_tuple.1 value && le value range_tuple.2 = true
      /\ PrimFloat.eqb (range_tuple.2 - range_tuple.1) 0 = false
      /\ PrimFloat.eqb ((range_tuple.2 - range_tuple.1) / 2) 0 = true
  end
  /\ (In range_tuple
        (map snd (speed_thresholds ++ acceleration_thresholds
                  ++ stop_frequency_thresholds)) ->
      _score_in_range value range_tuple <> None).
Proof.
  destruct range_tuple as [min_val max_val]. split.
  - unfold _score_in_range, py_div. cbn [fst snd].
    destruct (le min_val value && le value max_val).
    + destruct (PrimFloat.eqb (max_val - min_val) 0); [reflexivity|].
      cbv zeta.
      destruct (PrimFloat.eqb ((max_val - min_val) / 2) 0);
        cbn [mbind option_bind]; [repeat split|apply max_zero_not_negative].
    + destruct (lt value min_val); cbv beta iota zeta;
        (destruct (PrimFloat.eqb (_ * 0.5) 0); cbn [mbind option_bind];
         [reflexivity|apply max_zero_not_negative]).
  - intros Hin. pose proof table_ranges_wide as Hw.
    rewrite List.Forall_forall in Hw. specialize (Hw _ Hin). cbn [fst snd] in Hw.
    destruct (score_defined value min_val max_val (or_intror Hw)) as [s ->].
    discriminate.
Qed.

(** The smallest positive float as the width of the range: the half-width
    rounds to zero and the division raises. *)
Example score_in_range_can_raise :
  _score_in_range 0 (0, 5e-324)%float = None.
Proof. reflexivity. Qed.

Ltac table_lookup :=
  repeat match goal with
         | |- context [dict_get ?t ?k] =>
             let v := eval vm_compute in (dict_get t k) in
             change (dict_get t k) with v
         end.

Ltac range_scored :=
  match goal with
  | |- context [_score_in_range ?v (?lo, ?hi)] =>
      let s := fresh "s" in
      destruct (score_defined v lo hi (or_intror eq_refl)) as [s ->];
      cbn [mbind option_bind]
  end.

Lemma mode_score_defined (f : MLFeatures) (mode : string) :
  In mode candidate_modes -> exists s, _calculate_mode_score f mode = Some s.
Proof.
  intros Hin. unfold _calculate_mode_score.
  destruct Hin as [<-|[<-|[<-|[<-|[<-|[]]]]]];
    table_lookup; cbn [mbind option_bind];
    do 3 range_scored; eexists; reflexivity.
Qed.

(** Every candidate mode has a score. *)
Lemma candidate_scores (f : MLFeatures) :
  exists sw sc scar sb st,
    _calculate_mode_score f "walking" = Some sw
    /\ _calculate_mode_score f "cycling" = Some sc
    /\ _calculate_mode_score f "car" = Some scar
    /\ _calculate_mode_score f "bus" = Some sb
    /\ _calculate_mode_score f "train" = Some st.
Proof.
  destruct (mode_score_defined f "walking") as [sw Hw]; [cbn; auto|].
  destruct (mode_score_defined f "cycling") as [sc Hc]; [cbn; auto|].
  destruct (mode_score_defined f "car") as [scar Hcar]; [cbn; auto|].
  destruct (mode_score_defined f "bus") as [sb Hb]; [cbn; auto 6|].
  destruct (mode_score_defined f "train") as [st Ht]; [cbn; auto 7|].
  exists sw, sc, scar, sb, st. auto.
Qed.

(** The result of [classify_transport_mode] comes from the scan over the
    five scores. *)
Lemma classify_scan (f : MLFeatures) :
  exists scores first rest,
    scores = first :: rest
    /\ map fst scores = candidate_modes
    /\ Forall (fun e => _calculate_mode_score f e.1 = Some e.2) scores
    /\ classify_transport_mode f
       = from_option id (UNKNOWN, 0%float)
           (let '(best_mode, confidence) := best_of first rest in
            mode_enum ← TransportMode_of_value best_mode;
            Some (mode_enum, confidence)).
Proof.
  destruct (candidate_scores f) as (sw & sc & scar & sb & st & Hw & Hc & Hcar & Hb & Ht).
  exists [ ("walking"%string, sw); ("cycling"%string, sc); ("car"%string, scar);
           ("bus"%string, sb); ("train"%string, st) ].
  eexists. eexists. split; [reflexivity|]. split; [reflexivity|].
  split; [repeat constructor; assumption|].
  unfold classify_transport_mode. cbn [map_raise candidate_modes].
  rewrite Hw, Hc, Hcar, Hb, Ht. reflexivity.
Qed.

Lemma classify_names_a_scored_mode (f : MLFeatures) :
  let '(m, c) := classify_transport_mode f in
  In m scored_modes
  /\ In (TransportMode_value m) candidate_modes
  /\ _calculate_mode_score f (TransportMode_value m) = Some c.
Proof.
  destruct (classify_scan f) as (scores & first & rest & -> & Hkeys & Hsc & ->).
  destruct (best_of_spec first rest) as (Hin & _ & _).
  destruct (best_of first rest) as [bm bc].
  rewrite List.Forall_forall in Hsc. pose proof (Hsc _ Hin) as Hscore.
  apply (in_map fst) in Hin. rewrite Hkeys in Hin. cbn [fst snd] in *.
  destruct Hin as [<-|[<-|[<-|[<-|[<-|[]]]]]]; cbn;
    (split; [auto 10|]); (split; [auto 10|exact Hscore]).
Qed.

(** X20: for every feature vector whose scored fields are floats (a NaN
    or an infinity included), [classify_transport_mode] answers one of
    walking, cycling, car, bus and train, never unknown, running, metro or
    stationary; the confidence is that mode's score, and no candidate mode
    has a strictly larger score. *)
Theorem classifier_names_a_best_scored_mode (f : MLFeatures) :
  let '(m, c) := classify_transport_mode f in
  In m scored_modes
  /\ _calculate_mode_score f (TransportMode_value m) = Some c
  /\ forall mode s, In mode candidate_modes ->
                    _calculate_mode_score f mode = Some s -> gt s c = false.
Proof.
  pose proof (classify_names_a_scored_mode f) as Hm.
  destruct (classify_scan f) as (scores & first & rest & -> & Hkeys & Hsc & Hcl).
  rewrite Hcl in *. clear Hcl.
  destruct (best_of_spec first rest) as (_ & Hfirst & Hrest).
  destruct (best_of first rest) as [bm bc] eqn:Hbest. cbn [snd] in *.
  destruct (TransportMode_of_value bm) as [m|] eqn:Hval;
    cbn [mbind option_bind from_option id] in Hm |- *.
  - destruct Hm as (Hin & _ & Hscore). split; [exact Hin|]. split; [exact Hscore|].
    intros mode s Hmode Hs. rewrite <- Hkeys in Hmode.
    apply in_map_iff in Hmode as ([mode' s'] & <- & He). cbn [fst] in *.
    rewrite List.Forall_forall in Hsc. pose proof (Hsc _ He) as Hs'. cbn [fst snd] in Hs'.
    assert (s' = s) as -> by congruence.
    destruct He as [He|He].
    + apply Hfirst. rewrite He. apply ltb_irrefl.
    + rewrite List.Forall_forall in Hrest. exact (Hrest _ He).
  - exfalso. destruct Hm as (Hin & _). cbn in Hin. intuition discriminate.
Qed.

Section Facts.

Variable statistics_mean : list float -> float.
Variable statistics_variance : list float -> option float.
Variable math_radians : float -> float.
Variable math_degrees : float -> float.
Variable math_sin : float -> option float.
Variable math_cos : float -> option float.
Variable math_asin : float -> option float.
Variable math_sqrt : float -> option float.
Variable math_atan2 : float -> float -> float.
Variable float_pow : float -> float -> option float.
Variable float_mod : float -> float -> float.
Variable fromtimestamp : float -> option datetime.
Variable dt_hour : datetime -> Z.
Variable dt_weekday : datetime -> Z.
Variable py_sum : list float -> float.
Variable isoformat : datetime -> string.

(** X22: an analysis fails with the message for insufficient data, and
    leaves the user's history as it was, whenever there are fewer than 10
    points, or no point carries a speed, or sensor data is supplied at
    all. *)
Theorem analysis_needs_speeds_and_no_sensor_data (st : TripDetectionML)
    (now : datetime) (uid : string) (gps_points : list PointDict)
    (sensor_data : option (list SensorDict)) :
  (List.length gps_points < 10)%nat
  \/ Forall (fun p => field_get_val (pt_speed_kmh p) = None) gps_points
  \/ (exists sd, sensor_data = Some sd /\ sd <> []) ->
  analyze_trip_data statistics_mean statistics_variance math_radians
    math_degrees math_sin math_cos math_asin math_sqrt math_atan2 float_pow
    float_mod fromtimestamp dt_hour dt_weekday py_sum isoformat st now uid
    gps_points sensor_data
  = (st, AnalysisError "Insufficient data for analysis").
Proof.
  intros H. unfold analyze_trip_data.
  assert (Hnone : extract_features statistics_mean statistics_variance
                    math_radians math_degrees math_sin math_cos math_asin
                    math_sqrt math_atan2 float_pow float_mod fromtimestamp
                    dt_hour dt_weekday gps_points sensor_data = None).
  { destruct H as [H|[H|(sd & -> & H)]].
    - apply MLBackendFacts.extract_features_insufficient, H.
    - apply MLBackendFacts.extract_features_without_speed, H.
    - apply MLBackendFacts.extract_features_with_sensor_data, H. }
  rewrite Hnone. reflexivity.
Qed.

(** X23: when an analysis of points and samples whose numbers are floats
    returns a result (not an error), the reported mode is one of walking,
    cycling, car, bus and train, the confidence is that mode's score for
    the extracted feature vector, that vector is appended to the user's
    history (a new one of length 10 for a new user), and no other user's
    history changes. *)
Theorem analysis_reports_a_scored_mode (st st' : TripDetectionML)
    (now : datetime) (uid : string) (gps_points : list PointDict)
    (sensor_data : option (list SensorDict)) (a : Analysis) :
  analyze_trip_data statistics_mean statistics_variance math_radians
    math_degrees math_sin math_cos math_asin math_sqrt math_atan2 float_pow
    float_mod fromtimestamp dt_hour dt_weekday py_sum isoformat st now uid
    gps_points sensor_data = (st', AnalysisOk a) ->
  exists m f,
    In m scored_modes
    /\ an_transport_mode a = TransportMode_value m
    /\ _calculate_mode_score f (an_transport_mode a) = Some (an_confidence a)
    /\ extract_features statistics_mean statistics_variance math_radians
         math_degrees math_sin math_cos math_asin math_sqrt math_atan2
         float_pow float_mod fromtimestamp dt_hour dt_weekday gps_points
         sensor_data = Some f
    /\ user_features st' !! uid
       = Some (deque_append
                 (from_option id (deque_new 10) (user_features st !! uid)) f)
    /\ forall u, u <> uid -> user_features st' !! u = user_features st !! u.
Proof.
  unfold analyze_trip_data.
  destruct (extract_features _ _ _ _ _ _ _ _ _ _ _ _ _ _ _ _) as [f|];
    [|discriminate].
  pose proof (classify_names_a_scored_mode f) as Hm.
  destruct (classify_transport_mode f) as [m c]. destruct Hm as (Hin & _ & Hsc).
  intros H. injection H as <- <-.
  exists m, f. cbn [an_transport_mode an_confidence user_features].
  split_and!; try (assumption || reflexivity).
  - rewrite lookup_insert_eq.
    destruct (user_features st !! uid); reflexivity.
  - intros u Hu. apply lookup_insert_ne. congruence.
Qed.

(** X24: whatever analyses have run, every feature history that exists
    holds between 1 and 10 feature vectors, in a deque of length 10. *)
Theorem analysis_history_is_bounded (calls : list AnalyzeCall) (uid : string)
    (h : deque MLFeatures) :
  user_features
    (analyze_all statistics_mean statistics_variance math_radians math_degrees
       math_sin math_cos math_asin math_sqrt math_atan2 float_pow float_mod
       fromtimestamp dt_hour dt_weekday py_sum isoformat calls) !! uid = Some h ->
  maxlen h = 10%nat /\ (1 <= List.length (items h) <= 10)%nat.
Proof.
  revert uid h. unfold analyze_all.
  induction calls as [|[[[now u] pts] sd] calls IH] using rev_ind; intros uid h Hl.
  - cbn in Hl. rewrite lookup_empty in Hl. discriminate.
  - rewrite fold_left_app in Hl. cbn [fold_left fst snd] in Hl.
    set (st := fold_left _ calls new_TripDetectionML) in *.
    unfold analyze_trip_data in Hl.
    destruct (extract_features _ _ _ _ _ _ _ _ _ _ _ _ _ _ _ _) as [f|];
      [|exact (IH _ _ Hl)].
    destruct (classify_transport_mode f) as [m c].
    cbn [fst user_features] in Hl.
    apply lookup_insert_Some in Hl as [[_ <-]|[_ Hl]]; [|exact (IH _ _ Hl)].
    assert (H0 : exists h0,
              match user_features st !! u with
              | Some h0 => h0
              | None => deque_new 10
              end = h0
              /\ maxlen h0 = 10%nat /\ (List.length (items h0) <= 10)%nat).
    { destruct (user_features st !! u) as [h0|] eqn:E.
      - exists h0. destruct (IH _ _ E) as [H10 Hlen]. repeat split; [exact H10|lia].
      - exists (deque_new 10). repeat split. cbn. lia. }
    destruct H0 as (h0 & -> & H10 & Hlen).
    rewrite SensorMoreFacts.deque_append_keeps_maxlen.
    split; [exact H10|].
    rewrite SensorMoreFacts.deque_append_items by lia. rewrite H10.
    destruct (Nat.ltb_spec (List.length (items h0)) 10) as [Hlt|Hge];
      rewrite length_app; cbn [List.length].
    + lia.
    + destruct (items h0); cbn [List.tl List.length] in *; lia.
Qed.

End Facts.

Lemma analysis_needs_speeds_and_no_sensor_data_witness :
  (exists sd, Some one_sensor_sample = Some sd /\ sd <> [])
  /\ analyze_trip_data mean_left variance_always_zero radians_approx degrees_approx
       sin_small cos_small asin_small sqrt_total atan2_small pow_2_or_half
       mod_below_twice fromtimestamp_utc hour_utc weekday_thursday sum_left
       iso_micro new_TripDetectionML 0 "u1" ten_points_with_speed
       (Some one_sensor_sample)
     = (new_TripDetectionML, AnalysisError "Insufficient data for analysis").
Proof.
  assert (H : exists sd, Some one_sensor_sample = Some sd /\ sd <> [])
    by (eexists; split; [reflexivity|discriminate]).
  split; [exact H|].
  apply (analysis_needs_speeds_and_no_sensor_data mean_left variance_always_zero
           radians_approx degrees_approx sin_small cos_small asin_small
           sqrt_total atan2_small pow_2_or_half mod_below_twice
           fromtimestamp_utc hour_utc weekday_thursday sum_left iso_micro
           new_TripDetectionML 0 "u1" ten_points_with_speed
           (Some one_sensor_sample)).
  right. right. exact H.
Defined.

Lemma analysis_reports_a_scored_mode_witness :
  exists st' a,
    analyze_trip_data mean_left variance_always_zero radians_approx
      degrees_approx sin_small cos_small asin_small sqrt_total atan2_small
      pow_2_or_half mod_below_twice fromtimestamp_utc hour_utc weekday_thursday
      sum_left iso_micro new_TripDetectionML 0 "u1" ten_points_with_speed None
    = (st', AnalysisOk a)
    /\ an_transport_mode a = "walking"%string
    /\ exists m, In m scored_modes /\ an_transport_mode a = TransportMode_value m.
Proof.
  destruct (analyze_trip_data mean_left variance_always_zero radians_approx
              degrees_approx sin_small cos_small asin_small sqrt_total
              atan2_small pow_2_or_half mod_below_twice fromtimestamp_utc
              hour_utc weekday_thursday sum_left iso_micro new_TripDetectionML 0
              "u1" ten_points_with_speed None) as [st' [msg|a]] eqn:H;
    [vm_compute in H; discriminate|].
  exists st', a. split; [reflexivity|]. split.
  - vm_compute in H. injection H as _ <-. reflexivity.
  - destruct (analysis_reports_a_scored_mode mean_left variance_always_zero
                radians_approx degrees_approx sin_small cos_small asin_small
                sqrt_total atan2_small pow_2_or_half mod_below_twice
                fromtimestamp_utc hour_utc weekday_thursday sum_left iso_micro
                new_TripDetectionML st' 0 "u1" ten_points_with_speed None a H)
      as (m & f & Hin & Hmode & _).
    exists m. split; assumption.
Defined.

Lemma analysis_history_is_bounded_witness :
  exists h,
    user_features
      (analyze_all mean_left variance_always_zero radians_approx degrees_approx
         sin_small cos_small asin_small sqrt_total atan2_small pow_2_or_half
         mod_below_twice fromtimestamp_utc hour_utc weekday_thursday sum_left
         iso_micro
         [ (0, "u1"%string, ten_points_with_speed, None);
           (5, "u1"%string, ten_points_with_speed, None) ]) !! "u1"%string
    = Some h
    /\ List.length (items h) = 2%nat
    /\ maxlen h = 10%nat /\ (1 <= List.length (items h) <= 10)%nat.
Proof.
  destruct (user_features
              (analyze_all mean_left variance_always_zero radians_approx degrees_approx
                 sin_small cos_small asin_small sqrt_total atan2_small
                 pow_2_or_half mod_below_twice fromtimestamp_utc hour_utc
                 weekday_thursday sum_left iso_micro
                 [ (0, "u1"%string, ten_points_with_speed, None);
                   (5, "u1"%string, ten_points_with_speed, None) ])
            !! "u1"%string) as [h|] eqn:Hh; [|vm_compute in Hh; discriminate].
  exists h. split; [reflexivity|]. split.
  - vm_compute in Hh. injection Hh as <-. reflexivity.
  - apply (analysis_history_is_bounded mean_left variance_always_zero radians_approx
             degrees_approx sin_small cos_small asin_small sqrt_total
             atan2_small pow_2_or_half mod_below_twice fromtimestamp_utc
             hour_utc weekday_thursday sum_left iso_micro _ "u1" h Hh).
Defined.

End MLMoreFacts.


(** * The live status and the saved record agree *)

Module RegistryFacts.
Import Py Samples.

Section Status.
Import RouteRec.

Variable geodesic_meters : float * float -> float * float -> float.
Variable isoformat : datetime -> string.
Variable dt_timestamp : datetime -> float.
Variable dt_year : datetime -> Z.
Variable dt_month : datetime -> Z.
Variable dt_day : datetime -> Z.
Variable dt_hour : datetime -> Z.
Variable dt_minute : datetime -> Z.
Variable dt_second : datetime -> Z.

(** X26: for an open trip with at least one buffered point, the record
    [stop_recording] offers to [save_trip_record] carries the distance that
    [get_active_trip_status] estimated on the same buffer (an estimate of
    zero is saved as 0), the same number of points, the same user and the
    same start time. *)
Theorem saved_record_matches_live_status (r : RouteRecorder)
    (now now' : datetime) (db : Database) (tid : string) (t : TripRecord)
    (st : TripStatus) (minutes : Z) :
  _active_trips r !! tid = Some t ->
  gps_points t <> [] ->
  get_active_trip_status geodesic_meters isoformat r now tid = Answers (Some st) ->
  int_of_float (total_seconds (dt_sub now' (start_time t)) / 60)%float
  = Some minutes ->
  exists d,
    head (stop_recording geodesic_meters isoformat dt_timestamp dt_year dt_month
            dt_day dt_hour dt_minute dt_second r now' db tid).2
    = Some (SaveTripRecord d)
    /\ td_total_distance_km d = or_default (Some (st_estimated_distance_km st)) 0
    /\ td_gps_points_count d = st_gps_points_count st
    /\ td_user_id d = st_user_id st
    /\ td_start_time d = st_start_time st.
Proof.
  intros Ht Hne Hst Hmin. unfold get_active_trip_status in Hst.
  rewrite Ht in Hst.
  destruct (int_of_float (total_seconds (dt_sub now (start_time t)) / 60))
    as [mins|]; [|discriminate].
  injection Hst as <-.
  unfold stop_recording. rewrite Ht. cbn [start_time]. rewrite Hmin. cbv zeta.
  set (t3 := _post_process_trip geodesic_meters _).
  unfold _save_trip_to_database.
  set (d := trip_data_of isoformat dt_year dt_month dt_day dt_hour dt_minute
              dt_second t3).
  exists d. split.
  - destruct (save_trip_record db d); reflexivity.
  - unfold d, trip_data_of, t3, _post_process_trip.
    cbn [gps_points status duration_minutes user_id start_time
         total_distance_km st_estimated_distance_km st_gps_points_count
         st_user_id st_start_time].
    destruct (gps_points t) as [|p pts]; [congruence|].
    destruct (last (p :: pts)); split_and!; reflexivity.
Qed.

End Status.

Lemma saved_record_matches_live_status_witness :
  exists t st d,
    RouteRec._active_trips two_point_recorder !! "auto_1"%string = Some t
    /\ RouteRec.get_active_trip_status flat_earth_meters iso_micro
         two_point_recorder (seconds 200) "auto_1" = Answers (Some st)
    /\ RouteRec.st_gps_points_count st = 2
    /\ head (RouteRec.stop_recording flat_earth_meters iso_micro
               timestamp_seconds year_2025 month_january day_of_january
               hour_utc minute_utc second_utc two_point_recorder (seconds 300)
               accepting_db "auto_1").2
       = Some (RouteRec.SaveTripRecord d)
    /\ RouteRec.td_total_distance_km d
       = or_default (Some (RouteRec.st_estimated_distance_km st)) 0.
Proof.
  destruct (RouteRec._active_trips two_point_recorder !! "auto_1"%string)
    as [t|] eqn:Ht; [|vm_compute in Ht; discriminate].
  destruct (RouteRec.get_active_trip_status flat_earth_meters iso_micro
              two_point_recorder (seconds 200) "auto_1") as [[st|]|] eqn:Hst;
    [|vm_compute in Hst; discriminate|vm_compute in Hst; discriminate].
  assert (Ht' := Ht). vm_compute in Ht'. injection Ht' as Ht'.
  assert (Hst' := Hst). vm_compute in Hst'. injection Hst' as Hst'.
  assert (Hne : RouteRec.gps_points t <> [])
    by (rewrite <- Ht'; discriminate).
  assert (Hmin : int_of_float
                   (total_seconds (dt_sub (seconds 300) (RouteRec.start_time t))
                    / 60)%float = Some 5)
    by (rewrite <- Ht'; vm_compute; reflexivity).
  destruct (saved_record_matches_live_status flat_earth_meters iso_micro
              timestamp_seconds year_2025 month_january day_of_january hour_utc
              minute_utc second_utc two_point_recorder (seconds 200)
              (seconds 300) accepting_db "auto_1" t st 5 Ht Hne Hst Hmin)
    as (d & Hhead & Hdist & _).
  exists t, st, d. split; [reflexivity|]. split; [reflexivity|].
  split; [rewrite <- Hst'; reflexivity|]. split; assumption.
Defined.

End RegistryFacts.


(** * Trip ids repeat within a millisecond *)

Module TripIdFacts.
Import Py TripSM Samples.

(** Two clock readings whose text agrees up to the milliseconds give the
    same id for the same prefix. *)
Lemma same_millisecond_same_id (strftime_id : datetime -> string)
    (t1 t2 : datetime) (prefix : string) :
  str_drop_last 3 (strftime_id t1) = str_drop_last 3 (strftime_id t2) ->
  _generate_trip_id strftime_id t1 prefix = _generate_trip_id strftime_id t2 prefix.
Proof. unfold _generate_trip_id. intros ->. reflexivity. Qed.

(** C3: a manual start, a manual stop and a second manual start of the same
    user, the clock being read 100, 300 and 900 microseconds after noon.
    After every step the trip id is non-null exactly when the state is
    Active, and the stop clears the id; but [_generate_trip_id], whose
    docstring promises a unique id, cuts the clock text to milliseconds,
    so the second transition to Active installs the id of the first trip
    again: the id is not fresh. *)
Theorem second_trip_reuses_the_first_id :
  let m0 := new_machine None in
  let m1 := step strftime_jan1 m0 (ManualStart (noon_plus 100) "u1") in
  let m2 := step strftime_jan1 m1 (ManualStop (noon_plus 300)) in
  let m3 := step strftime_jan1 m2 (ManualStart (noon_plus 900) "u1") in
  at_generate (noon_plus 100) <> at_generate (noon_plus 900)
  /\ strftime_jan1 (at_generate (noon_plus 100)) = "20250101_120000_000100"%string
  /\ strftime_jan1 (at_generate (noon_plus 900)) = "20250101_120000_000900"%string
  /\ current_state (context m0) = IDLE /\ trip_id (context m0) = None
  /\ current_state (context m1) = ACTIVE
  /\ trip_id (context m1) = Some "u1_20250101_120000_000"%string
  /\ current_state (context m2) = IDLE /\ trip_id (context m2) = None
  /\ current_state (context m3) = ACTIVE
  /\ trip_id (context m3) = trip_id (context m1).
Proof. vm_compute. repeat split; discriminate. Qed.

(** The same with automatic trips: under a configuration without
    debounce two samples above the threshold start a trip and two below
    stop it; a second trip started within the same millisecond gets the
    first id, [auto_] and the clock text, again. *)
Example automatic_trips_share_an_id :
  let cfg := mkTripConfig 3 0 0 45 in
  let go t us := ProcessSensorData (noon_plus us) (sample_at 10 t) in
  let halt t us := ProcessSensorData (noon_plus us) (sample_at 0 t) in
  let m1 := run strftime_jan1 (new_machine (Some cfg)) [go 0 100; go 1 150] in
  let m2 := run strftime_jan1 (new_machine (Some cfg))
              [go 0 100; go 1 150; halt 2 300; halt 3 350; go 4 800; go 5 900] in
  trip_id (context m1) = Some "auto_20250101_120000_000"%string
  /\ current_state (context m2) = ACTIVE
  /\ trip_id (context m2) = trip_id (context m1).
Proof. vm_compute. repeat split. Qed.

End TripIdFacts.
